(** * workingFUZE backend: the shared JSON document, its store and the
      order / chat lifecycle

    A shallow embedding of [backend/main.py] (the public API process) and
    [backend/admin.py] (the admin process with its Telegram bridge).

    Conventions of the embedding
    - Python scalars that the code only compares, tests for truth or stores
      (ids coming from JSON bodies, Telegram user ids, wallet names) are
      [pyval]; [d.get(k)] on an absent key and a stored [null] both read
      [PNone], exactly as in Python.
    - Money is IEEE binary64, as Python's [float]: the kernel's primitive
      floats.
    - Instants ([datetime.now()], ISO-8601 strings in the document) are
      integers counting microseconds, the resolution of [datetime].
    - Exceptions are values of [exn]; a function that can raise returns
      [result].  Whatever leaves a FastAPI handler other than an
      [HTTPException] is answered with status 500. *)

From Stdlib Require Import ZArith List String Ascii Bool Lia Floats.
From stdpp Require Import gmap strings list pretty.

Open Scope Z_scope.

(** ** Python scalars *)

Inductive pyval : Type :=
  | PNone
  | PInt (n : Z)
  | PStr (s : string).

#[global] Instance pyval_eq_dec : EqDecision pyval.
Proof. solve_decision. Defined.

(** [bool(v)]: [None], [0] and the empty string are falsy. *)
Definition truthy (v : pyval) : bool :=
  match v with
  | PNone => false
  | PInt n => negb (n =? 0)
  | PStr s => negb (String.eqb s "")
  end.

(** [a == b] on scalars. *)
Definition py_eq (a b : pyval) : bool := bool_decide (a = b).

(** ** Exceptions *)

Inductive exn : Type :=
  | KeyError (key : string)
  | TypeError
  | ValueError
  | AttributeError
  | OSError
  | HTTPException (status_code : Z) (detail : string)
  | RateLimitExceeded.

Inductive result (A : Type) : Type :=
  | Ok (a : A)
  | Raise (e : exn).
Arguments Ok {A} a.
Arguments Raise {A} e.

#[global] Instance result_ret : MRet result := fun A a => Ok a.
#[global] Instance result_bind : MBind result :=
  fun A B f m => match m with Ok a => f a | Raise e => Raise e end.

(** [try: body except Exception as e: handler(e)]. *)
Definition try_except {A} (body : result A) (handler : exn -> result A) : result A :=
  match body with
  | Ok a => Ok a
  | Raise e => handler e
  end.

(** The status FastAPI answers with; slowapi's [RateLimitExceeded] goes to
    the handler admin.py registers for it, which answers 429. *)
Definition http_status {A} (r : result A) : Z :=
  match r with
  | Ok _ => 200
  | Raise (HTTPException c _) => c
  | Raise RateLimitExceeded => 429
  | Raise _ => 500
  end.

(** A client error is a 4xx answer. *)
Definition client_error {A} (r : result A) : Prop :=
  400 <= http_status r < 500.

(** ** Strings: [str.lower], [sub in s], [str.strip] on ASCII text *)

Definition lower_ascii (c : ascii) : ascii :=
  let n := nat_of_ascii c in
  if (Nat.leb 65 n && Nat.leb n 90)%bool then ascii_of_nat (n + 32) else c.

Fixpoint lower (s : string) : string :=
  match s with
  | EmptyString => EmptyString
  | String c r => String (lower_ascii c) (lower r)
  end.

(** [sub in s]. *)
Fixpoint contains (sub s : string) : bool :=
  String.prefix sub s ||
  match s with
  | EmptyString => false
  | String _ r => contains sub r
  end.

Definition is_space (c : ascii) : bool :=
  let n := nat_of_ascii c in
  (Nat.eqb n 32 || (Nat.leb 9 n && Nat.leb n 13) || (Nat.leb 28 n && Nat.leb n 31))%bool.

Fixpoint lstrip (s : string) : string :=
  match s with
  | EmptyString => EmptyString
  | String c r => if is_space c then lstrip r else s
  end.

Fixpoint rstrip (s : string) : string :=
  match s with
  | EmptyString => EmptyString
  | String c r =>
      match rstrip r with
      | EmptyString => if is_space c then EmptyString else String c EmptyString
      | r' => String c r'
      end
  end.

Definition strip (s : string) : string := rstrip (lstrip s).

(** ** The document (data.json) *)

(** One hour, [timedelta(hours=1)], in microseconds. *)
Definition hour : Z := 3600 * 1000000.
Definition second : Z := 1000000.

(** What [o.get("expires_at")] holds, seen through the only use the code
    makes of it,
    [o.get("expires_at") and datetime.fromisoformat(o["expires_at"]) > now]
    with the naive [now = datetime.now()]:
    - [NoStamp]: a falsy value (absent, [null], empty string);
    - [BadStamp]: text that [fromisoformat] rejects with a [ValueError];
    - [Stamp t]: the ISO-8601 text of a naive datetime, as the code itself
      writes it with [.isoformat()];
    - [AwareStamp t]: ISO-8601 text with a UTC offset, which parses to an
      offset-aware datetime whose comparison with [now] is a [TypeError];
    - [NotText]: a truthy value that is no string, on which
      [fromisoformat] is a [TypeError]. *)
Inductive stamp : Type :=
  | NoStamp
  | BadStamp
  | Stamp (t : Z)
  | AwareStamp (t : Z)
  | NotText.

(** What an order's "crypto_type" holds: the request's wallet as it came.
    The code stores it and uses it once more, as a key into the wallet
    table: a scalar, or a JSON list or dict (given by its text), which is
    stored like any value but is unhashable. *)
Inductive wallet_value : Type :=
  | Key (v : pyval)
  | Container (text : string).
Coercion Key : pyval >-> wallet_value.

Record profile : Type := {
  p_id : Z;
  p_name : string;
  p_visible : bool;
  p_attrs : list (string * pyval)
}.

Record chat : Type := {
  c_id : Z;
  c_profile_id : Z;
  c_profile_name : string;
  c_created_at : Z;
  c_telegram_user_id : pyval
}.

Record attachment : Type := {
  file_url : string;
  file_type : string;
  file_name : string
}.

Record message : Type := {
  m_id : Z;
  m_chat_id : Z;
  m_file : option attachment;
  m_text : option string;
  m_is_from_user : bool;
  m_created_at : Z
}.

(** An order dict.  The fields the code reads with [o.get(...)] are
    [pyval]s, [PNone] standing for an absent key as well. *)
Record order : Type := {
  o_id : Z;
  o_order_number : option string;
  o_profile_id : pyval;
  o_amount : float;
  o_bonus_amount : float;
  o_total_amount : float;
  o_crypto_type : wallet_value;
  o_currency : pyval;
  o_status : pyval;
  o_created_at : Z;
  o_expires_at : stamp;
  o_telegram_user_id : pyval;
  o_booked_at : option Z
}.

Record comment : Type := {
  cm_id : Z;
  cm_profile_id : Z;
  cm_body : list (string * pyval)
}.

Record promocode : Type := {
  pc_code : string;
  pc_discount : Z;
  pc_is_active : bool
}.

(** [bonus_percentage] is [None] when the settings lack the key; a JSON
    number is read as the float Python's division makes of it. *)
Record settings : Type := {
  bonus_percentage : option float;
  crypto_wallets : gmap string string;
  other_settings : list (string * pyval)
}.

(** The document once loaded, with the sections the handlers index
    directly ([data["profiles"]], [data["chats"]], ...) in place. *)
Record document : Type := {
  profiles : list profile;
  vip_profiles : list profile;
  chats : list chat;
  messages : list message;
  comments : list comment;
  promocodes : list promocode;
  orders : list order;
  doc_settings : settings
}.

Definition set_orders (d : document) (os : list order) : document :=
  {| profiles := profiles d; vip_profiles := vip_profiles d; chats := chats d;
     messages := messages d; comments := comments d; promocodes := promocodes d;
     orders := os; doc_settings := doc_settings d |}.

Definition set_chats (d : document) (cs : list chat) : document :=
  {| profiles := profiles d; vip_profiles := vip_profiles d; chats := cs;
     messages := messages d; comments := comments d; promocodes := promocodes d;
     orders := orders d; doc_settings := doc_settings d |}.

Definition set_messages (d : document) (ms : list message) : document :=
  {| profiles := profiles d; vip_profiles := vip_profiles d; chats := chats d;
     messages := ms; comments := comments d; promocodes := promocodes d;
     orders := orders d; doc_settings := doc_settings d |}.

Definition set_profiles (d : document) (ps : list profile) : document :=
  {| profiles := ps; vip_profiles := vip_profiles d; chats := chats d;
     messages := messages d; comments := comments d; promocodes := promocodes d;
     orders := orders d; doc_settings := doc_settings d |}.

Definition set_comments (d : document) (cs : list comment) : document :=
  {| profiles := profiles d; vip_profiles := vip_profiles d; chats := chats d;
     messages := messages d; comments := cs; promocodes := promocodes d;
     orders := orders d; doc_settings := doc_settings d |}.

(** [len(xs) + 1], the id the code gives a new chat or message. *)
Definition next_len_id {A} (xs : list A) : Z := Z.of_nat (length xs) + 1.

(** The first element a generator yields, [next((x for x in l if p x), None)],
    is [List.find p l]; assigning to the keys of that element changes the
    list in place, at the position of the first match. *)
Fixpoint update_first {A} (p : A -> bool) (f : A -> A) (l : list A) : list A :=
  match l with
  | [] => []
  | x :: r => if p x then f x :: r else x :: update_first p f r
  end.

(** [l[-1]] changed in place, seen among the elements of [l] that satisfy
    [p]: the last match. *)
Fixpoint update_last {A} (p : A -> bool) (f : A -> A) (l : list A) : list A :=
  match l with
  | [] => []
  | x :: r =>
      if p x && negb (existsb p r) then f x :: r else x :: update_last p f r
  end.

(** A handler's cycle over the store: [load_data()], the handler's work on
    the loaded document, and the one [save_data(data)] at its end.  A
    handler that raises never reaches its [save_data]. *)
Definition with_store {R} (h : document -> result (document * R))
    (persisted : document) : document * result R :=
  match h persisted with
  | Ok (d', r) => (d', Ok r)
  | Raise e => (persisted, Raise e)
  end.

(** ** Uploaded files

    Saving an upload and classifying its name belong to the upload layer;
    a handler sees only their results. *)
Record upload : Type := {
  up_filename : string;       (* file.filename *)
  up_saved_url : string;      (* save_uploaded_file(file): "" when saving failed *)
  up_kind : string            (* get_file_type(file.filename) *)
}.


(** ** JSON values, as [json.load] builds them

    A dict keeps its keys in insertion order: an association list with no
    key twice. *)

#[local] Set Warnings "-register-all".

Inductive json : Type :=
  | JNull
  | JBool (b : bool)
  | JInt (n : Z)
  | JFloat (x : float)
  | JStr (s : string)
  | JList (items : list json)
  | JDict (entries : list (string * json)).

Fixpoint dict_lookup (k : string) (entries : list (string * json)) : option json :=
  match entries with
  | [] => None
  | (k', v) :: r => if String.eqb k k' then Some v else dict_lookup k r
  end.

(** [d[k] = v] on a dict: overwrite where the key stands, or add it last. *)
Fixpoint dict_store (k : string) (v : json) (entries : list (string * json))
    : list (string * json) :=
  match entries with
  | [] => [(k, v)]
  | (k', v') :: r =>
      if String.eqb k k' then (k, v) :: r else (k', v') :: dict_store k v r
  end.

(** [k in x] for a string [k]: a key of a dict, an element of a list, a
    substring of a string; anything else is not iterable. *)
Definition py_in (k : string) (x : json) : result bool :=
  match x with
  | JDict entries => Ok (bool_decide (is_Some (dict_lookup k entries)))
  | JList items =>
      Ok (existsb (fun i => match i with JStr s => String.eqb s k | _ => false end) items)
  | JStr s => Ok (contains k s)
  | _ => Raise TypeError
  end.

(** [x[k]] for a string [k]. *)
Definition getitem (x : json) (k : string) : result json :=
  match x with
  | JDict entries =>
      match dict_lookup k entries with
      | Some v => Ok v
      | None => Raise (KeyError k)
      end
  | _ => Raise TypeError
  end.

(** [x[k] = v] for a string [k]. *)
Definition setitem (x : json) (k : string) (v : json) : result json :=
  match x with
  | JDict entries => Ok (JDict (dict_store k v entries))
  | _ => Raise TypeError
  end.

(** [x.get(k, dflt)]. *)
Definition py_get (x : json) (k : string) (dflt : json) : result json :=
  match x with
  | JDict entries => Ok (default dflt (dict_lookup k entries))
  | _ => Raise AttributeError
  end.

(** [if k not in x: x[k] = dflt]. *)
Definition ensure_key (k : string) (dflt : json) (x : json) : result json :=
  present ← py_in k x;
  if present : bool then Ok x else setitem x k dflt.

(** [if k not in x[outer]: x[outer][k] = dflt]. *)
Definition ensure_nested (outer k : string) (dflt : json) (x : json) : result json :=
  inner ← getitem x outer;
  present ← py_in k inner;
  if present : bool then Ok x
  else inner' ← setitem inner k dflt; setitem x outer inner'.

(** A collection of the document read the tolerant way, [data.get(k, [])]. *)
Definition collection (k : string) (doc : json) : list json :=
  match doc with
  | JDict entries =>
      match dict_lookup k entries with
      | Some (JList items) => items
      | _ => []
      end
  | _ => []
  end.

(** The top-level collections of the document. *)
Definition collection_keys : list string :=
  ["profiles"; "vip_profiles"; "chats"; "messages"; "comments"; "promocodes"; "orders"].

(** ** The file system under the store *)

Definition DATA_FILE : string := "data.json".

Inductive fs_op : Type :=
  | OpenWrite (path : string)                (* open(path, 'w'): create or truncate *)
  | WriteChunk (path : string) (chunk : string)  (* text of json.dump reaching the file *)
  | RemoveIfExists (path : string)           (* if os.path.exists(path): os.remove(path) *)
  | Rename (src dst : string).               (* os.rename(src, dst) *)

Definition fs_step (op : fs_op) (fs : gmap string string) : gmap string string :=
  match op with
  | OpenWrite path => <[path := ""]> fs
  | WriteChunk path chunk => <[path := (default "" (fs !! path) ++ chunk)%string]> fs
  | RemoveIfExists path => delete path fs
  | Rename src dst =>
      match fs !! src with
      | Some content => <[dst := content]> (delete src fs)
      | None => fs
      end
  end.

Definition fs_run (ops : list fs_op) (fs : gmap string string) : gmap string string :=
  fold_left (fun fs op => fs_step op fs) ops fs.

(** The process dies after [k] of the operations reached the disk. *)
Definition crash_after (k : nat) (ops : list fs_op) (fs : gmap string string)
    : gmap string string :=
  fs_run (firstn k ops) fs.

(** The text [json.dump] writes, in the pieces it hands to the file. *)
Definition text_of (chunks : list string) : string :=
  fold_right String.append "" chunks.

(** ** Literals both processes share *)

Definition preview (name : string) (age : Z) (city : string) : json :=
  JDict [("name", JStr name); ("age", JInt age); ("city", JStr city); ("photo", JStr "")].

Definition catalog (name : string) (price : Z) (url : string) (previews : list json) : json :=
  JDict [("name", JStr name); ("price", JInt price); ("redirect_url", JStr url);
         ("visible", JBool true); ("preview_count", JInt 3);
         ("preview_profiles", JList previews)].

Definition default_vip_catalogs : json :=
  JDict [("vip", catalog "VIP Catalog" 199 "https://t.me/vip_channel"
                   [preview "Anna" 23 "Moscow"; preview "Sofia" 21 "Saint Petersburg";
                    preview "Maria" 25 "Kazan"]);
         ("extra_vip", catalog "Extra VIP" 699 "https://t.me/extra_vip_channel"
                   [preview "Elena" 22 "Novosibirsk"; preview "Victoria" 24 "Yekaterinburg";
                    preview "Daria" 20 "Krasnoyarsk"]);
         ("secret", catalog "Secret Catalog" 2499 "https://t.me/secret_channel"
                   [preview "Anastasia" 26 "Vladivostok"; preview "Polina" 23 "Rostov";
                    preview "Alina" 21 "Sochi"])].

Definition default_banner : json :=
  JDict [("text", JStr "Special Offer: 15% discount with promo code WELCOME15");
         ("visible", JBool true);
         ("link", JStr "https://t.me/yourchannel");
         ("link_text", JStr "Join Channel")].

Definition three_wallets : json :=
  JDict [("trc20", JStr "TY76gU8J9o8j7U6tY5r4E3W2Q1");
         ("erc20", JStr "0x8a9C6e5D8b0E2a1F3c4B6E7D8C9A0B1C2D3E4F5");
         ("bnb", JStr "bnb1q3e5r7t9y1u3i5o7p9l1k3j5h7g9f2d4s6q8w0")].

Definition eleven_wallets : json :=
  JDict [("trc20", JStr "TY76gU8J9o8j7U6tY5r4E3W2Q1");
         ("erc20", JStr "0x8a9C6e5D8b0E2a1F3c4B6E7D8C9A0B1C2D3E4F5");
         ("bnb", JStr "bnb1q3e5r7t9y1u3i5o7p9l1k3j5h7g9f2d4s6q8w0");
         ("btc", JStr "bc1qxy2kgdygjrsqtzq2n0yrf2493p83kkfjhx0wlh");
         ("zetcash", JStr "ZET1234567890abcdefghijklmnopqrstuvwxyz");
         ("doge", JStr "DH5yaieqoZN36fDVciNyRueRGvGLR3mr7L");
         ("dash", JStr "XnPBzXq3bRhQKjVqZvXmG5jKqVmPdWZgFj");
         ("ltc", JStr "LhK3pXq2BvRsQmNp7TyUjGkLmPqRsXwZyF");
         ("usdt_bep20", JStr "0x8b9C7e5D9b1E3a2F4c5B7E8D9C0A1B2C3D4E5F6");
         ("eth", JStr "0x7a8B6d4C8e0D2b1F3a4C5E6D7F8A9B0C1D2E3F4");
         ("usdc_erc20", JStr "0x6a7B5c3D7e9C1a0F2b3D4F5E6A7B8C9D0E1F2A3")].

(** ** More of Python's [str], on ASCII text *)

Definition upper_ascii (c : ascii) : ascii :=
  let n := nat_of_ascii c in
  if (Nat.leb 97 n && Nat.leb n 122)%bool then ascii_of_nat (n - 32) else c.

(** [s.upper()]. *)
Fixpoint upper (s : string) : string :=
  match s with
  | EmptyString => EmptyString
  | String c r => String (upper_ascii c) (upper r)
  end.

(** [s.split(sep)] for a one-character [sep]: never empty, and one piece
    longer than the number of separators. *)
Fixpoint split (sep : ascii) (s : string) : list string :=
  match s with
  | EmptyString => [EmptyString]
  | String c r =>
      if Ascii.eqb c sep then EmptyString :: split sep r
      else match split sep r with
           | piece :: pieces => String c piece :: pieces
           | [] => [String c EmptyString]
           end
  end.

(** [parts[i]], for an index known to be in range. *)
Definition piece (i : nat) (parts : list string) : string := nth i parts EmptyString.

(** [s.split(sep)[-1]]. *)
Definition last_piece (sep : ascii) (s : string) : string :=
  List.last (split sep s) EmptyString.

Definition is_digit (c : ascii) : bool :=
  let n := nat_of_ascii c in (Nat.leb 48 n && Nat.leb n 57)%bool.

Definition is_letter (c : ascii) : bool :=
  let n := nat_of_ascii c in
  ((Nat.leb 65 n && Nat.leb n 90) || (Nat.leb 97 n && Nat.leb n 122))%bool.

(** [c.isalnum()]. *)
Definition isalnum (c : ascii) : bool := is_letter c || is_digit c.

(** The value of a run of decimal digits read after [acc], or nothing when
    a character is no digit. *)
Fixpoint digits_value (s : string) (acc : N) : option N :=
  match s with
  | EmptyString => Some acc
  | String c r =>
      if is_digit c
      then digits_value r (acc * 10 + N.of_nat (nat_of_ascii c - 48))%N
      else None
  end.

(** [int(s)] for decimal text: blanks around it are dropped, a sign may
    lead, and at least one digit must follow. *)
Definition py_int (s : string) : result Z :=
  let unsigned (t : string) : option N :=
    match t with
    | EmptyString => None
    | _ => digits_value t 0%N
    end in
  let signed : option Z :=
    match strip s with
    | String "-"%char t => (fun n => (- Z.of_N n)%Z) <$> unsigned t
    | String "+"%char t => Z.of_N <$> unsigned t
    | t => Z.of_N <$> unsigned t
    end in
  match signed with
  | Some n => Ok n
  | None => Raise ValueError
  end.

(** [str(v)] on scalars. *)
Definition py_str (v : pyval) : string :=
  match v with
  | PNone => "None"
  | PInt n => pretty n
  | PStr s => s
  end.

(** [os.path.basename(p)]: what follows the last slash. *)
Definition basename (p : string) : string := last_piece "/"%char p.

(** [os.path.splitext(p)] on a name without slashes: the extension starts
    at the last dot, unless only dots come before it. *)
Fixpoint all_dots (s : string) : bool :=
  match s with
  | EmptyString => true
  | String c r => Ascii.eqb c "."%char && all_dots r
  end.

Fixpoint join (sep : string) (parts : list string) : string :=
  match parts with
  | [] => EmptyString
  | [x] => x
  | x :: r => (x ++ sep ++ join sep r)%string
  end.

Definition splitext (p : string) : string * string :=
  let parts := split "."%char p in
  match parts with
  | [] | [_] => (p, EmptyString)
  | _ =>
      let stem := join "." (removelast parts) in
      if all_dots stem then (p, EmptyString)
      else (stem, String "."%char (List.last parts EmptyString))
  end.

(** [s[:n]]. *)
Fixpoint prefix_of (n : nat) (s : string) : string :=
  match n, s with
  | S n', String c r => String c (prefix_of n' r)
  | _, _ => EmptyString
  end.

Fixpoint keep_chars (p : ascii -> bool) (s : string) : string :=
  match s with
  | EmptyString => EmptyString
  | String c r => if p c then String c (keep_chars p r) else keep_chars p r
  end.

(** [get_file_type(filename)], the same text in main.py and admin.py. *)
Definition get_file_type (filename : string) : string :=
  let extension := last_piece "."%char (lower filename) in
  if existsb (String.eqb extension) ["jpg"; "jpeg"; "png"; "gif"; "bmp"; "webp"]
  then "image"
  else if existsb (String.eqb extension) ["mp4"; "avi"; "mov"; "mkv"; "webm"]
  then "video"
  else "file".

(** [string.ascii_letters + string.digits]. *)
Definition order_code_characters : string :=
  "abcdefghijklmnopqrstuvwxyzABCDEFGHIJKLMNOPQRSTUVWXYZ0123456789".

(** [random.choice(characters)], for the number [r] the generator draws. *)
Definition choice (characters : string) (r : nat) : ascii :=
  match String.get (r mod String.length characters) characters with
  | Some c => c
  | None => "0"%char
  end.

(** [generate_order_code()]: eighteen draws, joined.  [draw i] is what the
    random generator yields for the [i]-th character. *)
Definition generate_order_code (draw : nat -> nat) : string :=
  fold_right (fun i code => String (choice order_code_characters (draw i)) code)
    EmptyString (seq 0 18).

(** A promo code as stored under "promocodes". *)
Record promo : Type := {
  pr_id : Z;
  pr_code : string;
  pr_discount : pyval;
  pr_is_active : bool;
  pr_used_by : list pyval;
  pr_created_at : Z
}.
(** * backend/main.py: the public API process *)

Module Main.

(** *** Payment: [process_crypto_payment] *)

(** The JSON body of POST /api/payment/crypto.  [None] is an absent key.
    The amount is seen through [float(payment_data["amount"])]: a value
    [float] converts, or one it rejects. *)
Inductive amount_field : Type :=
  | AmountAbsent
  | AmountInvalid
  | AmountNum (a : float).

Record payment_data : Type := {
  pd_profile_id : option pyval;
  pd_amount : amount_field;
  pd_currency : option pyval;
  pd_wallet : option pyval
}.

Record payment_response : Type := {
  r_order_id : Z;
  r_order_number : string;
  r_amount : float;
  r_bonus_amount : float;
  r_total_amount : float;
  r_wallet_address : string;
  r_expires_in : Z
}.

(** [payment_data["profile_id"]]. *)
Definition get_profile_id (pd : payment_data) : result pyval :=
  match pd_profile_id pd with
  | Some v => Ok v
  | None => Raise (KeyError "profile_id")
  end.

(** [float(payment_data["amount"])]. *)
Definition get_amount (pd : payment_data) : result float :=
  match pd_amount pd with
  | AmountAbsent => Raise (KeyError "amount")
  | AmountInvalid => Raise ValueError
  | AmountNum a => Ok a
  end.

(** [data.get("settings", {}).get("bonus_percentage", 5)]. *)
Definition bonus_percentage_of (d : document) : float :=
  default 5%float (bonus_percentage (doc_settings d)).

(** [amount * (bonus_percentage / 100)]. *)
Definition bonus_of (amount bonus_pct : float) : float :=
  PrimFloat.mul amount (PrimFloat.div bonus_pct 100%float).

(** [amount + bonus_amount]. *)
Definition total_of (amount bonus_pct : float) : float :=
  PrimFloat.add amount (bonus_of amount bonus_pct).

(** The generator's condition: same profile, still unpaid, same user. *)
Definition is_open_order (profile_id telegram_user_id : pyval) (o : order) : bool :=
  py_eq (o_profile_id o) profile_id
  && py_eq (o_status o) (PStr "unpaid")
  && py_eq (o_telegram_user_id o) telegram_user_id.

(** The assignments of the "existing order" branch. *)
Definition requote (amount bonus total : float) (wallet_type : wallet_value)
    (currency : pyval) (now : Z) (o : order) : order :=
  {| o_id := o_id o;
     o_order_number := o_order_number o;
     o_profile_id := o_profile_id o;
     o_amount := amount;
     o_bonus_amount := bonus;
     o_total_amount := total;
     o_crypto_type := wallet_type;
     o_currency := currency;
     o_status := o_status o;
     o_created_at := o_created_at o;
     o_expires_at := Stamp (now + hour);
     o_telegram_user_id := o_telegram_user_id o;
     o_booked_at := o_booked_at o |}.

(** [max([o.get("id", 0) for o in data["orders"]], default=0)]. *)
Definition max_id (os : list order) : Z :=
  match os with
  | [] => 0
  | o :: r => fold_left Z.max (map o_id r) (o_id o)
  end.

(** The order dict of the "new order" branch. *)
Definition new_order (os : list order) (order_number : string)
    (profile_id : pyval) (amount bonus total : float)
    (wallet_type currency : pyval) (now : Z) (telegram_user_id : pyval) : order :=
  {| o_id := max_id os + 1;
     o_order_number := Some order_number;
     o_profile_id := profile_id;
     o_amount := amount;
     o_bonus_amount := bonus;
     o_total_amount := total;
     o_crypto_type := wallet_type;
     o_currency := currency;
     o_status := PStr "unpaid";
     o_created_at := now;
     o_expires_at := Stamp (now + hour);
     o_telegram_user_id := telegram_user_id;
     o_booked_at := None |}.

(** [crypto_wallets.get(wallet_type, "")]: the wallet table has string
    keys, so only a string can be found in it. *)
Definition wallet_address (d : document) (wallet_type : pyval) : string :=
  match wallet_type with
  | PStr w => default "" (crypto_wallets (doc_settings d) !! w)
  | _ => ""
  end.

Definition response_for (d : document) (o : order) (amount bonus total : float)
    (wallet_type : pyval) : payment_response :=
  {| r_order_id := o_id o;
     r_order_number := default (pretty (o_id o)) (o_order_number o);
     r_amount := amount;
     r_bonus_amount := bonus;
     r_total_amount := total;
     r_wallet_address := wallet_address d wallet_type;
     r_expires_in := 3600 |}.

(** The handler between its [load_data()] and its [save_data(data)].
    [telegram_user_id] is [user.get("telegram_id")], [now] the clock,
    [order_number] what [generate_order_code()] draws. *)
Definition process_crypto_payment (d : document) (pd : payment_data)
    (telegram_user_id : pyval) (now : Z) (order_number : string)
    : result (document * payment_response) :=
  profile_id ← get_profile_id pd;
  amount ← get_amount pd;
  let currency := default (PStr "USD") (pd_currency pd) in
  let wallet_type := default PNone (pd_wallet pd) in
  if negb (truthy profile_id) || PrimFloat.leb amount 0%float
  then Raise (HTTPException 400 "Invalid payment data")
  else
    let bonus_pct := bonus_percentage_of d in
    let bonus := bonus_of amount bonus_pct in
    let total := PrimFloat.add amount bonus in
    match List.find (is_open_order profile_id telegram_user_id) (orders d) with
    | Some existing =>
        let upd := requote amount bonus total wallet_type currency now in
        let d' := set_orders d
                    (update_first (is_open_order profile_id telegram_user_id) upd (orders d)) in
        Ok (d', response_for d' (upd existing) amount bonus total wallet_type)
    | None =>
        let o := new_order (orders d) order_number profile_id amount bonus total
                   wallet_type currency now telegram_user_id in
        let d' := set_orders d (orders d ++ [o]) in
        Ok (d', response_for d' o amount bonus total wallet_type)
    end.

(** POST /api/payment/crypto as the store sees it. *)
Definition payment_endpoint (persisted : document) (pd : payment_data)
    (telegram_user_id : pyval) (now : Z) (order_number : string)
    : document * result payment_response :=
  with_store (fun d => process_crypto_payment d pd telegram_user_id now order_number)
    persisted.

(** *** Expiry: one round of [cleanup_expired_orders] *)

(** The comprehension's condition,
    [o.get("status") != "unpaid" or
     (o.get("expires_at") and datetime.fromisoformat(o["expires_at"]) > now)]. *)
Definition keeps (now : Z) (o : order) : result bool :=
  if negb (py_eq (o_status o) (PStr "unpaid")) then Ok true
  else match o_expires_at o with
       | NoStamp => Ok false
       | BadStamp => Raise ValueError
       | Stamp t => Ok (now <? t)
       | AwareStamp _ => Raise TypeError
       | NotText => Raise TypeError
       end.

(** The list comprehension, left to right; it stops at the first raise. *)
Fixpoint surviving (now : Z) (os : list order) : result (list order) :=
  match os with
  | [] => Ok []
  | o :: r =>
      k ← keeps now o;
      kept ← surviving now r;
      Ok (if k : bool then o :: kept else kept)
  end.

(** One turn of the loop body on the persisted document: the document
    persisted afterwards and [deleted_count].  A turn that raises is
    logged and persists nothing. *)
Definition cleanup_round (persisted : document) (now : Z) : document * result nat :=
  match surviving now (orders persisted) with
  | Ok kept =>
      let deleted_count := (length (orders persisted) - length kept)%nat in
      if Nat.ltb 0 deleted_count
      then (set_orders persisted kept, Ok deleted_count)
      else (persisted, Ok deleted_count)
  | Raise e => (persisted, Raise e)
  end.

(** *** Chat: [send_message] *)

Definition chat_of_user (profile_id : Z) (telegram_user_id : pyval) (c : chat) : bool :=
  (c_profile_id c =? profile_id) && py_eq (c_telegram_user_id c) telegram_user_id.

Definition has_id (profile_id : Z) (p : profile) : bool := p_id p =? profile_id.

(** The handler's [try] body.  [text] is [form_data.get("text")], [file]
    the form's [file] once the checks on its type have kept it. *)
Definition send_message_body (d : document) (profile_id : Z)
    (telegram_user_id : pyval) (text : option string) (file : option upload)
    (now : Z) : result (document * Z) :=
  match List.find (has_id profile_id) (profiles d) with
  | None => Raise (HTTPException 404 "Profile not found")
  | Some profile =>
      let text : option string :=
        match text with
        | Some t => if String.eqb t "" then None else Some (strip t)
        | None => None
        end in
      let no_text := match text with Some t => String.eqb t "" | None => true end in
      if no_text && negb (bool_decide (is_Some file))
      then Raise (HTTPException 400 "Text or file is required")
      else
        let dc : document * Z :=
          match List.find (chat_of_user profile_id telegram_user_id) (chats d) with
          | Some c => (d, c_id c)
          | None =>
              let c := {| c_id := next_len_id (chats d);
                          c_profile_id := profile_id;
                          c_profile_name := p_name profile;
                          c_created_at := now;
                          c_telegram_user_id := telegram_user_id |} in
              (set_chats d (chats d ++ [c]), c_id c)
          end in
        let d1 := fst dc in
        let chat_id := snd dc in
        let with_file :=
          match file with
          | Some f => if String.eqb (up_filename f) "" then None else Some f
          | None => None
          end in
        let m :=
          match with_file with
          | Some f =>
              {| m_id := next_len_id (messages d1);
                 m_chat_id := chat_id;
                 m_file := Some {| file_url := up_saved_url f;
                                   file_type := up_kind f;
                                   file_name := up_filename f |};
                 m_text := Some (default "" text);
                 m_is_from_user := true;
                 m_created_at := now |}
          | None =>
              {| m_id := next_len_id (messages d1);
                 m_chat_id := chat_id;
                 m_file := None;
                 m_text := text;
                 m_is_from_user := true;
                 m_created_at := now |}
          end in
        Ok (set_messages d1 (messages d1 ++ [m]), m_id m)
  end.

(** [except HTTPException: raise], [except Exception: raise HTTPException(500)]. *)
Definition send_message (d : document) (profile_id : Z)
    (telegram_user_id : pyval) (text : option string) (file : option upload)
    (now : Z) : result (document * Z) :=
  try_except (send_message_body d profile_id telegram_user_id text file now)
    (fun e => match e with
              | HTTPException c msg => Raise (HTTPException c msg)
              | _ => Raise (HTTPException 500 "Message send error")
              end).

(** *** The document store of the public process: [load_data], [save_data] *)

(** [_cache_ttl = 5] seconds. *)
Definition _cache_ttl : Z := 5 * second.

(** The module's globals and the disk they stand on; [log] is what
    [logger.error] was given. *)
Record store : Type := {
  disk : gmap string string;
  _data_cache : option json;
  _cache_timestamp : Z;
  log : list exn
}.

(** The document of a missing file. *)
Definition default_data : json :=
  JDict [("profiles", JList []); ("vip_profiles", JList []); ("chats", JList []);
         ("messages", JList []); ("comments", JList []); ("promocodes", JList []);
         ("orders", JList []);
         ("settings",
          JDict [("app", JDict [("app_name", JStr "Muji"); ("default_age", JInt 25);
                                ("default_city", JStr "Moscow");
                                ("vip_blurred_count", JInt 3);
                                ("extra_vip_blurred_count", JInt 3);
                                ("secret_blurred_count", JInt 3)]);
                 ("crypto_wallets", three_wallets);
                 ("banner", default_banner);
                 ("vip_catalogs", default_vip_catalogs)])].

(** The document of the [except] branch. *)
Definition error_data : json :=
  JDict [("profiles", JList []); ("chats", JList []); ("messages", JList []);
         ("orders", JList []); ("comments", JList []); ("vip_profiles", JList []);
         ("promocodes", JList []);
         ("settings", JDict [("crypto_wallets", JDict [])])].

(** The [try] body: [json.load], then the sections a file may lack.
    [json_load] is the library's parser applied to the file's text. *)
Definition read_document (json_load : string -> result json) (content : string)
    : result json :=
  loaded ← json_load content;
  loaded ← ensure_key "settings" (JDict []) loaded;
  current ← py_get loaded "settings" (JDict []);
  present ← py_in "crypto_wallets" current;
  loaded ← (if present : bool then Ok loaded
            else inner ← getitem loaded "settings";
                 inner' ← setitem inner "crypto_wallets" three_wallets;
                 setitem loaded "settings" inner');
  loaded ← ensure_key "orders" (JList []) loaded;
  loaded ← ensure_key "chats" (JList []) loaded;
  loaded ← ensure_key "messages" (JList []) loaded;
  loaded ← ensure_key "comments" (JList []) loaded;
  ensure_key "vip_profiles" (JList []) loaded.

(** [_data_cache is not None and (t - _cache_timestamp) < _cache_ttl]. *)
Definition cache_hit (st : store) (t : Z) : option json :=
  match _data_cache st with
  | Some doc => if t - _cache_timestamp st <? _cache_ttl then Some doc else None
  | None => None
  end.

Definition cached (st : store) (doc : json) (t : Z) (logged : list exn) : store :=
  {| disk := disk st; _data_cache := Some doc; _cache_timestamp := t;
     log := log st ++ logged |}.

(** What the locked section builds when the cache is stale: the default
    document of a missing file, the document read and back-filled, or the
    fallback of the [except] branch with the exception it logs. *)
Definition from_disk (json_load : string -> result json) (files : gmap string string)
    : result (json * list exn) :=
  match files !! DATA_FILE with
  | None => Ok (default_data, [])
  | Some content =>
      try_except
        (loaded ← read_document json_load content; Ok (loaded, []))
        (fun e => Ok (error_data, [e]))
  end.

(** [load_data()], with the two readings of the clock it makes.  Values
    stand for themselves here, so [.copy()] returns its argument; what the
    copy shares with the cache is the matter of [Shared] below. *)
Definition load_data (json_load : string -> result json) (st : store)
    (current_time current_time_check : Z) : result (json * store) :=
  match cache_hit st current_time with
  | Some doc => Ok (doc, st)
  | None =>
      match cache_hit st current_time_check with
      | Some doc => Ok (doc, st)
      | None =>
          built ← from_disk json_load (disk st);
          Ok (fst built, cached st (fst built) current_time_check (snd built))
      end
  end.

Definition temp_file : string := (DATA_FILE ++ ".tmp")%string.

(** What [save_data] does to the disk, in order.  [chunks] is the text
    [json.dump(data, f, ...)] produces, in the pieces it writes. *)
Definition save_script (chunks : list string) : list fs_op :=
  OpenWrite temp_file :: map (WriteChunk temp_file) chunks
  ++ [RemoveIfExists DATA_FILE; Rename temp_file DATA_FILE].

(** [data.copy()]: dicts and lists have the method, no other JSON value. *)
Definition has_copy (data : json) : bool :=
  match data with
  | JDict _ | JList _ => true
  | _ => false
  end.

(** [save_data(data)] at clock reading [now], the file system and the
    serializer not failing.  The file is replaced first; then
    [_data_cache = data.copy()] either succeeds, or raises an
    [AttributeError] that the [except] branch logs before it returns
    [False], the cache and its time stamp left as they were. *)
Definition save_data (json_dump : json -> list string) (st : store) (data : json)
    (now : Z) : bool * store :=
  let written := fs_run (save_script (json_dump data)) (disk st) in
  if has_copy data
  then (true,
        {| disk := written;
           _data_cache := Some data;
           _cache_timestamp := now;
           log := log st |})
  else (false,
        {| disk := written;
           _data_cache := _data_cache st;
           _cache_timestamp := _cache_timestamp st;
           log := log st ++ [AttributeError] |}).

(** *** Orders of a user: [delete_order] *)

(** The generator's condition: this id, and the caller's own. *)
Definition is_own_order (order_id : Z) (telegram_user_id : pyval) (o : order) : bool :=
  (o_id o =? order_id) && py_eq (o_telegram_user_id o) telegram_user_id.

(** DELETE /api/orders/{order_id} between its [load_data()] and its
    [save_data(data)]. *)
Definition delete_order (d : document) (order_id : Z) (telegram_user_id : pyval)
    : result (document * Z) :=
  match List.find (is_own_order order_id telegram_user_id) (orders d) with
  | None => Raise (HTTPException 404 "Order not found or unauthorized")
  | Some _ =>
      let initial_count := length (orders d) in
      let remaining := List.filter (fun o => negb (o_id o =? order_id)) (orders d) in
      if Nat.ltb (length remaining) initial_count
      then Ok (set_orders d remaining, order_id)
      else Raise (HTTPException 404 "Order not found")
  end.

Definition delete_order_endpoint (persisted : document) (order_id : Z)
    (telegram_user_id : pyval) : document * result Z :=
  with_store (fun d => delete_order d order_id telegram_user_id) persisted.

(** *** Reading a chat: [get_chat_messages], [get_chat_updates] *)

(** GET /api/chats/{profile_id}/messages. *)
Definition get_chat_messages (d : document) (profile_id : Z) (telegram_user_id : pyval)
    : result (list message) :=
  try_except
    (match List.find (chat_of_user profile_id telegram_user_id) (chats d) with
     | None => Ok []
     | Some c => Ok (List.filter (fun m => m_chat_id m =? c_id c) (messages d))
     end)
    (fun e => Raise (HTTPException 500 "Message retrieval error")).

(** [max([m["id"] for m in data["messages"]]) if data["messages"] else 0]. *)
Definition max_message_id (ms : list message) : Z :=
  match ms with
  | [] => 0
  | m :: r => fold_left Z.max (map m_id r) (m_id m)
  end.

(** GET /api/chats/{profile_id}/updates: the new messages and the cursor to
    poll with next. *)
Definition get_chat_updates (d : document) (profile_id : Z) (last_message_id : Z)
    (telegram_user_id : pyval) : result (list message * Z) :=
  try_except
    (match List.find (chat_of_user profile_id telegram_user_id) (chats d) with
     | None => Ok ([], 0)
     | Some c =>
         Ok (List.filter (fun m => (m_chat_id m =? c_id c) && (last_message_id <? m_id m))
               (messages d),
             max_message_id (messages d))
     end)
    (fun e => Raise (HTTPException 500 "Chat updates error")).

(** *** Promo codes: [validate_promocode] *)

Record validation : Type := {
  v_valid : bool;
  v_discount : option pyval;
  v_message : string
}.

(** POST /api/promocodes/validate on the "promocodes" section; [code] is
    the body's "code", [None] when the key is absent. *)
Definition validate_promocode (promocodes : list promo) (code : option pyval)
    : result validation :=
  match code with
  | None => Raise (KeyError "code")
  | Some (PStr text) =>
      let code := upper text in
      match List.find (fun p => String.eqb (pr_code p) code) promocodes with
      | None =>
          Ok {| v_valid := false; v_discount := None; v_message := "Promocode not found" |}
      | Some p =>
          if negb (pr_is_active p)
          then Ok {| v_valid := false; v_discount := None;
                     v_message := "Promocode is inactive" |}
          else Ok {| v_valid := true; v_discount := Some (pr_discount p);
                     v_message := ("Promocode activated! " ++ py_str (pr_discount p)
                                   ++ "% discount applied")%string |}
      end
  | Some _ => Raise AttributeError
  end.

End Main.
(** * backend/admin.py: the admin process and its Telegram bridge *)

Module Admin.

(** *** Expiry: [cleanup_expired_orders], the same text as in main.py *)

Definition keeps : Z -> order -> result bool := Main.keeps.
Definition surviving : Z -> list order -> result (list order) := Main.surviving.

Definition cleanup_round (persisted : document) (now : Z) : document * result nat :=
  match surviving now (orders persisted) with
  | Ok kept =>
      let deleted_count := (length (orders persisted) - length kept)%nat in
      if Nat.ltb 0 deleted_count
      then (set_orders persisted kept, Ok deleted_count)
      else (persisted, Ok deleted_count)
  | Raise e => (persisted, Raise e)
  end.

(** *** [delete_profile] *)

Definition delete_profile (d : document) (profile_id : Z) : document :=
  let profiles' := List.filter (fun p => negb (p_id p =? profile_id)) (profiles d) in
  let profile_chats := List.filter (fun c => c_profile_id c =? profile_id) (chats d) in
  let chat_ids := map c_id profile_chats in
  let chats' := List.filter (fun c => negb (c_profile_id c =? profile_id)) (chats d) in
  let messages' :=
    List.filter (fun m => negb (existsb (Z.eqb (m_chat_id m)) chat_ids)) (messages d) in
  let comments' :=
    List.filter (fun c => negb (cm_profile_id c =? profile_id)) (comments d) in
  {| profiles := profiles'; vip_profiles := vip_profiles d; chats := chats';
     messages := messages'; comments := comments'; promocodes := promocodes d;
     orders := orders d; doc_settings := doc_settings d |}.

(** *** Booking on an admin reply *)

(** [last_order["status"] = "booked"; last_order["booked_at"] = now]. *)
Definition book (now : Z) (o : order) : order :=
  {| o_id := o_id o;
     o_order_number := o_order_number o;
     o_profile_id := o_profile_id o;
     o_amount := o_amount o;
     o_bonus_amount := o_bonus_amount o;
     o_total_amount := o_total_amount o;
     o_crypto_type := o_crypto_type o;
     o_currency := o_currency o;
     o_status := PStr "booked";
     o_created_at := o_created_at o;
     o_expires_at := o_expires_at o;
     o_telegram_user_id := o_telegram_user_id o;
     o_booked_at := Some now |}.

(** [text and "payment successful" in text.lower()]. *)
Definition confirms_payment (text : string) : bool :=
  negb (String.eqb text "") && contains "payment successful" (lower text).

Definition has_id (profile_id : Z) (p : profile) : bool := p_id p =? profile_id.

Definition new_chat (d : document) (profile_id : Z) (profile : profile)
    (telegram_user_id : pyval) (now : Z) : chat :=
  {| c_id := next_len_id (chats d);
     c_profile_id := profile_id;
     c_profile_name := p_name profile;
     c_created_at := now;
     c_telegram_user_id := telegram_user_id |}.

Definition text_message (d : document) (chat_id : Z) (text : string) (now : Z) : message :=
  {| m_id := next_len_id (messages d);
     m_chat_id := chat_id;
     m_file := None;
     m_text := Some text;
     m_is_from_user := false;
     m_created_at := now |}.

(** The filter of [send_admin_reply_from_telegram]: the profile's unpaid
    orders, narrowed to the user when one is known. *)
Definition telegram_order_filter (profile_id : Z) (telegram_user_id : pyval)
    (o : order) : bool :=
  py_eq (o_profile_id o) (PInt profile_id)
  && py_eq (o_status o) (PStr "unpaid")
  && (negb (truthy telegram_user_id)
      || py_eq (o_telegram_user_id o) telegram_user_id).

(** A reply typed in Telegram.  Every exception is caught and logged, and
    a missing profile returns before anything is saved: the result is the
    document persisted afterwards. *)
Definition send_admin_reply_from_telegram (d : document) (profile_id : Z)
    (text : string) (telegram_user_id : pyval) (now : Z) : document :=
  match List.find (has_id profile_id) (profiles d) with
  | None => d
  | Some profile =>
      let found :=
        if truthy telegram_user_id
        then List.find (fun c => (c_profile_id c =? profile_id)
                                 && py_eq (c_telegram_user_id c) telegram_user_id) (chats d)
        else List.find (fun c => (c_profile_id c =? profile_id)
                                 && negb (truthy (c_telegram_user_id c))) (chats d) in
      let dc : document * Z :=
        match found with
        | Some c => (d, c_id c)
        | None =>
            let c := new_chat d profile_id profile telegram_user_id now in
            (set_chats d (chats d ++ [c]), c_id c)
        end in
      let d1 := fst dc in
      let d2 := set_messages d1 (messages d1 ++ [text_message d1 (snd dc) text now]) in
      if confirms_payment text
      then set_orders d2
             (update_last (telegram_order_filter profile_id telegram_user_id)
                (book now) (orders d2))
      else d2
  end.

(** The filter of [send_admin_reply]: the profile's unpaid orders. *)
Definition reply_order_filter (profile_id : Z) (o : order) : bool :=
  py_eq (o_profile_id o) (PInt profile_id) && py_eq (o_status o) (PStr "unpaid").

(** The [for file in files] loop: one message per upload that has a name
    and was saved. *)
Fixpoint add_file_messages (d : document) (chat_id : Z) (text : string)
    (now : Z) (files : list upload) : document * bool :=
  match files with
  | [] => (d, false)
  | f :: rest =>
      if negb (String.eqb (up_filename f) "") && negb (String.eqb (up_saved_url f) "")
      then
        let m := {| m_id := next_len_id (messages d);
                    m_chat_id := chat_id;
                    m_file := Some {| file_url := up_saved_url f;
                                      file_type := up_kind f;
                                      file_name := up_filename f |};
                    m_text := Some text;
                    m_is_from_user := false;
                    m_created_at := now |} in
        let dr := add_file_messages (set_messages d (messages d ++ [m])) chat_id text now rest in
        (fst dr, true)
      else add_file_messages d chat_id text now rest
  end.

(** POST /api/admin/chats/{profile_id}/reply between its [load_data()]
    and its [save_data(data)].  [chat_id] and [telegram_user_id] are the
    optional query parameters, [form_text] is [form.get("text", "")],
    [files] is [form.getlist("files")]. *)
Definition send_admin_reply (d : document) (profile_id : Z)
    (chat_id : option Z) (telegram_user_id : pyval)
    (form_text : string) (files : list upload) (now : Z) : result document :=
  match List.find (has_id profile_id) (profiles d) with
  | None => Raise (HTTPException 404 "Profile not found")
  | Some profile =>
      let by_id := match chat_id with Some n => negb (n =? 0) | None => false end in
      let found :=
        if by_id
        then List.find (fun c => bool_decide (Some (c_id c) = chat_id)) (chats d)
        else if truthy telegram_user_id
        then List.find (fun c => (c_profile_id c =? profile_id)
                                 && py_eq (c_telegram_user_id c) telegram_user_id) (chats d)
        else List.find (fun c => c_profile_id c =? profile_id) (chats d) in
      let dc : document * Z :=
        match found with
        | Some c => (d, c_id c)
        | None =>
            let c := new_chat d profile_id profile telegram_user_id now in
            (set_chats d (chats d ++ [c]), c_id c)
        end in
      let d1 := fst dc in
      let cid := snd dc in
      try_except
        (let text := strip form_text in
         let has_text := negb (String.eqb text "") in
         let df := add_file_messages d1 cid text now files in
         let d2 := fst df in
         let has_files := snd df in
         let d3 :=
           if negb has_files && has_text
           then set_messages d2 (messages d2 ++ [text_message d2 cid text now])
           else d2 in
         if negb has_files && negb has_text
         then Raise (HTTPException 400 "Text or files is required")
         else
           Ok (if confirms_payment text
               then set_orders d3
                      (update_last (reply_order_filter profile_id) (book now) (orders d3))
               else d3))
        (fun e => Raise (HTTPException 500 "Error sending message"))
  end.

(** *** The document store of the admin process: [load_data], [save_data] *)

(** The document of a missing file; [env_wallets] is what
    [get_crypto_wallets_from_env()] reads from the environment. *)
Definition default_data (env_wallets : json) : json :=
  JDict [("profiles", JList []); ("vip_profiles", JList []); ("chats", JList []);
         ("messages", JList []); ("comments", JList []); ("promocodes", JList []);
         ("orders", JList []);
         ("settings",
          JDict [("crypto_wallets", env_wallets);
                 ("bonus_percentage", JInt 5);
                 ("banner", default_banner);
                 ("vip_catalogs", default_vip_catalogs)])].

(** The document of the [except] branch. *)
Definition error_data : json :=
  JDict [("profiles", JList []); ("vip_profiles", JList []); ("chats", JList []);
         ("messages", JList []); ("comments", JList []); ("promocodes", JList []);
         ("settings",
          JDict [("crypto_wallets", eleven_wallets);
                 ("banner", default_banner);
                 ("vip_catalogs", default_vip_catalogs)])].

(** The [try] body. *)
Definition read_document (json_load : string -> result json) (content : string)
    : result json :=
  data ← json_load content;
  data ← ensure_key "settings" (JDict []) data;
  data ← ensure_nested "settings" "crypto_wallets" eleven_wallets data;
  data ← ensure_nested "settings" "bonus_percentage" (JInt 5) data;
  data ← ensure_nested "settings" "banner" default_banner data;
  data ← ensure_nested "settings" "vip_catalogs" default_vip_catalogs data;
  data ← ensure_key "promocodes" (JList []) data;
  data ← ensure_key "comments" (JList []) data;
  data ← ensure_key "vip_profiles" (JList []) data;
  ensure_key "orders" (JList []) data.

(** [load_data()]: no cache; the result and what was logged. *)
Definition load_data (json_load : string -> result json) (env_wallets : json)
    (disk : gmap string string) : result (json * list exn) :=
  match disk !! DATA_FILE with
  | None => Ok (default_data env_wallets, [])
  | Some content =>
      try_except
        (data ← read_document json_load content; Ok (data, []))
        (fun e => Ok (error_data, [e]))
  end.

(** What [save_data] does to the disk, in order: the file itself is opened
    for writing and the text is dumped into it. *)
Definition save_script (chunks : list string) : list fs_op :=
  OpenWrite DATA_FILE :: map (WriteChunk DATA_FILE) chunks.

Definition save_data (json_dump : json -> list string) (disk : gmap string string)
    (data : json) : bool * gmap string string :=
  (true, fs_run (save_script (json_dump data)) disk).

(** *** The admin process's own payment endpoint: [crypto_payment] *)

(** The JSON body, every key read with [body.get]. *)
Record payment_body : Type := {
  b_profile_id : pyval;
  b_amount : Main.amount_field;
  b_currency : option pyval;
  b_wallet : wallet_value;
  b_telegram_user_id : pyval
}.

Record payment_answer : Type := {
  a_order_id : Z;
  a_amount : float;
  a_bonus_amount : float;
  a_total_amount : float;
  a_wallet_address : string;
  a_expires_in : Z
}.

(** [float(body.get("amount", 0))]. *)
Definition body_amount (b : payment_body) : result float :=
  match b_amount b with
  | Main.AmountAbsent => Ok 0%float
  | Main.AmountInvalid => Raise ValueError
  | Main.AmountNum a => Ok a
  end.

(** The order dict of the "new order" branch: no order number, and the
    list length plus one as id. *)
Definition new_order (os : list order) (profile_id : pyval) (amount bonus total : float)
    (wallet_type : wallet_value) (currency : pyval) (now : Z)
    (telegram_user_id : pyval) : order :=
  {| o_id := next_len_id os;
     o_order_number := None;
     o_profile_id := profile_id;
     o_amount := amount;
     o_bonus_amount := bonus;
     o_total_amount := total;
     o_crypto_type := wallet_type;
     o_currency := currency;
     o_status := PStr "unpaid";
     o_created_at := now;
     o_expires_at := Stamp (now + hour);
     o_telegram_user_id := telegram_user_id;
     o_booked_at := None |}.

(** [data["settings"]["crypto_wallets"].get(wallet_type, "")]: a list or a
    dict is unhashable, and the lookup raises. *)
Definition wallet_lookup (d : document) (wallet_type : wallet_value) : result string :=
  match wallet_type with
  | Key v => Ok (Main.wallet_address d v)
  | Container _ => Raise TypeError
  end.

(** The [try] body; [body] is [None] when [request.json()] raises.  The
    result is the document persisted when the body ends, which is the
    loaded one when it raises before [save_data(data)], and what the body
    returns or raises: the answer is built after [save_data(data)]. *)
Definition crypto_payment_body (d : document) (body : option payment_body) (now : Z)
    : document * result payment_answer :=
  match body with
  | None => (d, Raise ValueError)
  | Some b =>
      let profile_id := b_profile_id b in
      match body_amount b with
      | Raise e => (d, Raise e)
      | Ok amount =>
          let currency := default (PStr "USD") (b_currency b) in
          let wallet_type := b_wallet b in
          let telegram_user_id := b_telegram_user_id b in
          if negb (truthy profile_id) || PrimFloat.leb amount 0%float
          then (d, Raise (HTTPException 400 "Invalid payment data"))
          else
            let bonus := Main.bonus_of amount (Main.bonus_percentage_of d) in
            let total := PrimFloat.add amount bonus in
            let answer (d' : document) (o : order) : result payment_answer :=
              address ← wallet_lookup d' wallet_type;
              Ok {| a_order_id := o_id o; a_amount := amount; a_bonus_amount := bonus;
                    a_total_amount := total;
                    a_wallet_address := address;
                    a_expires_in := 3600 |} in
            match List.find (Main.is_open_order profile_id telegram_user_id)
                    (orders d) with
            | Some existing =>
                let upd := Main.requote amount bonus total wallet_type currency now in
                let d' := set_orders d
                            (update_first
                               (Main.is_open_order profile_id telegram_user_id)
                               upd (orders d)) in
                (d', answer d' (upd existing))
            | None =>
                let o := new_order (orders d) profile_id amount bonus total wallet_type
                           currency now telegram_user_id in
                let d' := set_orders d (orders d ++ [o]) in
                (d', answer d' o)
            end
      end
  end.

(** [except Exception as e:
     raise HTTPException(500, f"Payment processing error: {str(e)}")]: it
    catches the handler's own [HTTPException(400)] as well.  [describe] is
    [str] on exceptions. *)
Definition payment_error (describe : exn -> string) (e : exn) : exn :=
  HTTPException 500 ("Payment processing error: " ++ describe e).

(** What the handler returns, with the document it has saved, or raises. *)
Definition crypto_payment (describe : exn -> string) (d : document)
    (body : option payment_body) (now : Z) : result (document * payment_answer) :=
  match crypto_payment_body d body now with
  | (d', Ok a) => Ok (d', a)
  | (_, Raise e) => Raise (payment_error describe e)
  end.

(** POST /api/payment/crypto of admin.py as the store sees it: the
    document persisted afterwards and the answer. *)
Definition crypto_payment_endpoint (describe : exn -> string) (persisted : document)
    (body : option payment_body) (now : Z) : document * result payment_answer :=
  (fst (crypto_payment_body persisted body now),
   try_except (snd (crypto_payment_body persisted body now))
     (fun e => Raise (payment_error describe e))).

(** *** Comments: [delete_comment] *)

(** [l.pop(i)] for the first [i] whose element satisfies [p]. *)
Fixpoint pop_first {A} (p : A -> bool) (l : list A) : option (A * list A) :=
  match l with
  | [] => None
  | x :: r =>
      if p x then Some (x, r)
      else match pop_first p r with
           | Some (y, r') => Some (y, x :: r')
           | None => None
           end
  end.

Definition delete_comment (d : document) (profile_id comment_id : Z)
    : result (document * comment) :=
  match pop_first (fun c => (cm_id c =? comment_id) && (cm_profile_id c =? profile_id))
          (comments d) with
  | None => Raise (HTTPException 404 "Comment not found")
  | Some (deleted_comment, rest) => Ok (set_comments d rest, deleted_comment)
  end.

(** *** Promo codes: create, toggle, delete, on the "promocodes" section *)

(** [promocode["code"].upper()]. *)
Definition code_upper (code : option pyval) : result string :=
  match code with
  | None => Raise (KeyError "code")
  | Some (PStr text) => Ok (upper text)
  | Some _ => Raise AttributeError
  end.

Definition create_admin_promocode (promocodes : list promo) (code discount : option pyval)
    (now : Z) : result (list promo * promo) :=
  wanted ← code_upper code;
  match List.find (fun p => String.eqb (pr_code p) wanted) promocodes with
  | Some _ => Raise (HTTPException 400 "Promocode already exists")
  | None =>
      match discount with
      | None => Raise (KeyError "discount")
      | Some discount =>
          let new_promocode :=
            {| pr_id := next_len_id promocodes; pr_code := wanted;
               pr_discount := discount; pr_is_active := true;
               pr_used_by := []; pr_created_at := now |} in
          Ok (promocodes ++ [new_promocode], new_promocode)
      end
  end.

Definition flip_active (p : promo) : promo :=
  {| pr_id := pr_id p; pr_code := pr_code p; pr_discount := pr_discount p;
     pr_is_active := negb (pr_is_active p); pr_used_by := pr_used_by p;
     pr_created_at := pr_created_at p |}.

Definition toggle_admin_promocode (promocodes : list promo) (promocode_id : Z)
    : list promo :=
  update_first (fun p => pr_id p =? promocode_id) flip_active promocodes.

Definition delete_admin_promocode (promocodes : list promo) (promocode_id : Z)
    : list promo :=
  List.filter (fun p => negb (pr_id p =? promocode_id)) promocodes.

(** *** File names: [sanitize_filename] *)

Definition allowed_in_filename (c : ascii) : bool :=
  isalnum c || existsb (Ascii.eqb c) ["."%char; "_"%char; "-"%char].

Definition sanitize_filename (filename : string) : string :=
  let filename := basename filename in
  let filename := keep_chars allowed_in_filename filename in
  if Nat.ltb 100 (String.length filename)
  then (prefix_of 95 (fst (splitext filename)) ++ snd (splitext filename))%string
  else filename.

(** *** Admin login and its rate limit *)

(** What the process reads from its environment at start. *)
Record login_config : Type := {
  MAX_LOGIN_ATTEMPTS : Z;
  LOGIN_RATE_LIMIT_WINDOW : Z;            (* minutes *)
  admin_username : string;
  admin_password : string
}.

Record admin_session : Type := {
  s_username : pyval;
  s_created_at : Z
}.

(** The module's globals [login_attempts] and [active_sessions]. *)
Record auth : Type := {
  login_attempts : gmap string (list Z);
  active_sessions : gmap string admin_session
}.

(** [now - attempt_time < timedelta(minutes=LOGIN_RATE_LIMIT_WINDOW)]. *)
Definition recent (cfg : login_config) (now attempt_time : Z) : bool :=
  now - attempt_time <? LOGIN_RATE_LIMIT_WINDOW cfg * 60 * second.

(** [check_login_rate_limit(ip)]: old attempts are dropped, then counted. *)
Definition check_login_rate_limit (cfg : login_config) (now : Z) (ip_address : string)
    (attempts : gmap string (list Z)) : bool * gmap string (list Z) :=
  let attempts :=
    match attempts !! ip_address with
    | Some times => <[ip_address := List.filter (recent cfg now) times]> attempts
    | None => attempts
    end in
  match attempts !! ip_address with
  | Some times =>
      if MAX_LOGIN_ATTEMPTS cfg <=? Z.of_nat (length times)
      then (false, attempts) else (true, attempts)
  | None => (true, attempts)
  end.

(** [record_login_attempt(ip)]. *)
Definition record_login_attempt (now : Z) (ip_address : string)
    (attempts : gmap string (list Z)) : gmap string (list Z) :=
  <[ip_address := default [] (attempts !! ip_address) ++ [now]]> attempts.

(** [create_session(username)], for the uuid [session_id] it draws. *)
Definition create_session (now : Z) (session_id : string) (username : pyval)
    (sessions : gmap string admin_session) : gmap string admin_session :=
  <[session_id := {| s_username := username; s_created_at := now |}]> sessions.

(** The handler of POST /api/login.  [body] is the JSON object of the
    request as its two fields [body.get("username")] and
    [body.get("password")], scalars here, and [None] when the request holds
    no JSON object; [now] is the clock when the attempts are counted,
    [later] the clock when an attempt is recorded or a session made. *)
Definition login_body (cfg : login_config) (st : auth) (client_ip : string)
    (body : option (pyval * pyval)) (session_id : string) (now later : Z)
    : auth * result unit :=
  let checked := check_login_rate_limit cfg now client_ip (login_attempts st) in
  let st1 := {| login_attempts := snd checked; active_sessions := active_sessions st |} in
  if negb (fst checked)
  then (st1, Raise (HTTPException 429
                      ("Too many login attempts. Please try again in "
                       ++ pretty (LOGIN_RATE_LIMIT_WINDOW cfg) ++ " minutes.")))
  else
    match body with
    | None => (st1, Raise (HTTPException 400 "Ошибка входа"))
    | Some (username, password) =>
        if negb (truthy username) || negb (truthy password)
        then (st1, Raise (HTTPException 400 "Логин и пароль обязательны"))
        else if py_eq username (PStr (admin_username cfg))
                && py_eq password (PStr (admin_password cfg))
        then
          let cleared :=
            match login_attempts st1 !! client_ip with
            | Some _ => <[client_ip := []]> (login_attempts st1)
            | None => login_attempts st1
            end in
          ({| login_attempts := cleared;
              active_sessions :=
                create_session later session_id username (active_sessions st1) |},
           Ok tt)
        else
          ({| login_attempts := record_login_attempt later client_ip (login_attempts st1);
              active_sessions := active_sessions st1 |},
           Raise (HTTPException 401 "Неверный логин или пароль"))
    end.

(** POST /api/login as it is served, behind [@limiter.limit("10/minute")].
    [within_limit] is slowapi's verdict on the request, ten per minute and
    remote address; a request it refuses raises [RateLimitExceeded] and
    never reaches the handler. *)
Definition login (cfg : login_config) (st : auth) (client_ip : string)
    (within_limit : bool) (body : option (pyval * pyval)) (session_id : string)
    (now later : Z) : auth * result unit :=
  if within_limit
  then login_body cfg st client_ip body session_id now later
  else (st, Raise RateLimitExceeded).

(** [verify_session(session_id)]. *)
Definition verify_session (st : auth) (session_id : string) : bool :=
  negb (String.eqb session_id "") && bool_decide (is_Some (active_sessions st !! session_id)).

(** *** The Telegram bridge: buttons and their payloads *)

(** The [callback_data] of the two buttons under a notification of
    [send_telegram_notification]. *)
Definition reply_data (profile_id : Z) (telegram_user_id : pyval) : string :=
  if truthy telegram_user_id
  then ("reply_" ++ pretty profile_id ++ "_" ++ py_str telegram_user_id)%string
  else ("reply_" ++ pretty profile_id)%string.

Definition payment_data (profile_id : Z) (telegram_user_id : pyval) : string :=
  if truthy telegram_user_id
  then ("payment_" ++ pretty profile_id ++ "_" ++ py_str telegram_user_id)%string
  else ("payment_" ++ pretty profile_id)%string.

(** The buttons are attached [if profile_id:]. *)
Definition keyboard (profile_id : Z) (telegram_user_id : pyval)
    : option (string * string) :=
  if profile_id =? 0 then None
  else Some (reply_data profile_id telegram_user_id,
             payment_data profile_id telegram_user_id).

Record reply_session : Type := {
  rs_profile_id : Z;
  rs_telegram_user_id : pyval
}.

(** The document on disk and the module's global [active_reply_sessions],
    keyed by admin id. *)
Record bridge : Type := {
  br_document : document;
  active_reply_sessions : gmap Z reply_session
}.

(** [parts = data.split('_')], [int(parts[1])],
    [parts[2] if len(parts) > 2 else None]. *)
Definition callback_target (data : string) : result (Z * pyval) :=
  let parts := split "_"%char data in
  profile_id ← py_int (piece 1 parts);
  Ok (profile_id,
      if Nat.ltb 2 (length parts) then PStr (piece 2 parts) else PNone).

(** [handle_callback_query]: a press on "reply" opens the reply mode of
    this admin, a press on "payment" sends the text "payment successful"
    through [send_admin_reply_from_telegram]; an exception is reported to
    the admin and changes nothing.  The calls to the Telegram API are
    taken to succeed. *)
Definition handle_callback_query (b : bridge) (data : string) (admin_id : Z) (now : Z)
    : bridge * option exn :=
  if String.prefix "reply_" data then
    match callback_target data with
    | Ok (profile_id, telegram_user_id) =>
        ({| br_document := br_document b;
            active_reply_sessions :=
              <[admin_id := {| rs_profile_id := profile_id;
                               rs_telegram_user_id := telegram_user_id |}]>
                (active_reply_sessions b) |}, None)
    | Raise e => (b, Some e)
    end
  else if String.prefix "payment_" data then
    match callback_target data with
    | Ok (profile_id, telegram_user_id) =>
        ({| br_document :=
              send_admin_reply_from_telegram (br_document b) profile_id
                "payment successful" telegram_user_id now;
            active_reply_sessions := active_reply_sessions b |}, None)
    | Raise e => (b, Some e)
    end
  else (b, None).

End Admin.

(** * Objects held by reference: what [dict.copy()] shares

    The cache of the public process and the document a handler works on
    are Python objects.  Here lists and dicts live in a heap and values
    point to them, so that two dicts can hold the very same list. *)

Module Shared.

Inductive value : Type :=
  | VNone
  | VBool (b : bool)
  | VInt (n : Z)
  | VFloat (x : float)
  | VStr (s : string)
  | VRef (address : nat).

Inductive object : Type :=
  | OList (items : list value)
  | ODict (entries : list (string * value)).

(** The process: its objects, addressed by position, the module's globals
    and the disk. *)
Record process : Type := {
  heap : list object;
  _data_cache : option value;
  _cache_timestamp : Z;
  files : gmap string string
}.

(** A new object gets the next address. *)
Definition new_object (h : list object) (o : object) : value * list object :=
  (VRef (length h), h ++ [o]).

(** The object graph [json.load] or a literal builds: fresh objects all
    the way down. *)
Fixpoint build (j : json) (h : list object) : value * list object :=
  match j with
  | JNull => (VNone, h)
  | JBool b => (VBool b, h)
  | JInt n => (VInt n, h)
  | JFloat x => (VFloat x, h)
  | JStr s => (VStr s, h)
  | JList items =>
      let built :=
        (fix build_items (l : list json) (h : list object) : list value * list object :=
           match l with
           | [] => ([], h)
           | x :: r =>
               let vx := build x h in
               let vr := build_items r (snd vx) in
               (fst vx :: fst vr, snd vr)
           end) items h in
      new_object (snd built) (OList (fst built))
  | JDict entries =>
      let built :=
        (fix build_entries (l : list (string * json)) (h : list object)
           : list (string * value) * list object :=
           match l with
           | [] => ([], h)
           | (k, x) :: r =>
               let vx := build x h in
               let vr := build_entries r (snd vx) in
               ((k, fst vx) :: fst vr, snd vr)
           end) entries h in
      new_object (snd built) (ODict (fst built))
  end.

(** The JSON text [json.dump] would write for a value, followed to the
    given depth. *)
Fixpoint dump (depth : nat) (h : list object) (v : value) : json :=
  match v with
  | VNone => JNull
  | VBool b => JBool b
  | VInt n => JInt n
  | VFloat x => JFloat x
  | VStr s => JStr s
  | VRef a =>
      match depth with
      | O => JNull
      | S depth' =>
          match h !! a with
          | Some (OList items) => JList (map (dump depth' h) items)
          | Some (ODict entries) =>
              JDict (map (fun kv => (fst kv, dump depth' h (snd kv))) entries)
          | None => JNull
          end
      end
  end.

(** [x.copy() if isinstance(x, dict) else x]: a new dict with the same
    entries, which are the same values and so the same references. *)
Definition copy_if_dict (h : list object) (x : value) : value * list object :=
  match x with
  | VRef a =>
      match h !! a with
      | Some (ODict entries) => new_object h (ODict entries)
      | _ => (x, h)
      end
  | _ => (x, h)
  end.

Fixpoint entry (k : string) (entries : list (string * value)) : option value :=
  match entries with
  | [] => None
  | (k', v) :: r => if String.eqb k k' then Some v else entry k r
  end.

Fixpoint store_entry (k : string) (v : value) (entries : list (string * value))
    : list (string * value) :=
  match entries with
  | [] => [(k, v)]
  | (k', v') :: r =>
      if String.eqb k k' then (k, v) :: r else (k', v') :: store_entry k v r
  end.

(** [data[k]]. *)
Definition getitem (h : list object) (data : value) (k : string) : option value :=
  match data with
  | VRef a =>
      match h !! a with
      | Some (ODict entries) => entry k entries
      | _ => None
      end
  | _ => None
  end.

(** [data[k] = v]: the dict at [data] changes, nothing else. *)
Definition setitem (h : list object) (data : value) (k : string) (v : value)
    : list object :=
  match data with
  | VRef a =>
      match h !! a with
      | Some (ODict entries) => <[a := ODict (store_entry k v entries)]> h
      | _ => h
      end
  | _ => h
  end.

(** [xs.append(v)]: the list at [xs] changes, for every holder of it. *)
Definition append (h : list object) (xs : value) (v : value) : list object :=
  match xs with
  | VRef a =>
      match h !! a with
      | Some (OList items) => <[a := OList (items ++ [v])]> h
      | _ => h
      end
  | _ => h
  end.

(** [_data_cache is not None and (t - _cache_timestamp) < _cache_ttl]. *)
Definition cache_hit (p : process) (t : Z) : option value :=
  match _data_cache p with
  | Some c => if t - _cache_timestamp p <? Main._cache_ttl then Some c else None
  | None => None
  end.

(** [load_data()] of main.py: on a hit a copy of the cached dict; on a
    miss the document built from the disk becomes the cache and a copy of
    it is returned. *)
Definition load_data (json_load : string -> result json) (p : process)
    (current_time current_time_check : Z) : result (value * process) :=
  let hit c :=
    let ch := copy_if_dict (heap p) c in
    Ok (fst ch, {| heap := snd ch; _data_cache := _data_cache p;
                   _cache_timestamp := _cache_timestamp p; files := files p |}) in
  match cache_hit p current_time with
  | Some c => hit c
  | None =>
      match cache_hit p current_time_check with
      | Some c => hit c
      | None =>
          built ← Main.from_disk json_load (files p);
          let bh := build (fst built) (heap p) in
          let ch := copy_if_dict (snd bh) (fst bh) in
          Ok (fst ch, {| heap := snd ch; _data_cache := Some (fst bh);
                         _cache_timestamp := current_time_check; files := files p |})
      end
  end.

(** [data.copy()]: a new dict or list with the same elements; no other
    value has the method. *)
Definition copy (h : list object) (x : value) : option (value * list object) :=
  match x with
  | VRef a =>
      match h !! a with
      | Some o => Some (new_object h o)
      | None => None
      end
  | _ => None
  end.

(** [save_data(data)] of main.py, the file system and the serializer not
    failing: the text [json.dump] wrote, [chunks], reaches the disk; then
    a copy of [data] becomes the cache, or, for a value without [.copy()],
    the [except] branch returns [False] and the cache stays. *)
Definition save_data (p : process) (data : value) (chunks : list string) (now : Z)
    : bool * process :=
  let written := fs_run (Main.save_script chunks) (files p) in
  match copy (heap p) data with
  | Some ch =>
      (true,
       {| heap := snd ch; _data_cache := Some (fst ch); _cache_timestamp := now;
          files := written |})
  | None =>
      (false,
       {| heap := heap p; _data_cache := _data_cache p;
          _cache_timestamp := _cache_timestamp p; files := written |})
  end.

(** [data[k].append(o)] for a freshly built [o], as a handler does with a
    new order or message. *)
Definition append_new (p : process) (data : value) (k : string) (o : json) : process :=
  match getitem (heap p) data k with
  | Some xs =>
      let bo := build o (heap p) in
      {| heap := append (snd bo) xs (fst bo); _data_cache := _data_cache p;
         _cache_timestamp := _cache_timestamp p; files := files p |}
  | None => p
  end.

(** [data[k] = o] for a freshly built [o], as the expiry round does with
    the filtered list of orders. *)
Definition rebind_new (p : process) (data : value) (k : string) (o : json) : process :=
  let bo := build o (heap p) in
  {| heap := setitem (snd bo) data k (fst bo); _data_cache := _data_cache p;
     _cache_timestamp := _cache_timestamp p; files := files p |}.

End Shared.

(** * Notions the statements use, and sample documents *)

(** The unpaid orders of one (profile, user) pair. *)
Definition open_orders (profile_id telegram_user_id : pyval) (d : document) : list order :=
  List.filter (Main.is_open_order profile_id telegram_user_id) (orders d).

(** A document with nothing in it and no settings of its own. *)
Definition empty_settings : settings :=
  {| bonus_percentage := None; crypto_wallets := ∅; other_settings := [] |}.

Definition empty_document : document :=
  {| profiles := []; vip_profiles := []; chats := []; messages := [];
     comments := []; promocodes := []; orders := []; doc_settings := empty_settings |}.

(** A request for [amount] USD towards a profile, paid in TRC20. *)
Definition request (profile_id : Z) (amount : float) : Main.payment_data :=
  {| Main.pd_profile_id := Some (PInt profile_id);
     Main.pd_amount := Main.AmountNum amount;
     Main.pd_currency := None;
     Main.pd_wallet := Some (PStr "trc20") |}.

(** The document and the answer of a request that is accepted. *)
Definition run_payment (d : document) (pd : Main.payment_data) (uid : pyval)
    (now : Z) (code : string) : document * Main.payment_response :=
  match Main.process_crypto_payment d pd uid now code with
  | Ok dr => dr
  | Raise _ =>
      (d, {| Main.r_order_id := 0; Main.r_order_number := ""; Main.r_amount := 0;
             Main.r_bonus_amount := 0; Main.r_total_amount := 0;
             Main.r_wallet_address := ""; Main.r_expires_in := 0 |})
  end.

(** An unpaid order whose expiry is missing or not later than [now]. *)
Definition lapsed (now : Z) (o : order) : Prop :=
  o_status o = PStr "unpaid" /\
  (o_expires_at o = NoStamp \/ exists t, o_expires_at o = Stamp t /\ t <= now).

(** An unpaid order whose expiry is before [now]. *)
Definition expired_before (now : Z) (o : order) : Prop :=
  o_status o = PStr "unpaid" /\ exists t, o_expires_at o = Stamp t /\ t < now.

(** An expiry the sweep can judge: absent or empty, or the ISO-8601 text
    of a naive datetime. *)
Definition naive_or_absent (s : stamp) : Prop :=
  s = NoStamp \/ exists t, s = Stamp t.

(** Every unpaid order's expiry, when it has one, is the ISO-8601 text of
    a naive datetime. *)
Definition expiries_parse (os : list order) : Prop :=
  forall o, In o os -> o_status o = PStr "unpaid" -> naive_or_absent (o_expires_at o).

(** The comprehension's condition when it does not raise. *)
Definition keeps_bool (now : Z) (o : order) : bool :=
  negb (py_eq (o_status o) (PStr "unpaid"))
  || match o_expires_at o with Stamp t => now <? t | _ => false end.

(** An unpaid order of 50 USD placed one hour before it expires. *)
Definition unpaid_order (id : Z) (profile_id : Z) (uid : string) (expires : Z) : order :=
  {| o_id := id; o_order_number := Some "Ab3dE6gH9jK2mN5pQ8";
     o_profile_id := PInt profile_id; o_amount := 50; o_bonus_amount := 2.5;
     o_total_amount := 52.5; o_crypto_type := PStr "trc20";
     o_currency := PStr "USD"; o_status := PStr "unpaid";
     o_created_at := expires - hour; o_expires_at := Stamp expires;
     o_telegram_user_id := PStr uid; o_booked_at := None |}.

Definition profile3 : profile :=
  {| p_id := 3; p_name := "Anna"; p_visible := true; p_attrs := [] |}.

Definition chat_with (id profile_id : Z) (uid : string) : chat :=
  {| c_id := id; c_profile_id := profile_id; c_profile_name := "Anna";
     c_created_at := 0; c_telegram_user_id := PStr uid |}.

(** Two users with a chat and an unpaid order each for profile 3. *)
Definition two_open_orders : document :=
  {| profiles := [profile3]; vip_profiles := [];
     chats := [chat_with 1 3 "u1"; chat_with 2 3 "u2"];
     messages := []; comments := []; promocodes := [];
     orders := [unpaid_order 1 3 "u1" hour; unpaid_order 2 3 "u2" hour];
     doc_settings := empty_settings |}.

(** Two profiles; user "u1" has a chat with one message with each. *)
Definition two_profiles_two_chats : document :=
  {| profiles := [ {| p_id := 1; p_name := "Anna"; p_visible := true; p_attrs := [] |};
                   {| p_id := 2; p_name := "Sofia"; p_visible := true; p_attrs := [] |} ];
     vip_profiles := [];
     chats := [ {| c_id := 1; c_profile_id := 1; c_profile_name := "Anna";
                   c_created_at := 0; c_telegram_user_id := PStr "u1" |};
                {| c_id := 2; c_profile_id := 2; c_profile_name := "Sofia";
                   c_created_at := 10; c_telegram_user_id := PStr "u1" |} ];
     messages := [ {| m_id := 1; m_chat_id := 1; m_file := None; m_text := Some "hello";
                      m_is_from_user := true; m_created_at := 0 |};
                   {| m_id := 2; m_chat_id := 2; m_file := None; m_text := Some "hi";
                      m_is_from_user := true; m_created_at := 10 |} ];
     comments := []; promocodes := []; orders := [];
     doc_settings := empty_settings |}.

(** A parser that accepts the text of an empty list and nothing else. *)
Definition only_empty_list (content : string) : result json :=
  if String.eqb content "[]" then Ok (JList []) else Raise ValueError.

(** A process that has cached nothing, over a disk holding [content]. *)
Definition stale_store (content : string) : Main.store :=
  {| Main.disk := {[ DATA_FILE := content ]};
     Main._data_cache := None;
     Main._cache_timestamp := 0;
     Main.log := [] |}.

(** A process just started, with no data.json on disk. *)
Definition cold_start : Shared.process :=
  {| Shared.heap := []; Shared._data_cache := None;
     Shared._cache_timestamp := 0; Shared.files := ∅ |}.

(** The dict of a new order, reduced to the keys that identify it. *)
Definition order_dict : json :=
  JDict [("id", JInt 1); ("profile_id", JInt 3); ("amount", JFloat 100);
         ("status", JStr "unpaid"); ("telegram_user_id", JStr "u1")].

(** The document as a caller, or the cache, sees it. *)
Definition seen (p : Shared.process) (v : Shared.value) : json :=
  Shared.dump 8 (Shared.heap p) v.

(** A document that has every section [load_data] of main.py would
    otherwise fill in. *)
Definition complete_document (doc : json) : Prop :=
  exists entries wallets_and_more,
    doc = JDict entries
    /\ dict_lookup "settings" entries = Some (JDict wallets_and_more)
    /\ is_Some (dict_lookup "crypto_wallets" wallets_and_more)
    /\ forall k, In k ["orders"; "chats"; "messages"; "comments"; "vip_profiles"] ->
                 is_Some (dict_lookup k entries).

(** A store of the public process whose cache holds [doc], taken at [t]. *)
Definition warm_store (files : gmap string string) (doc : json) (t : Z) : Main.store :=
  {| Main.disk := files; Main._data_cache := Some doc;
     Main._cache_timestamp := t; Main.log := [] |}.

(** A serializer and a parser that know one document, [Main.default_data],
    and its text. *)
Definition dump_default (doc : json) : list string := ["{"; "default"; "}"].

Definition load_default (content : string) : result json :=
  if String.eqb content "{default}" then Ok Main.default_data else Raise ValueError.

(** What a key reads after a back-fill: its own value when the dict had
    the key, the default listed for it otherwise. *)
Definition backfilled (defaults entries : list (string * json)) (k : string)
    : option json :=
  match dict_lookup k entries with
  | Some v => Some v
  | None => dict_lookup k defaults
  end.

(** A parser that reads every text as one given document. *)
Definition always_reads (doc : json) (content : string) : result json := Ok doc.

(** A request with both keys present. *)
Definition payment_request (profile_id : pyval) (amount : float) (currency wallet : option pyval)
    : Main.payment_data :=
  {| Main.pd_profile_id := Some profile_id; Main.pd_amount := Main.AmountNum amount;
     Main.pd_currency := currency; Main.pd_wallet := wallet |}.

(** A request body of the admin process's payment endpoint. *)
Definition admin_body (profile_id : pyval) (amount : float) (uid : pyval)
    : Admin.payment_body :=
  {| Admin.b_profile_id := profile_id; Admin.b_amount := Main.AmountNum amount;
     Admin.b_currency := None; Admin.b_wallet := PStr "trc20";
     Admin.b_telegram_user_id := uid |}.

(** Two orders that carry the same id, of two users. *)
Definition same_id_orders : document :=
  set_orders empty_document [unpaid_order 1 3 "u1" hour; unpaid_order 1 4 "u2" hour].

(** The condition of [delete_comment]'s generator. *)
Definition is_comment (profile_id comment_id : Z) (c : comment) : Prop :=
  cm_id c = comment_id /\ cm_profile_id c = profile_id.

(** A profile with a chat of user "u1" that holds one message. *)
Definition one_chat : document :=
  {| profiles := [profile3]; vip_profiles := [];
     chats := [chat_with 1 3 "u1"];
     messages := [ {| m_id := 1; m_chat_id := 1; m_file := None; m_text := Some "hello";
                      m_is_from_user := true; m_created_at := 0 |} ];
     comments := [ {| cm_id := 1; cm_profile_id := 3; cm_body := [] |};
                   {| cm_id := 2; cm_profile_id := 3; cm_body := [] |} ];
     promocodes := []; orders := [unpaid_order 1 3 "u1" hour];
     doc_settings := empty_settings |}.

(** Every character of [s] satisfies [p]. *)
Fixpoint all_chars (p : ascii -> bool) (s : string) : bool :=
  match s with
  | EmptyString => true
  | String c r => p c && all_chars p r
  end.

(** Text the embedding of [str] covers: 7-bit characters. *)
Definition is_ascii (c : ascii) : bool := Nat.ltb (nat_of_ascii c) 128.
Definition ascii_text (s : string) : Prop := all_chars is_ascii s = true.

Definition no_underscore (s : string) : Prop :=
  all_chars (fun c => negb (Ascii.eqb c "_")) s = true.

(** What a button's payload gives back for the user id it was built
    from: text up to the first underscore, or [None]. *)
Definition decoded_user (telegram_user_id : pyval) : pyval :=
  if truthy telegram_user_id
  then PStr (piece 0 (split "_" (py_str telegram_user_id)))
  else PNone.

(** The address [ip] has used up its attempts at [now]: it has a record
    and [MAX_LOGIN_ATTEMPTS] or more of its entries are younger than the
    window. *)
Definition rate_limited (cfg : Admin.login_config) (st : Admin.auth) (ip : string)
    (now : Z) : Prop :=
  exists times,
    Admin.login_attempts st !! ip = Some times
    /\ Admin.MAX_LOGIN_ATTEMPTS cfg
       <= Z.of_nat (length (List.filter (Admin.recent cfg now) times)).

(** A body with both fields filled in that is not the admin's pair. *)
Definition wrong_credentials (cfg : Admin.login_config) (body : option (pyval * pyval))
    : Prop :=
  exists username password,
    body = Some (username, password)
    /\ truthy username = true /\ truthy password = true
    /\ py_eq username (PStr (Admin.admin_username cfg))
       && py_eq password (PStr (Admin.admin_password cfg)) = false.

(** One request to POST /api/login: slowapi's verdict on it, its body,
    the clock when its attempts are counted and the clock, not earlier,
    when its failure is recorded or its session made. *)
Record login_request : Type := {
  lr_within_limit : bool;
  lr_body : option (pyval * pyval);
  lr_clock : Z;
  lr_later : Z
}.

(** Requests to POST /api/login from one address, one after the other. *)
Fixpoint logins (cfg : Admin.login_config) (st : Admin.auth) (ip : string)
    (session_id : string) (requests : list login_request) : Admin.auth :=
  match requests with
  | [] => st
  | r :: rest =>
      logins cfg
        (fst (Admin.login cfg st ip (lr_within_limit r) (lr_body r) session_id
                (lr_clock r) (lr_later r)))
        ip session_id rest
  end.

(** [t] lies in the rate-limit window that ends at [now]. *)
Definition in_window (cfg : Admin.login_config) (now t : Z) : Prop :=
  now - Admin.LOGIN_RATE_LIMIT_WINDOW cfg * 60 * second < t <= now.

Definition strict_config : Admin.login_config :=
  {| Admin.MAX_LOGIN_ATTEMPTS := 2; Admin.LOGIN_RATE_LIMIT_WINDOW := 15;
     Admin.admin_username := "admin"; Admin.admin_password := "s3cret" |}.

Definition no_sessions : Admin.auth :=
  {| Admin.login_attempts := ∅; Admin.active_sessions := ∅ |}.

Definition summer_code : promo :=
  {| pr_id := 1; pr_code := "SUMMER"; pr_discount := PInt 10; pr_is_active := true;
     pr_used_by := []; pr_created_at := 0 |}.

(** * Properties *)

(** ** Lists changed in place *)

Section InPlace.
Context {A : Type}.
Variables (p : A -> bool) (f : A -> A).

Lemma update_first_length (l : list A) :
  length (update_first p f l) = length l.
Proof.
  induction l as [|x r IH]; simpl; [reflexivity|].
  destruct (p x); simpl; congruence.
Qed.

Lemma update_first_no_match (l : list A) :
  List.find p l = None -> update_first p f l = l.
Proof.
  induction l as [|x r IH]; simpl; [reflexivity|].
  destruct (p x); [discriminate|]. intros H. now rewrite IH.
Qed.

(** The first match sits at some index [i]; nothing before it matches,
    and the update is the list with position [i] overwritten. *)
Lemma update_first_insert (l : list A) (x : A) :
  List.find p l = Some x ->
  exists i : nat,
    l !! i = Some x /\ p x = true /\
    (forall (j : nat) y, (j < i)%nat -> l !! j = Some y -> p y = false) /\
    update_first p f l = <[i := f x]> l.
Proof.
  induction l as [|y r IH]; simpl; [discriminate|].
  destruct (p y) eqn:Hy.
  - intros [= ->]. exists 0%nat. repeat split; auto. intros j z Hj. lia.
  - intros H. destruct (IH H) as (i & Hi & Hp & Hbefore & Hupd).
    exists (S i). repeat split; auto.
    + intros [|j] z Hj Hz; simpl in Hz.
      * now inversion Hz; subst.
      * apply (Hbefore j); [lia|assumption].
    + simpl. now rewrite Hupd.
Qed.

(** An update that keeps [q] on every element keeps the elements that
    satisfy [q] in number. *)
Lemma update_first_count (q : A -> bool) (l : list A) :
  (forall x, p x = true -> q (f x) = q x) ->
  length (List.filter q (update_first p f l)) = length (List.filter q l).
Proof.
  intros Hq. induction l as [|x r IH]; simpl; [reflexivity|].
  destruct (p x) eqn:Hx; simpl.
  - rewrite (Hq x Hx). destruct (q x); reflexivity.
  - destruct (q x); simpl; congruence.
Qed.

Lemma find_update_first (l : list A) (x : A) :
  (forall y, p y = true -> p (f y) = true) ->
  List.find p l = Some x ->
  List.find p (update_first p f l) = Some (f x).
Proof.
  intros Hp. induction l as [|y r IH]; simpl; [discriminate|].
  destruct (p y) eqn:Hy; simpl.
  - intros [= ->]. now rewrite (Hp x Hy).
  - rewrite Hy. exact IH.
Qed.

Lemma find_app_new (l : list A) (y : A) :
  List.find p l = None -> p y = true -> List.find p (l ++ [y]) = Some y.
Proof.
  intros Hl Hy. induction l as [|z r IH]; simpl in *.
  - now rewrite Hy.
  - destruct (p z); [discriminate|]. now apply IH.
Qed.

Lemma update_last_length (l : list A) :
  length (update_last p f l) = length l.
Proof.
  induction l as [|x r IH]; simpl; [reflexivity|].
  destruct (p x && negb (existsb p r)); simpl; congruence.
Qed.

Lemma update_last_no_match (l : list A) :
  existsb p l = false -> update_last p f l = l.
Proof.
  induction l as [|x r IH]; simpl; [reflexivity|].
  intros H. apply orb_false_elim in H as [Hx Hr].
  rewrite Hx. simpl. now rewrite IH.
Qed.

(** The last match sits at some index [i]; nothing after it matches, and
    the update is the list with position [i] overwritten. *)
Lemma update_last_insert (l : list A) :
  existsb p l = true ->
  exists (i : nat) x,
    l !! i = Some x /\ p x = true /\
    (forall (j : nat) y, (i < j)%nat -> l !! j = Some y -> p y = false) /\
    update_last p f l = <[i := f x]> l.
Proof.
  induction l as [|y r IH]; simpl; [discriminate|].
  intros H. destruct (existsb p r) eqn:Hr.
  - destruct (IH eq_refl) as (i & x & Hi & Hp & Hafter & Hupd).
    exists (S i), x. rewrite andb_false_r. repeat split; auto.
    + intros [|j] z Hj Hz; [lia|]. simpl in Hz. apply (Hafter j); [lia|assumption].
    + simpl. now rewrite Hupd.
  - rewrite orb_false_r in H. rewrite H. simpl.
    exists 0%nat, y. repeat split; auto.
    intros [|j] z Hj Hz; [lia|]. simpl in Hz.
    destruct (p z) eqn:Hpz; [|reflexivity].
    assert (existsb p r = true); [|congruence].
    apply existsb_exists. exists z. split; [|assumption].
    apply list_elem_of_In. eapply list_elem_of_lookup_2. eassumption.
Qed.

End InPlace.

Lemma filter_In_iff {A} (q : A -> bool) (l : list A) (x : A) :
  In x (List.filter q l) <-> In x l /\ q x = true.
Proof. apply filter_In. Qed.

Lemma filter_sublist {A} (q : A -> bool) (l : list A) :
  sublist (List.filter q l) l.
Proof.
  induction l as [|x r IH]; simpl; [constructor|].
  destruct (q x); now constructor.
Qed.

Lemma find_none_filter_nil {A} (q : A -> bool) (l : list A) :
  List.find q l = None -> List.filter q l = [].
Proof.
  induction l as [|x r IH]; simpl; [reflexivity|].
  destruct (q x); [discriminate|]. exact IH.
Qed.

Lemma find_some_filter_pos {A} (q : A -> bool) (l : list A) (x : A) :
  List.find q l = Some x -> (1 <= length (List.filter q l))%nat.
Proof.
  induction l as [|y r IH]; simpl; [discriminate|].
  destruct (q y); simpl; [lia|]. exact IH.
Qed.

(** ** Payment orders *)

Section Payment.
Import Main.

(** What a successful call did, branch by branch. *)
Lemma process_crypto_payment_ok d pd uid now code d' r :
  process_crypto_payment d pd uid now code = Ok (d', r) ->
  exists pid amount,
    pd_profile_id pd = Some pid /\ pd_amount pd = AmountNum amount /\
    truthy pid = true /\ PrimFloat.leb amount 0%float = false /\
    let bonus := bonus_of amount (bonus_percentage_of d) in
    let total := PrimFloat.add amount bonus in
    let wallet := default PNone (pd_wallet pd) in
    let currency := default (PStr "USD") (pd_currency pd) in
    match List.find (is_open_order pid uid) (orders d) with
    | Some existing =>
        d' = set_orders d (update_first (is_open_order pid uid)
                             (requote amount bonus total wallet currency now) (orders d))
        /\ r_order_id r = o_id existing
    | None =>
        d' = set_orders d (orders d ++
               [new_order (orders d) code pid amount bonus total wallet currency now uid])
        /\ r_order_id r = max_id (orders d) + 1
    end.
Proof.
  unfold process_crypto_payment, get_profile_id, get_amount.
  destruct (pd_profile_id pd) as [pid|]; simpl; [|discriminate].
  destruct (pd_amount pd) as [| |amount]; simpl; try discriminate.
  destruct (truthy pid) eqn:Ht; simpl; [|discriminate].
  destruct (PrimFloat.leb amount 0) eqn:Hle; simpl; [discriminate|].
  intros H. exists pid, amount. repeat split; auto.
  destruct (List.find (is_open_order pid uid) (orders d)) as [ex|];
    inversion H; subst; simpl; auto.
Qed.

Lemma requote_stays_open pid uid amount bonus total wallet currency now o :
  is_open_order pid uid (requote amount bonus total wallet currency now o)
  = is_open_order pid uid o.
Proof. reflexivity. Qed.

Lemma new_order_is_open os code pid amount bonus total wallet currency now uid :
  is_open_order pid uid
    (new_order os code pid amount bonus total wallet currency now uid) = true.
Proof.
  unfold is_open_order, new_order, py_eq; simpl.
  rewrite !bool_decide_eq_true_2; auto.
Qed.

(** One call never adds to a pair that already has an unpaid order, and
    gives a pair without one exactly one. *)
Lemma process_crypto_payment_open_count d pd uid now code d' r pid :
  pd_profile_id pd = Some pid ->
  process_crypto_payment d pd uid now code = Ok (d', r) ->
  length (open_orders pid uid d')
  = Nat.max 1 (length (open_orders pid uid d))
  /\ exists o, List.find (is_open_order pid uid) (orders d') = Some o.
Proof.
  intros Hpid H. apply process_crypto_payment_ok in H.
  destruct H as (pid' & amount & Hp & _ & _ & _ & H). simpl in H.
  rewrite Hpid in Hp. inversion Hp; subst pid'. unfold open_orders.
  destruct (List.find (is_open_order pid uid) (orders d)) as [ex|] eqn:Hfind.
  - destruct H as [-> _]. simpl. split.
    + rewrite update_first_count by (intros; reflexivity).
      pose proof (find_some_filter_pos _ _ _ Hfind). lia.
    + eexists. apply find_update_first; [|eassumption].
      intros y Hy. rewrite requote_stays_open. exact Hy.
  - destruct H as [-> _]. simpl. split.
    + rewrite List.filter_app, length_app, (find_none_filter_nil _ _ Hfind).
      simpl. rewrite new_order_is_open. reflexivity.
    + eexists. apply find_app_new; [assumption|apply new_order_is_open].
Qed.

End Payment.

(** C2.  Two payment requests of one user for one profile never leave the
    pair with more unpaid orders than it had, and with exactly one when it
    had none or one: the second request finds the unpaid order of the pair,
    overwrites its amount, bonus, total, wallet type and currency where it
    stands in the list, sets its expiry to one hour after the second
    request and appends nothing. *)
Theorem quote_twice_one_unpaid_order
    d pd1 pd2 uid now1 now2 code1 code2 d1 r1 d2 r2 pid :
  Main.pd_profile_id pd1 = Some pid ->
  Main.pd_profile_id pd2 = Some pid ->
  Main.process_crypto_payment d pd1 uid now1 code1 = Ok (d1, r1) ->
  Main.process_crypto_payment d1 pd2 uid now2 code2 = Ok (d2, r2) ->
  length (open_orders pid uid d2) = Nat.max 1 (length (open_orders pid uid d)) /\
  ((length (open_orders pid uid d) <= 1)%nat ->
   length (open_orders pid uid d2) = 1%nat) /\
  exists (i : nat) (existing : order) (amount2 : float),
    Main.pd_amount pd2 = Main.AmountNum amount2 /\
    List.find (Main.is_open_order pid uid) (orders d1) = Some existing /\
    orders d1 !! i = Some existing /\
    (forall (j : nat) o, (j < i)%nat -> orders d1 !! j = Some o ->
                         Main.is_open_order pid uid o = false) /\
    d2 = set_orders d1
           (<[i := {| o_id := o_id existing;
                      o_order_number := o_order_number existing;
                      o_profile_id := o_profile_id existing;
                      o_amount := amount2;
                      o_bonus_amount :=
                        Main.bonus_of amount2 (Main.bonus_percentage_of d1);
                      o_total_amount :=
                        PrimFloat.add amount2
                          (Main.bonus_of amount2 (Main.bonus_percentage_of d1));
                      o_crypto_type := default PNone (Main.pd_wallet pd2);
                      o_currency := default (PStr "USD") (Main.pd_currency pd2);
                      o_status := PStr "unpaid";
                      o_created_at := o_created_at existing;
                      o_expires_at := Stamp (now2 + hour);
                      o_telegram_user_id := o_telegram_user_id existing;
                      o_booked_at := o_booked_at existing |}]> (orders d1)) /\
    length (orders d2) = length (orders d1) /\
    Main.r_order_id r2 = o_id existing.
Proof.
  intros Hp1 Hp2 H1 H2.
  destruct (process_crypto_payment_open_count _ _ _ _ _ _ _ _ Hp1 H1) as [Hc1 [ex Hex]].
  destruct (process_crypto_payment_open_count _ _ _ _ _ _ _ _ Hp2 H2) as [Hc2 _].
  assert (Hcount : length (open_orders pid uid d2)
                   = Nat.max 1 (length (open_orders pid uid d))) by lia.
  split; [exact Hcount|]. split; [lia|].
  apply process_crypto_payment_ok in H2.
  destruct H2 as (pid' & amount2 & Hp & Ha & _ & _ & H). simpl in H.
  rewrite Hp2 in Hp. inversion Hp; subst pid'. rewrite Hex in H.
  destruct H as [Hd2 Hr2].
  destruct (update_first_insert (Main.is_open_order pid uid)
              (Main.requote amount2 (Main.bonus_of amount2 (Main.bonus_percentage_of d1))
                 (PrimFloat.add amount2 (Main.bonus_of amount2 (Main.bonus_percentage_of d1)))
                 (default PNone (Main.pd_wallet pd2))
                 (default (PStr "USD") (Main.pd_currency pd2)) now2)
              (orders d1) ex Hex) as (i & Hi & Hopen & Hbefore & Hupd).
  exists i, ex, amount2. repeat split; auto.
  - rewrite Hd2, Hupd. unfold Main.requote. f_equal. f_equal. f_equal.
    unfold Main.is_open_order, py_eq in Hopen.
    apply andb_prop in Hopen as [Hopen _]. apply andb_prop in Hopen as [_ Hst].
    apply bool_decide_eq_true_1 in Hst. now rewrite Hst.
  - rewrite Hd2. simpl. apply update_first_length.
Qed.

Lemma quote_twice_one_unpaid_order_witness :
  let uid := PStr "u1" in
  let s1 := run_payment empty_document (request 3 100) uid 0 "Ab3dE6gH9jK2mN5pQ8" in
  let s2 := run_payment (fst s1) (request 3 250) uid 60000000 "zY7xW4vU1tS8rQ5pO2" in
  length (open_orders (PInt 3) uid (fst s2)) = 1%nat
  /\ length (orders (fst s2)) = 1%nat.
Proof.
  intros uid s1 s2.
  destruct (quote_twice_one_unpaid_order empty_document (request 3 100) (request 3 250)
              uid 0 60000000 "Ab3dE6gH9jK2mN5pQ8" "zY7xW4vU1tS8rQ5pO2"
              (fst s1) (snd s1) (fst s2) (snd s2) (PInt 3)
              eq_refl eq_refl eq_refl eq_refl)
    as (_ & Hone & i & ex & a2 & _ & _ & _ & _ & _ & Hlen & _).
  split; [apply Hone; simpl; lia|].
  rewrite Hlen. reflexivity.
Defined.

(** C6.  The order a payment request creates or re-quotes carries
    bonus_amount = amount * (bonus_percentage / 100), the percentage read
    from the settings and taken as 5 when they have none, and
    total_amount = amount + bonus_amount, in binary64 arithmetic; for
    amount 100 and percentage 5 the total is the float 105.0. *)
Theorem quote_bonus_and_total d pd uid now code d' r :
  Main.process_crypto_payment d pd uid now code = Ok (d', r) ->
  exists pid amount o,
    Main.pd_profile_id pd = Some pid /\
    Main.pd_amount pd = Main.AmountNum amount /\
    List.find (Main.is_open_order pid uid) (orders d') = Some o /\
    (List.find (Main.is_open_order pid uid) (orders d) = None ->
     orders d' = orders d ++ [o]) /\
    o_id o = Main.r_order_id r /\
    o_amount o = amount /\
    o_bonus_amount o
    = PrimFloat.mul amount
        (PrimFloat.div (default 5%float (bonus_percentage (doc_settings d))) 100%float) /\
    o_total_amount o = PrimFloat.add amount (o_bonus_amount o) /\
    Main.r_bonus_amount r = o_bonus_amount o /\
    Main.r_total_amount r = o_total_amount o /\
    (amount = 100%float ->
     default 5%float (bonus_percentage (doc_settings d)) = 5%float ->
     o_total_amount o = 105%float).
Proof.
  intros H.
  assert (Hr : Main.r_bonus_amount r
               = Main.bonus_of (match Main.pd_amount pd with
                                | Main.AmountNum a => a | _ => 0%float end)
                   (Main.bonus_percentage_of d)
               /\ Main.r_total_amount r
                  = Main.total_of (match Main.pd_amount pd with
                                   | Main.AmountNum a => a | _ => 0%float end)
                      (Main.bonus_percentage_of d)).
  { revert H. unfold Main.process_crypto_payment, Main.get_profile_id, Main.get_amount.
    destruct (Main.pd_profile_id pd) as [pid|]; simpl; [|discriminate].
    destruct (Main.pd_amount pd) as [| |amount]; simpl; try discriminate.
    destruct (_ || _); [discriminate|].
    destruct (List.find _ _); intros [= <- <-]; split; reflexivity. }
  apply process_crypto_payment_ok in H.
  destruct H as (pid & amount & Hp & Ha & _ & _ & H). simpl in H.
  rewrite Ha in Hr. destruct Hr as [Hrb Hrt].
  destruct (List.find (Main.is_open_order pid uid) (orders d)) as [ex|] eqn:Hfind.
  - destruct H as [-> Hid].
    eexists pid, amount, _. split; [exact Hp|]. split; [exact Ha|]. split.
    { simpl. apply find_update_first; [|exact Hfind].
      intros y Hy. rewrite requote_stays_open. exact Hy. }
    simpl. split; [intros Hn; congruence|]. repeat split; auto.
    intros -> Hbp. unfold Main.bonus_of, Main.bonus_percentage_of. rewrite Hbp. reflexivity.
  - destruct H as [-> Hid].
    eexists pid, amount, _. split; [exact Hp|]. split; [exact Ha|]. split.
    { simpl. apply find_app_new; [exact Hfind|apply new_order_is_open]. }
    simpl. repeat split; auto.
    intros -> Hbp. unfold Main.bonus_of, Main.bonus_percentage_of. rewrite Hbp. reflexivity.
Qed.

Lemma quote_bonus_and_total_witness :
  let s1 := run_payment empty_document (request 3 100) (PStr "u1") 0 "Ab3dE6gH9jK2mN5pQ8" in
  exists o, orders (fst s1) = [o] /\ o_total_amount o = 105%float.
Proof.
  intros s1.
  destruct (quote_bonus_and_total empty_document (request 3 100) (PStr "u1") 0
              "Ab3dE6gH9jK2mN5pQ8" (fst s1) (snd s1) eq_refl)
    as (pid & amount & o & Hp & Ha & _ & Hnew & _ & _ & _ & _ & _ & _ & H105).
  exists o. split.
  - apply Hnew. inversion Hp; subst. reflexivity.
  - apply H105; [now inversion Ha|reflexivity].
Defined.

(** ** Validation of a payment request *)

(** A handler that raises persists nothing. *)
Lemma with_store_raise {R} (h : document -> result (document * R)) persisted e :
  snd (with_store h persisted) = Raise e -> fst (with_store h persisted) = persisted.
Proof.
  unfold with_store. destruct (h persisted) as [[d' r]|e']; simpl; [discriminate|auto].
Qed.

(** The guard [if not profile_id or amount <= 0] answers 400 and leaves
    the store as it was, once both keys could be read. *)
Lemma payment_guard_rejects persisted pd uid now code pid amount :
  Main.pd_profile_id pd = Some pid ->
  Main.pd_amount pd = Main.AmountNum amount ->
  truthy pid = false \/ PrimFloat.leb amount 0%float = true ->
  Main.payment_endpoint persisted pd uid now code
  = (persisted, Raise (HTTPException 400 "Invalid payment data")).
Proof.
  intros Hp Ha Hbad.
  unfold Main.payment_endpoint, with_store, Main.process_crypto_payment,
    Main.get_profile_id, Main.get_amount.
  rewrite Hp, Ha. simpl.
  destruct Hbad as [-> | ->]; simpl; [reflexivity|].
  now rewrite orb_true_r.
Qed.

(** C9.  A payment request whose body has no "profile_id" key is stopped
    by the KeyError of [payment_data["profile_id"]], before the guard that
    answers 400 is reached: the store is untouched, but the answer is the
    500 of an unhandled exception, whatever the amount. *)
Theorem payment_without_profile_id_key persisted amount currency wallet uid now code :
  let pd := {| Main.pd_profile_id := None; Main.pd_amount := amount;
               Main.pd_currency := currency; Main.pd_wallet := wallet |} in
  let out := Main.payment_endpoint persisted pd uid now code in
  out = (persisted, Raise (KeyError "profile_id"))
  /\ http_status (snd out) = 500
  /\ ~ client_error (snd out).
Proof.
  simpl. repeat split. unfold client_error. simpl. lia.
Qed.

(** ** Expiry of unpaid orders *)

Lemma keeps_bool_spec now o :
  (o_status o = PStr "unpaid" -> naive_or_absent (o_expires_at o)) ->
  keeps_bool now o = true <-> ~ lapsed now o.
Proof.
  intros Hparse. unfold keeps_bool, lapsed, py_eq.
  destruct (decide (o_status o = PStr "unpaid")) as [Hu|Hu].
  - rewrite bool_decide_eq_true_2 by assumption. simpl.
    destruct (Hparse Hu) as [->|[t ->]].
    + split; [discriminate|]. intros H. exfalso. apply H. auto.
    + rewrite Z.ltb_lt. split.
      * intros Hlt [_ [H|(t' & H & Hle)]]; [discriminate|].
        inversion H; subst. lia.
      * intros H. destruct (Z.lt_ge_cases now t); [assumption|].
        exfalso. apply H. split; [assumption|]. right. exists t.
        split; [reflexivity|lia].
  - rewrite bool_decide_eq_false_2 by assumption. simpl.
    split; [|reflexivity]. intros _ [H _]. contradiction.
Qed.

(** What the condition does on one order: it answers when the order is
    not unpaid or its expiry is absent or naive, and raises otherwise,
    whatever the time. *)
Lemma keeps_cases now o :
  ((o_status o = PStr "unpaid" -> naive_or_absent (o_expires_at o))
   /\ Main.keeps now o = Ok (keeps_bool now o))
  \/ (o_status o = PStr "unpaid" /\ ~ naive_or_absent (o_expires_at o)
      /\ exists e, (e = ValueError \/ e = TypeError)
                   /\ forall t, Main.keeps t o = Raise e).
Proof.
  unfold Main.keeps, keeps_bool, py_eq, naive_or_absent.
  destruct (decide (o_status o = PStr "unpaid")) as [Hu|Hu].
  - rewrite bool_decide_eq_true_2 by assumption. cbn [negb orb].
    destruct (o_expires_at o) as [| |t|t|].
    + left. split; [auto|reflexivity].
    + right. split; [assumption|]. split.
      * intros [H|[t H]]; discriminate.
      * exists ValueError. split; [now left|]. intros t. reflexivity.
    + left. split; [eauto|reflexivity].
    + right. split; [assumption|]. split.
      * intros [H|[t' H]]; discriminate.
      * exists TypeError. split; [now right|]. intros t'. reflexivity.
    + right. split; [assumption|]. split.
      * intros [H|[t' H]]; discriminate.
      * exists TypeError. split; [now right|]. intros t'. reflexivity.
  - left. split; [intros; contradiction|].
    rewrite bool_decide_eq_false_2 by assumption. reflexivity.
Qed.

Lemma surviving_filter now os :
  expiries_parse os -> Main.surviving now os = Ok (List.filter (keeps_bool now) os).
Proof.
  induction os as [|o r IH]; intros Hp; [reflexivity|].
  simpl. rewrite IH by (intros x Hx; apply Hp; now right).
  destruct (keeps_cases now o) as [[_ Hk]|(Hu & Hbad & _)].
  - rewrite Hk. reflexivity.
  - exfalso. apply Hbad. apply Hp; [now left|assumption].
Qed.

(** The comprehension raises exactly when some unpaid order has an expiry
    it cannot judge, with the exception of the first such order and at
    every time alike. *)
Lemma surviving_unreadable (os : list order) :
  ~ expiries_parse os ->
  exists e, (e = ValueError \/ e = TypeError)
            /\ forall t, Main.surviving t os = Raise e.
Proof.
  induction os as [|o r IH]; intros Hbad.
  - exfalso. apply Hbad. intros o [].
  - destruct (keeps_cases 0 o) as [[Hfine _]|(Hu & Hno & e & He & Hraise)].
    + destruct IH as (e & He & Hraise).
      { intros Hr. apply Hbad. intros x [<-|Hx]; [exact Hfine|now apply Hr]. }
      exists e. split; [exact He|]. intros t. simpl.
      destruct (keeps_cases t o) as [[_ Hk]|(Hu & Hno & _)].
      * rewrite Hk. simpl. rewrite Hraise. reflexivity.
      * exfalso. apply Hno. now apply Hfine.
    + exists e. split; [exact He|]. intros t. simpl. rewrite Hraise. reflexivity.
Qed.

Lemma surviving_ok_parse now os kept :
  Main.surviving now os = Ok kept -> expiries_parse os.
Proof.
  revert kept. induction os as [|o r IH]; intros kept; [intros _ o []|].
  simpl. destruct (keeps_cases now o) as [[Hfine Hk]|(_ & _ & e & _ & Hraise)].
  - rewrite Hk. simpl. destruct (Main.surviving now r) as [kept'|e'] eqn:Hr;
      [|discriminate].
    intros _ x [<-|Hx]; [exact Hfine|]. now apply (IH kept' eq_refl).
  - rewrite Hraise. discriminate.
Qed.

Lemma filter_keeps_all {A} (q : A -> bool) (l : list A) :
  length (List.filter q l) = length l -> List.filter q l = l.
Proof.
  induction l as [|x r IH]; simpl; [reflexivity|].
  pose proof (filter_length_le q r) as Hle.
  destruct (q x); simpl; intros H; [f_equal; apply IH|]; lia.
Qed.

Lemma cleanup_round_filter now d :
  expiries_parse (orders d) ->
  Main.cleanup_round d now
  = (set_orders d (List.filter (keeps_bool now) (orders d)),
     Ok (length (orders d) - length (List.filter (keeps_bool now) (orders d)))%nat).
Proof.
  intros Hp. unfold Main.cleanup_round. rewrite (surviving_filter now _ Hp).
  pose proof (filter_length_le (keeps_bool now) (orders d)) as Hle.
  destruct (Nat.ltb_spec 0 (length (orders d)
                            - length (List.filter (keeps_bool now) (orders d)))%nat);
    [reflexivity|].
  rewrite filter_keeps_all by lia. destruct d; reflexivity.
Qed.

(** A round that meets an unpaid order with an unreadable expiry raises
    inside the comprehension and removes nothing. *)
Lemma cleanup_round_raise now d e :
  snd (Main.cleanup_round d now) = Raise e -> fst (Main.cleanup_round d now) = d.
Proof.
  unfold Main.cleanup_round. destruct (Main.surviving now (orders d)); simpl.
  - destruct (Nat.ltb _ _); discriminate.
  - reflexivity.
Qed.

Lemma cleanup_round_unreadable d :
  ~ expiries_parse (orders d) ->
  exists e, (e = ValueError \/ e = TypeError)
            /\ forall t, Main.cleanup_round d t = (d, Raise e).
Proof.
  intros Hbad. destruct (surviving_unreadable (orders d) Hbad) as (e & He & Hraise).
  exists e. split; [exact He|]. intros t. unfold Main.cleanup_round.
  now rewrite Hraise.
Qed.

Lemma expiries_parse_or_not (os : list order) :
  expiries_parse os \/ ~ expiries_parse os.
Proof.
  destruct (Main.surviving 0 os) as [kept|e] eqn:Hs.
  - left. eapply surviving_ok_parse. eassumption.
  - right. intros Hp. rewrite (surviving_filter 0 _ Hp) in Hs. discriminate.
Qed.

(** C5 as stated fails: a round at instant [now] also removes the unpaid
    order that expires exactly at [now], which is not before [now]. *)
Lemma sweep_removes_order_expiring_now :
  ~ (forall now d o,
        In o (orders d) ->
        (~ In o (orders (fst (Main.cleanup_round d now))) <-> expired_before now o)).
Proof.
  intros H.
  pose (o := {| o_id := 1; o_order_number := Some "Ab3dE6gH9jK2mN5pQ8";
                o_profile_id := PInt 3; o_amount := 50; o_bonus_amount := 2.5;
                o_total_amount := 52.5; o_crypto_type := PStr "trc20";
                o_currency := PStr "USD"; o_status := PStr "unpaid";
                o_created_at := 0; o_expires_at := Stamp hour;
                o_telegram_user_id := PStr "u1"; o_booked_at := None |}).
  pose (d := {| profiles := []; vip_profiles := []; chats := []; messages := [];
                comments := []; promocodes := []; orders := [o];
                doc_settings := {| bonus_percentage := None; crypto_wallets := ∅;
                                   other_settings := [] |} |}).
  destruct (H hour d o (or_introl eq_refl)) as [Hremoved _].
  destruct Hremoved as [_ (t & Ht & Hlt)].
  - simpl. tauto.
  - inversion Ht; subst. lia.
Qed.

(** C5, amended.  The admin process runs the same round as the public
    one.  On a document whose unpaid orders carry, when they carry one, an
    expiry that is the ISO text of a naive datetime, a round at [now]
    keeps, in their order, exactly the orders that are not unpaid with a
    missing expiry or one not later than [now], reports how many it
    dropped and changes nothing else: an unpaid order expiring one second
    before [now] goes, one expiring one second after [now] stays, and a
    booked order stays whatever its expiry.  On any other document, where
    some unpaid order's expiry is text that does not parse, text with a
    UTC offset or no text at all, the round raises a [ValueError] or a
    [TypeError] and removes nothing. *)
Theorem sweep_removes_lapsed_unpaid now d :
  let d' := fst (Main.cleanup_round d now) in
  Admin.cleanup_round d now = Main.cleanup_round d now /\
  (expiries_parse (orders d) ->
   (forall o, In o (orders d') <-> In o (orders d) /\ ~ lapsed now o) /\
   sublist (orders d') (orders d) /\
   snd (Main.cleanup_round d now) = Ok (length (orders d) - length (orders d'))%nat /\
   d' = set_orders d (orders d') /\
   (forall o, In o (orders d) -> o_status o = PStr "unpaid" ->
              o_expires_at o = Stamp (now - second) -> ~ In o (orders d')) /\
   (forall o, In o (orders d) -> o_status o = PStr "unpaid" ->
              o_expires_at o = Stamp (now + second) -> In o (orders d')) /\
   (forall o, In o (orders d) -> o_status o = PStr "booked" -> In o (orders d'))) /\
  (~ expiries_parse (orders d) ->
   d' = d /\
   exists e, snd (Main.cleanup_round d now) = Raise e
             /\ (e = ValueError \/ e = TypeError)).
Proof.
  intros d'. subst d'. split; [reflexivity|]. split.
  - intros Hp. rewrite (cleanup_round_filter now d Hp). simpl.
    assert (Hin : forall o, In o (List.filter (keeps_bool now) (orders d))
                            <-> In o (orders d) /\ ~ lapsed now o).
    { intros o. rewrite filter_In. split.
      - intros [Ho Hk]. split; [assumption|].
        apply (keeps_bool_spec now o (Hp o Ho)). assumption.
      - intros [Ho Hn]. split; [assumption|].
        apply (keeps_bool_spec now o (Hp o Ho)). assumption. }
    split; [exact Hin|]. split; [apply filter_sublist|].
    split; [reflexivity|]. split; [reflexivity|]. unfold second. repeat split.
    + intros o Ho Hu He Hkept. apply Hin in Hkept as [_ Hn]. apply Hn.
      split; [assumption|]. right. exists (now - 1000000). split; [assumption|lia].
    + intros o Ho Hu He. apply Hin. split; [assumption|].
      intros [_ [H|(t & H & Hle)]]; rewrite He in H; [discriminate|].
      inversion H; subst. lia.
    + intros o Ho Hb. apply Hin. split; [assumption|].
      intros [H _]. rewrite Hb in H. discriminate.
  - intros Hbad. destruct (cleanup_round_unreadable d Hbad) as (e & He & Hraise).
    rewrite (Hraise now). simpl. split; [reflexivity|]. exists e. split; [reflexivity|exact He].
Qed.

Lemma sweep_removes_lapsed_unpaid_witness :
  let d := set_orders empty_document
             [unpaid_order 1 3 "u1" (hour - second); unpaid_order 2 3 "u2" (hour + second)] in
  orders (fst (Main.cleanup_round d hour)) = [unpaid_order 2 3 "u2" (hour + second)]
  /\ sublist (orders (fst (Main.cleanup_round d hour))) (orders d).
Proof.
  intros d. split; [reflexivity|].
  refine (proj1 (proj2 (proj1 (proj2 (sweep_removes_lapsed_unpaid hour d)) _))).
  intros o [<-|[<-|[]]] _; right; eexists; reflexivity.
Defined.

(** ** Deleting a profile *)

(** C10.  Deleting a profile drops, without reordering what stays, the
    profiles with that id, the chats of that profile, the messages whose
    chat id is the id of such a chat, and the comments on the profile.
    Orders, promo codes, VIP profiles and settings are left as they were:
    every order placed for the profile is still there, while no profile
    with its id is. *)
Theorem delete_profile_frame d profile_id :
  let d' := Admin.delete_profile d profile_id in
  (forall p, In p (profiles d') <-> In p (profiles d) /\ p_id p <> profile_id) /\
  (forall c, In c (chats d') <-> In c (chats d) /\ c_profile_id c <> profile_id) /\
  (forall m, In m (messages d') <->
             In m (messages d) /\
             ~ exists c, In c (chats d) /\ c_profile_id c = profile_id
                         /\ c_id c = m_chat_id m) /\
  (forall c, In c (comments d') <-> In c (comments d) /\ cm_profile_id c <> profile_id) /\
  sublist (profiles d') (profiles d) /\
  sublist (chats d') (chats d) /\
  sublist (messages d') (messages d) /\
  sublist (comments d') (comments d) /\
  orders d' = orders d /\
  promocodes d' = promocodes d /\
  vip_profiles d' = vip_profiles d /\
  doc_settings d' = doc_settings d /\
  (forall o, In o (orders d) -> o_profile_id o = PInt profile_id ->
             In o (orders d') /\ forall p, In p (profiles d') -> PInt (p_id p) <> o_profile_id o).
Proof.
  simpl.
  assert (Hp : forall p, In p (List.filter (fun p => negb (p_id p =? profile_id)) (profiles d))
                         <-> In p (profiles d) /\ p_id p <> profile_id).
  { intros p. rewrite filter_In, negb_true_iff, Z.eqb_neq. reflexivity. }
  split; [exact Hp|]. split.
  { intros c. rewrite filter_In, negb_true_iff, Z.eqb_neq. reflexivity. }
  split.
  { intros m. rewrite filter_In, negb_true_iff. apply and_iff_compat_l.
    rewrite <- not_true_iff_false, existsb_exists. split; intros H Hex; apply H.
    - destruct Hex as (c & Hc & Hpid & Hid).
      exists (c_id c). split; [|now apply Z.eqb_eq].
      apply in_map. apply filter_In. split; [assumption|now apply Z.eqb_eq].
    - destruct Hex as (n & Hn & Heq). apply in_map_iff in Hn as (c & <- & Hc).
      apply filter_In in Hc as [Hc Hpid]. exists c.
      split; [assumption|]. split; [now apply Z.eqb_eq|]. symmetry. now apply Z.eqb_eq. }
  split.
  { intros c. rewrite filter_In, negb_true_iff, Z.eqb_neq. reflexivity. }
  repeat (split; [apply filter_sublist || reflexivity|]).
  intros o Ho Hpid. split; [assumption|].
  intros p Hin Heq. apply Hp in Hin as [_ Hne]. rewrite Hpid in Heq.
  inversion Heq. contradiction.
Qed.

(** ** Admin replies that confirm a payment *)

Example confirms_payment_mixed_case :
  Admin.confirms_payment "Thank you! PAYMENT Successful." = true.
Proof. reflexivity. Qed.

Example confirms_payment_other_text :
  Admin.confirms_payment "payment is successful" = false.
Proof. reflexivity. Qed.

(** The Telegram path: once the profile is found the reply is appended, and
    a confirming text books the last order of the list that is unpaid, is
    for the profile and, when a user is known, is that user's. *)
Lemma telegram_reply_books_last_match d profile_id text uid now profile :
  List.find (Admin.has_id profile_id) (profiles d) = Some profile ->
  Admin.confirms_payment text = true ->
  let d' := Admin.send_admin_reply_from_telegram d profile_id text uid now in
  orders d' = update_last (Admin.telegram_order_filter profile_id uid)
                (Admin.book now) (orders d)
  /\ length (messages d') = S (length (messages d)).
Proof.
  intros Hprofile Hconf. unfold Admin.send_admin_reply_from_telegram.
  rewrite Hprofile, Hconf. simpl.
  destruct (truthy uid);
    match goal with |- context [List.find ?q (chats d)] =>
      destruct (List.find q (chats d)) end;
    simpl; rewrite length_app; simpl; split; auto; lia.
Qed.

(** A text that does not confirm a payment changes no order. *)
Lemma telegram_reply_plain_text d profile_id text uid now :
  Admin.confirms_payment text = false ->
  orders (Admin.send_admin_reply_from_telegram d profile_id text uid now) = orders d.
Proof.
  intros Hconf. unfold Admin.send_admin_reply_from_telegram.
  destruct (List.find _ (profiles d)); [|reflexivity].
  rewrite Hconf. simpl.
  destruct (truthy uid);
    match goal with |- context [List.find ?q (chats d)] =>
      destruct (List.find q (chats d)) end; reflexivity.
Qed.

(** C3.  The admin panel's reply endpoint, told which user it answers
    (telegram_user_id = "u1"), books on "Payment successful" the last
    unpaid order of the profile, here the order of user "u2", and leaves
    the order of "u1" unpaid; the Telegram path on the same input books
    the order of "u1". *)
Theorem admin_reply_books_another_users_order :
  let now := 1800 * second in
  exists d',
    Admin.send_admin_reply two_open_orders 3 None (PStr "u1")
      "Payment successful" [] now = Ok d'
    /\ orders d' = [unpaid_order 1 3 "u1" hour;
                    Admin.book now (unpaid_order 2 3 "u2" hour)]
    /\ orders (Admin.send_admin_reply_from_telegram two_open_orders 3
                 "Payment successful" (PStr "u1") now)
       = [Admin.book now (unpaid_order 1 3 "u1" hour);
          unpaid_order 2 3 "u2" hour].
Proof.
  eexists. split; [reflexivity|]. split; reflexivity.
Qed.

(** ** Chat and message ids *)

(** While nothing was ever removed and ids are the positions 1..n, the
    next id is above every id in use. *)
Lemma next_len_id_above {A} (id : A -> Z) (xs : list A) :
  (forall x, In x xs -> id x <= Z.of_nat (length xs)) ->
  forall x, In x xs -> id x < next_len_id xs.
Proof. intros H x Hx. specialize (H x Hx). unfold next_len_id. lia. Qed.

(** C8.  After profile 1 is deleted, the first message of a new user to
    profile 2 opens a chat with id 2, the id of the chat user "u1" already
    has with that profile, and the message gets id 2, the id of a message
    already stored: ids are the list lengths plus one, and the deletion
    shortened the lists. *)
Theorem ids_reused_after_profile_deletion :
  let d1 := Admin.delete_profile two_profiles_two_chats 1 in
  exists d2 message_id,
    Main.send_message d1 2 (PStr "u2") (Some "hey") None 20 = Ok (d2, message_id)
    /\ map c_id (chats d2) = [2; 2]
    /\ map c_telegram_user_id (chats d2) = [PStr "u1"; PStr "u2"]
    /\ map m_id (messages d2) = [2; 2]
    /\ message_id = 2
    /\ ~ NoDup (map c_id (chats d2))
    /\ ~ NoDup (map m_id (messages d2)).
Proof.
  eexists _, _. split; [reflexivity|]. simpl.
  repeat split; intros H; apply NoDup_cons_1_1 in H; apply H; left.
Qed.

(** ** Reading the document *)

(** C7 as stated fails: what [load_data] answers for a file it cannot
    read is not the default document.  In the public process its settings
    are not the default settings; in the admin process they are not
    either, and the document has no "orders" key at all. *)
Lemma fallback_is_not_the_default_document :
  ~ (forall json_load st t1 t2 content e doc st',
        Main.cache_hit st t1 = None -> Main.cache_hit st t2 = None ->
        Main.disk st !! DATA_FILE = Some content ->
        Main.read_document json_load content = Raise e ->
        Main.load_data json_load st t1 t2 = Ok (doc, st') ->
        getitem doc "settings" = getitem Main.default_data "settings")
  /\ ~ (forall json_load env disk content e doc logged,
           disk !! DATA_FILE = Some content ->
           Admin.read_document json_load content = Raise e ->
           Admin.load_data json_load env disk = Ok (doc, logged) ->
           getitem doc "settings" = getitem (Admin.default_data env) "settings"
           /\ getitem doc "orders" = Ok (JList [])).
Proof.
  split.
  - intros H.
    assert (Hload : exists st', Main.load_data only_empty_list (stale_store "[]") 10 11
                                = Ok (Main.error_data, st')) by (eexists; reflexivity).
    destruct Hload as [st' Hload].
    assert (Hfile : Main.disk (stale_store "[]") !! DATA_FILE = Some "[]"%string)
      by (vm_compute; reflexivity).
    assert (Hread : Main.read_document only_empty_list "[]" = Raise TypeError)
      by reflexivity.
    specialize (H only_empty_list (stale_store "[]") 10 11 _ _ _ st'
                  eq_refl eq_refl Hfile Hread Hload).
    vm_compute in H. discriminate.
  - intros H.
    assert (Hload : Admin.load_data only_empty_list (JDict []) {[ DATA_FILE := "[]" ]}
                    = Ok (Admin.error_data, [TypeError])) by reflexivity.
    assert (Hfile : ({[ DATA_FILE := "[]" ]} : gmap string string) !! DATA_FILE
                    = Some "[]"%string) by (vm_compute; reflexivity).
    assert (Hread : Admin.read_document only_empty_list "[]" = Raise TypeError)
      by reflexivity.
    destruct (H _ _ _ _ _ _ _ Hfile Hread Hload) as [_ Horders].
    vm_compute in Horders. discriminate.
Qed.

(** C7, amended.  In both processes [load_data] returns a document for
    every state of the disk, the cache and the clock, whatever [json.load]
    does.  When the file is there and its text makes the [try] body raise,
    by failing to parse or by a shape the back-fill cannot complete, the
    exception is logged and the answer is the fallback literal of the
    process, which is not the default document of a missing file.  In the
    public process it holds the seven collections, all empty, and settings
    that are nothing but an empty wallet table; it becomes the cache
    entry.  In the admin process it holds six empty collections and no
    "orders" key, and settings with the eleven built-in wallets, the
    default banner and catalogs and no bonus percentage. *)
Theorem load_data_survives_unreadable_file (json_load : string -> result json) :
  let main_fallback :=
    JDict [("profiles", JList []); ("chats", JList []); ("messages", JList []);
           ("orders", JList []); ("comments", JList []); ("vip_profiles", JList []);
           ("promocodes", JList []);
           ("settings", JDict [("crypto_wallets", JDict [])])] in
  let admin_fallback :=
    JDict [("profiles", JList []); ("vip_profiles", JList []); ("chats", JList []);
           ("messages", JList []); ("comments", JList []); ("promocodes", JList []);
           ("settings",
            JDict [("crypto_wallets", eleven_wallets);
                   ("banner", default_banner);
                   ("vip_catalogs", default_vip_catalogs)])] in
  (forall st t1 t2, exists doc st', Main.load_data json_load st t1 t2 = Ok (doc, st')) /\
  (forall env disk, exists doc logged,
      Admin.load_data json_load env disk = Ok (doc, logged)) /\
  (forall st t1 t2 content e,
      Main.cache_hit st t1 = None -> Main.cache_hit st t2 = None ->
      Main.disk st !! DATA_FILE = Some content ->
      Main.read_document json_load content = Raise e ->
      Main.load_data json_load st t1 t2
      = Ok (main_fallback,
            {| Main.disk := Main.disk st;
               Main._data_cache := Some main_fallback;
               Main._cache_timestamp := t2;
               Main.log := Main.log st ++ [e] |})) /\
  (forall env disk content e,
      disk !! DATA_FILE = Some content ->
      Admin.read_document json_load content = Raise e ->
      Admin.load_data json_load env disk = Ok (admin_fallback, [e])) /\
  (forall content e,
      json_load content = Raise e ->
      Main.read_document json_load content = Raise e
      /\ Admin.read_document json_load content = Raise e) /\
  (forall k, In k collection_keys -> getitem main_fallback k = Ok (JList [])) /\
  (forall k, In k collection_keys -> k <> "orders" ->
             getitem admin_fallback k = Ok (JList [])) /\
  getitem admin_fallback "orders" = Raise (KeyError "orders") /\
  getitem main_fallback "settings" <> getitem Main.default_data "settings" /\
  (forall env, getitem admin_fallback "settings"
               <> getitem (Admin.default_data env) "settings").
Proof.
  cbv zeta. split; [|split; [|split; [|split; [|split; [|split; [|split; [|split;
    [|split]]]]]]]].
  - intros st t1 t2. unfold Main.load_data.
    destruct (Main.cache_hit st t1); [eauto|].
    destruct (Main.cache_hit st t2); [eauto|]. unfold Main.from_disk.
    destruct (Main.disk st !! DATA_FILE); [|simpl; eauto].
    destruct (Main.read_document json_load s); simpl; eauto.
  - intros env disk. unfold Admin.load_data.
    destruct (disk !! DATA_FILE); [|eauto].
    destruct (Admin.read_document json_load s); simpl; eauto.
  - intros st t1 t2 content e H1 H2 Hfile Hraise.
    unfold Main.load_data, Main.from_disk.
    rewrite H1, H2, Hfile, Hraise. reflexivity.
  - intros env disk content e Hfile Hraise. unfold Admin.load_data.
    rewrite Hfile, Hraise. reflexivity.
  - intros content e H. split.
    + unfold Main.read_document. rewrite H. reflexivity.
    + unfold Admin.read_document. rewrite H. reflexivity.
  - intros k H. simpl in H.
    repeat (destruct H as [<-|H]; [reflexivity|]). contradiction.
  - intros k H Hk. simpl in H.
    repeat (destruct H as [<-|H]; [reflexivity || contradiction|]). contradiction.
  - reflexivity.
  - vm_compute. discriminate.
  - intros env. cbn. intros [= _ H].
Qed.

(** A truncated file, which does not parse, and a file holding a list,
    which parses but is no document, both end in the fallback. *)
Lemma load_data_survives_unreadable_file_witness :
  (exists st', Main.load_data only_empty_list (stale_store "{profiles: [") 10 11
               = Ok (Main.error_data, st')
               /\ Main.log st' = [ValueError])
  /\ (exists st', Main.load_data only_empty_list (stale_store "[]") 10 11
                  = Ok (Main.error_data, st')
                  /\ Main.log st' = [TypeError])
  /\ Admin.load_data only_empty_list (JDict []) {[ DATA_FILE := "[]" ]}
     = Ok (Admin.error_data, [TypeError]).
Proof.
  pose proof (load_data_survives_unreadable_file only_empty_list)
    as (_ & _ & Hmain & Hadmin & _).
  split; [|split].
  - eexists. split.
    + apply (Hmain (stale_store "{profiles: [") 10 11 "{profiles: [" ValueError);
        reflexivity.
    + reflexivity.
  - eexists. split.
    + apply (Hmain (stale_store "[]") 10 11 "[]" TypeError); reflexivity.
    + reflexivity.
  - apply (Hadmin _ _ "[]"); reflexivity.
Defined.

(** ** Writing the document *)

Lemma string_app_assoc (a b c : string) : ((a ++ b) ++ c)%string = (a ++ (b ++ c))%string.
Proof.
  induction a as [|x a IH]; [reflexivity|].
  change (String x ((a ++ b) ++ c) = String x (a ++ (b ++ c)))%string.
  now rewrite IH.
Qed.

Lemma string_app_empty (a : string) : (a ++ "")%string = a.
Proof.
  induction a as [|x a IH]; [reflexivity|].
  change (String x (a ++ "") = String x a)%string.
  now rewrite IH.
Qed.

(** Dumping into [path] extends the file at [path] and touches no other. *)
Lemma write_chunks_lookup (path : string) (chunks : list string) (fs : gmap string string) :
  fs_run (map (WriteChunk path) chunks) fs !! path
  = match chunks with
    | [] => fs !! path
    | _ => Some (default "" (fs !! path) ++ text_of chunks)%string
    end
  /\ forall other, other <> path ->
                   fs_run (map (WriteChunk path) chunks) fs !! other = fs !! other.
Proof.
  revert fs. induction chunks as [|c r IH]; intros fs; [split; reflexivity|].
  unfold fs_run in *. cbn [map fold_left fs_step].
  destruct (IH (<[path := (default "" (fs !! path) ++ c)%string]> fs)) as [Hp Ho].
  split.
  - rewrite Hp, lookup_insert_eq. cbn [text_of fold_right default from_option].
    destruct r as [|c' r'].
    + cbn. now rewrite string_app_empty.
    + unfold id. rewrite string_app_assoc. reflexivity.
  - intros other Hne. rewrite (Ho other Hne).
    apply lookup_insert_ne. congruence.
Qed.

Lemma temp_file_distinct : Main.temp_file <> DATA_FILE.
Proof. discriminate. Qed.

(** The public process: while the temporary file is being written, the
    document on disk is the old one. *)
Lemma main_save_temp_phase disk old chunks k :
  (k <= S (length chunks))%nat ->
  crash_after k (Main.save_script chunks) (<[DATA_FILE := old]> disk) !! DATA_FILE
  = Some old.
Proof.
  intros Hk. unfold crash_after, Main.save_script.
  destruct k as [|k]; [apply lookup_insert_eq|].
  cbn [firstn]. rewrite firstn_app.
  replace (k - length (map (WriteChunk Main.temp_file) chunks))%nat with 0%nat
    by (rewrite length_map; lia).
  cbn [firstn]. rewrite app_nil_r, firstn_map.
  unfold fs_run. cbn [fold_left fs_step].
  destruct (write_chunks_lookup Main.temp_file (take k chunks)
              (<[Main.temp_file := ""]> (<[DATA_FILE := old]> disk))) as [_ Ho].
  unfold fs_run in Ho. rewrite (Ho DATA_FILE) by (intros H; discriminate).
  rewrite lookup_insert_ne by discriminate. apply lookup_insert_eq.
Qed.

(** The public process: a save that runs to its end leaves the new text. *)
Lemma main_save_completes disk chunks :
  fs_run (Main.save_script chunks) disk !! DATA_FILE = Some (text_of chunks)
  /\ fs_run (Main.save_script chunks) disk !! Main.temp_file = None.
Proof.
  unfold Main.save_script, fs_run. cbn [fold_left fs_step].
  rewrite fold_left_app. cbn [fold_left fs_step].
  destruct (write_chunks_lookup Main.temp_file chunks (<[Main.temp_file := ""]> disk))
    as [Hp _].
  unfold fs_run in Hp.
  assert (Htmp : fold_left (fun fs op => fs_step op fs)
                   (map (WriteChunk Main.temp_file) chunks)
                   (<[Main.temp_file := ""]> disk) !! Main.temp_file
                 = Some (text_of chunks)).
  { rewrite Hp, lookup_insert_eq. destruct chunks; reflexivity. }
  rewrite lookup_delete_ne by discriminate. rewrite Htmp.
  split.
  - apply lookup_insert_eq.
  - rewrite lookup_insert_ne by discriminate.
    rewrite lookup_delete_eq. reflexivity.
Qed.

(** C1.  Neither process replaces the document atomically.  The public
    process writes a temporary file, then removes data.json, then renames:
    dying between the last two leaves no data.json at all.  The admin
    process opens data.json itself for writing: dying after the open
    leaves it empty, and dying during the dump leaves the beginning of the
    new text. *)
Theorem save_data_crash_window (disk : gmap string string) (old : string)
    (chunks : list string) :
  let disk0 := <[DATA_FILE := old]> disk in
  crash_after (length chunks + 2) (Main.save_script chunks) disk0 !! DATA_FILE = None
  /\ crash_after 1 (Admin.save_script chunks) disk0 !! DATA_FILE = Some ""
  /\ forall k, (k <= length chunks)%nat ->
               crash_after (S k) (Admin.save_script chunks) disk0 !! DATA_FILE
               = Some (text_of (take k chunks)).
Proof.
  intros disk0. split; [|split].
  - unfold crash_after, Main.save_script.
    replace (length chunks + 2)%nat with (S (length chunks + 1)) by lia.
    cbn [firstn]. rewrite firstn_app, length_map.
    replace (length chunks + 1 - length chunks)%nat with 1%nat by lia.
    rewrite firstn_all2 by (rewrite length_map; lia). cbn [firstn].
    unfold fs_run. cbn [fold_left fs_step]. rewrite fold_left_app.
    cbn [fold_left fs_step]. apply lookup_delete_eq.
  - unfold crash_after, Admin.save_script. cbn. apply lookup_insert_eq.
  - intros k Hk. unfold crash_after, Admin.save_script. cbn [firstn].
    rewrite firstn_map. unfold fs_run. cbn [fold_left fs_step].
    destruct (write_chunks_lookup DATA_FILE (take k chunks) (<[DATA_FILE := ""]> disk0))
      as [Hp _].
    unfold fs_run in Hp. rewrite Hp, lookup_insert_eq.
    destruct (take k chunks); reflexivity.
Qed.

(** ** The cache and the documents handed out *)

(** C4.  A handler loads the document, appends an order to the list under
    "orders" and never saves.  The next [load_data], served from the
    cache one second later, returns a document that already holds the
    order: the first copy and the cache are two dicts over the same
    lists.  Nothing reached the disk. *)
Theorem cached_document_shares_lists (json_load : string -> result json) :
  exists data1 p1 data2 p3,
    Shared.load_data json_load cold_start (10 * second) (10 * second) = Ok (data1, p1)
    /\ collection "orders" (seen p1 data1) = []
    /\ Shared.load_data json_load (Shared.append_new p1 data1 "orders" order_dict)
         (11 * second) (11 * second) = Ok (data2, p3)
    /\ data2 <> data1
    /\ collection "orders" (seen p3 data2) = [order_dict]
    /\ Shared.files p3 = ∅.
Proof.
  remember (Shared.load_data json_load cold_start (10 * second) (10 * second))
    as first eqn:H1.
  vm_compute in H1.
  match type of H1 with _ = Ok (?d, ?p) => exists d, p end.
  remember (Shared.load_data json_load _ (11 * second) (11 * second)) as again eqn:H2.
  vm_compute in H2.
  match type of H2 with _ = Ok (?d, ?p) => exists d, p end.
  split; [exact H1|]. split; [vm_compute; reflexivity|].
  split; [exact H2|]. split; [discriminate|].
  split; vm_compute; reflexivity.
Qed.

(** Binding a key of the returned dict to a new list, on the other hand,
    stays with the caller: that much the copy does isolate. *)
Lemma rebinding_a_section_is_private (json_load : string -> result json) :
  exists data1 p1 data2 p3,
    Shared.load_data json_load cold_start (10 * second) (10 * second) = Ok (data1, p1)
    /\ Shared.load_data json_load
         (Shared.rebind_new p1 data1 "orders" (JList [order_dict]))
         (11 * second) (11 * second) = Ok (data2, p3)
    /\ collection "orders" (seen p3 data1) = [order_dict]
    /\ collection "orders" (seen p3 data2) = [].
Proof.
  remember (Shared.load_data json_load cold_start (10 * second) (10 * second))
    as first eqn:H1.
  vm_compute in H1.
  match type of H1 with _ = Ok (?d, ?p) => exists d, p end.
  remember (Shared.load_data json_load _ (11 * second) (11 * second)) as again eqn:H2.
  vm_compute in H2.
  match type of H2 with _ = Ok (?d, ?p) => exists d, p end.
  split; [exact H1|]. split; [exact H2|].
  split; vm_compute; reflexivity.
Qed.

(** * Further properties of the code *)

(** ** The store: saving and loading *)

Lemma main_save_other_paths disk chunks path :
  path <> DATA_FILE -> path <> Main.temp_file ->
  fs_run (Main.save_script chunks) disk !! path = disk !! path.
Proof.
  intros Hd Ht. unfold Main.save_script, fs_run. cbn [fold_left fs_step].
  rewrite fold_left_app. cbn [fold_left fs_step].
  destruct (write_chunks_lookup Main.temp_file chunks (<[Main.temp_file := ""]> disk))
    as [Hp Ho].
  unfold fs_run in Hp, Ho.
  assert (Htmp : is_Some (fold_left (fun fs op => fs_step op fs)
                            (map (WriteChunk Main.temp_file) chunks)
                            (<[Main.temp_file := ""]> disk) !! Main.temp_file)).
  { rewrite Hp, lookup_insert_eq. destruct chunks; eauto. }
  destruct Htmp as [text Htext]. rewrite lookup_delete_ne by discriminate.
  rewrite Htext. rewrite lookup_insert_ne by congruence.
  rewrite lookup_delete_ne by congruence. rewrite lookup_delete_ne by congruence.
  rewrite (Ho path) by congruence. apply lookup_insert_ne. congruence.
Qed.

(** X1.  [save_data] of the public process, the file system and the
    serializer not failing: for every value it leaves data.json holding
    exactly the text that was dumped, leaves no temporary file behind and
    touches no other file.  For a dict or a list it then returns [True]
    with the value as cache entry, stamped with the time of the save; for
    any other value [data.copy()] raises after the file was replaced, and
    it returns [False], logs the [AttributeError] and leaves the cache and
    its time stamp as they were. *)
Theorem save_data_replaces_document (json_dump : json -> list string)
    (st : Main.store) (data : json) (now : Z) :
  let saved := fst (Main.save_data json_dump st data now) in
  let st' := snd (Main.save_data json_dump st data now) in
  Main.disk st' !! DATA_FILE = Some (text_of (json_dump data))
  /\ Main.disk st' !! Main.temp_file = None
  /\ (forall path, path <> DATA_FILE -> path <> Main.temp_file ->
                   Main.disk st' !! path = Main.disk st !! path)
  /\ ((exists entries, data = JDict entries) \/ (exists items, data = JList items) ->
      saved = true
      /\ Main._data_cache st' = Some data
      /\ Main._cache_timestamp st' = now
      /\ Main.log st' = Main.log st)
  /\ (~ ((exists entries, data = JDict entries) \/ (exists items, data = JList items)) ->
      saved = false
      /\ Main._data_cache st' = Main._data_cache st
      /\ Main._cache_timestamp st' = Main._cache_timestamp st
      /\ Main.log st' = Main.log st ++ [AttributeError]).
Proof.
  cbv zeta. unfold Main.save_data.
  destruct (main_save_completes (Main.disk st) (json_dump data)) as [H1 H2].
  assert (Hdisk : forall b (x y : bool * Main.store),
             Main.disk (snd x) = fs_run (Main.save_script (json_dump data)) (Main.disk st) ->
             Main.disk (snd y) = fs_run (Main.save_script (json_dump data)) (Main.disk st) ->
             Main.disk (snd (if b : bool then x else y))
             = fs_run (Main.save_script (json_dump data)) (Main.disk st)).
  { intros [] x y Hx Hy; assumption. }
  rewrite Hdisk by reflexivity.
  split; [exact H1|]. split; [exact H2|].
  split; [intros path Hd Ht; now apply main_save_other_paths|].
  split.
  - intros [[entries ->]|[items ->]]; cbn; repeat split.
  - intros Hno. destruct data; cbn; repeat split; exfalso; apply Hno; eauto.
Qed.

(** X2.  Cache coherence in the public process: a [load_data] that starts
    less than five seconds after a [save_data] of a dict or a list returns
    the saved value from the cache, whatever the disk holds and whatever
    the parser would make of it, and changes nothing.  After a
    [save_data] of any other value, which failed to renew the cache, it
    still answers with the entry the cache held before when that one is
    fresh, though the file now holds the new text. *)
Theorem load_after_save_is_the_saved_document
    (json_load : string -> result json) (json_dump : json -> list string)
    (st : Main.store) (data : json) (now t1 t2 : Z) :
  t1 - now < Main._cache_ttl ->
  let st' := snd (Main.save_data json_dump st data now) in
  (Main.has_copy data = true ->
   Main.load_data json_load st' t1 t2 = Ok (data, st'))
  /\ (Main.has_copy data = false ->
      forall old, Main.cache_hit st t1 = Some old ->
                  Main.load_data json_load st' t1 t2 = Ok (old, st')
                  /\ Main.disk st' !! DATA_FILE = Some (text_of (json_dump data))).
Proof.
  intros Hfresh. cbv zeta. unfold Main.save_data. split.
  - intros ->. unfold Main.load_data, Main.cache_hit. cbn -[fs_run].
    apply Z.ltb_lt in Hfresh. rewrite Hfresh. reflexivity.
  - intros -> old Hold. split; [|apply main_save_completes].
    unfold Main.load_data. unfold Main.cache_hit in *. cbn -[fs_run].
    now rewrite Hold.
Qed.

Lemma load_after_save_is_the_saved_document_witness :
  Main.load_data load_default
    (snd (Main.save_data dump_default (stale_store "[]") (JDict []) (10 * second)))
    (12 * second) (12 * second)
  = Ok (JDict [], snd (Main.save_data dump_default (stale_store "[]") (JDict [])
                         (10 * second))).
Proof.
  refine (proj1 (load_after_save_is_the_saved_document load_default dump_default
                   (stale_store "[]") (JDict []) (10 * second) (12 * second)
                   (12 * second) _) eq_refl).
  reflexivity.
Defined.

Lemma ensure_key_present k dflt entries :
  is_Some (dict_lookup k entries) ->
  ensure_key k dflt (JDict entries) = Ok (JDict entries).
Proof.
  intros H. unfold ensure_key. simpl. now rewrite bool_decide_eq_true_2.
Qed.

Lemma read_document_complete (json_load : string -> result json) content doc :
  json_load content = Ok doc -> complete_document doc ->
  Main.read_document json_load content = Ok doc.
Proof.
  intros Hload (entries & s & -> & Hs & Hw & Hkeys).
  unfold Main.read_document. rewrite Hload. simpl.
  rewrite ensure_key_present by (rewrite Hs; eauto). simpl.
  rewrite Hs. simpl. rewrite bool_decide_eq_true_2 by assumption. simpl.
  repeat (rewrite ensure_key_present by (apply Hkeys; simpl; tauto); simpl).
  reflexivity.
Qed.

(** X3.  The round trip through the disk in the public process: once the
    cache is older than five seconds, a [load_data] after a [save_data] of
    a document that has all its sections returns that document again,
    provided the parser reads back what the serializer wrote; it becomes
    the cache entry and nothing is logged. *)
Theorem load_after_save_reads_the_disk
    (json_load : string -> result json) (json_dump : json -> list string)
    (st : Main.store) (data : json) (now t1 t2 : Z) :
  complete_document data ->
  json_load (text_of (json_dump data)) = Ok data ->
  Main._cache_ttl <= t1 - now -> Main._cache_ttl <= t2 - now ->
  Main.load_data json_load (snd (Main.save_data json_dump st data now)) t1 t2
  = Ok (data,
        {| Main.disk := Main.disk (snd (Main.save_data json_dump st data now));
           Main._data_cache := Some data;
           Main._cache_timestamp := t2;
           Main.log := Main.log st |}).
Proof.
  intros Hcomplete Hparse H1 H2.
  destruct (main_save_completes (Main.disk st) (json_dump data)) as [Hfile _].
  assert (Hdict : Main.has_copy data = true).
  { destruct Hcomplete as (entries & s & -> & _). reflexivity. }
  unfold Main.load_data, Main.cache_hit, Main.from_disk, Main.save_data.
  rewrite Hdict.
  cbn [snd Main._data_cache Main._cache_timestamp Main.disk].
  apply Z.ltb_ge in H1, H2. rewrite H1, H2, Hfile.
  rewrite (read_document_complete _ _ _ Hparse Hcomplete).
  unfold Main.cached. cbn -[fs_run]. now rewrite app_nil_r.
Qed.

Lemma load_after_save_reads_the_disk_witness :
  exists st',
    Main.load_data load_default
      (snd (Main.save_data dump_default (stale_store "[]") Main.default_data (10 * second)))
      (20 * second) (20 * second)
    = Ok (Main.default_data, st')
    /\ Main._cache_timestamp st' = 20 * second.
Proof.
  eexists. split.
  - apply load_after_save_reads_the_disk; try reflexivity; try (cbv; discriminate).
    exists [("profiles", JList []); ("vip_profiles", JList []); ("chats", JList []);
            ("messages", JList []); ("comments", JList []); ("promocodes", JList []);
            ("orders", JList []);
            ("settings",
             JDict [("app", JDict [("app_name", JStr "Muji"); ("default_age", JInt 25);
                                   ("default_city", JStr "Moscow");
                                   ("vip_blurred_count", JInt 3);
                                   ("extra_vip_blurred_count", JInt 3);
                                   ("secret_blurred_count", JInt 3)]);
                    ("crypto_wallets", three_wallets);
                    ("banner", default_banner);
                    ("vip_catalogs", default_vip_catalogs)])].
    eexists. split; [reflexivity|]. split; [reflexivity|]. split; [simpl; eauto|].
    intros k Hk. simpl in Hk.
    repeat (destruct Hk as [<-|Hk]; [simpl; eauto|]). contradiction.
  - reflexivity.
Defined.

(** X4.  Two processes over one file: while the cache of the public
    process is fresh, a document the admin process has just written to
    data.json is invisible to it, [load_data] still answering with the
    cached one; and the next [save_data] of the public process replaces
    the admin's text on disk by its own. *)
Theorem stale_cache_overwrites_the_other_process
    (json_load : string -> result json) (json_dump : json -> list string)
    (st : Main.store) (cached_doc from_admin from_public : json) (t now : Z) :
  Main.cache_hit st t = Some cached_doc ->
  let shared := snd (Admin.save_data json_dump (Main.disk st) from_admin) in
  let st1 := {| Main.disk := shared; Main._data_cache := Main._data_cache st;
                Main._cache_timestamp := Main._cache_timestamp st;
                Main.log := Main.log st |} in
  shared !! DATA_FILE = Some (text_of (json_dump from_admin))
  /\ Main.load_data json_load st1 t t = Ok (cached_doc, st1)
  /\ Main.disk (snd (Main.save_data json_dump st1 from_public now)) !! DATA_FILE
     = Some (text_of (json_dump from_public)).
Proof.
  intros Hhit shared st1. split; [|split].
  - subst shared. unfold Admin.save_data, Admin.save_script, fs_run. simpl.
    destruct (write_chunks_lookup DATA_FILE (json_dump from_admin)
                (<[DATA_FILE := ""]> (Main.disk st))) as [Hp _].
    unfold fs_run in Hp. rewrite Hp, lookup_insert_eq.
    destruct (json_dump from_admin); reflexivity.
  - unfold Main.load_data. unfold Main.cache_hit in *. simpl. now rewrite Hhit.
  - unfold Main.save_data. destruct (Main.has_copy from_public);
      cbn [snd Main.disk]; apply main_save_completes.
Qed.

Lemma stale_cache_overwrites_the_other_process_witness :
  let st := warm_store {[ DATA_FILE := "{default}" ]} Main.default_data (10 * second) in
  let shared := snd (Admin.save_data dump_default (Main.disk st) Admin.error_data) in
  Main.load_data load_default (warm_store shared Main.default_data (10 * second))
    (12 * second) (12 * second)
  = Ok (Main.default_data, warm_store shared Main.default_data (10 * second)).
Proof.
  intros st shared.
  exact (proj1 (proj2 (stale_cache_overwrites_the_other_process load_default dump_default
                         st Main.default_data Admin.error_data (JDict [])
                         (12 * second) (13 * second) eq_refl))).
Defined.

(** ** The store: sections a file may lack *)

Lemma dict_lookup_store k v entries k' :
  dict_lookup k' (dict_store k v entries)
  = if String.eqb k' k then Some v else dict_lookup k' entries.
Proof.
  induction entries as [|[k0 v0] r IH]; simpl.
  - destruct (String.eqb k' k); reflexivity.
  - destruct (String.eqb_spec k k0) as [->|Hne]; simpl.
    + destruct (String.eqb k' k0); reflexivity.
    + rewrite IH. destruct (String.eqb_spec k' k0) as [->|Hne'].
      * destruct (String.eqb_spec k0 k); [congruence|reflexivity].
      * reflexivity.
Qed.

Lemma ensure_key_dict k dflt entries :
  exists entries',
    ensure_key k dflt (JDict entries) = Ok (JDict entries')
    /\ forall k', dict_lookup k' entries' = backfilled [(k, dflt)] entries k'.
Proof.
  unfold ensure_key, backfilled. simpl.
  destruct (dict_lookup k entries) as [v|] eqn:Hk.
  - rewrite bool_decide_eq_true_2 by eauto. exists entries. split; [reflexivity|].
    intros k'. destruct (dict_lookup k' entries) eqn:Hk'; [reflexivity|].
    destruct (String.eqb_spec k' k); [congruence|reflexivity].
  - rewrite bool_decide_eq_false_2 by (intros [? ?]; discriminate).
    eexists. split; [reflexivity|]. intros k'. rewrite dict_lookup_store.
    destruct (String.eqb_spec k' k) as [->|Hne].
    + now rewrite Hk.
    + destruct (dict_lookup k' entries); reflexivity.
Qed.

Lemma ensure_nested_dict outer k dflt entries inner :
  dict_lookup outer entries = Some (JDict inner) ->
  exists entries' inner',
    ensure_nested outer k dflt (JDict entries) = Ok (JDict entries')
    /\ dict_lookup outer entries' = Some (JDict inner')
    /\ (forall k', dict_lookup k' inner' = backfilled [(k, dflt)] inner k')
    /\ (forall k', k' <> outer -> dict_lookup k' entries' = dict_lookup k' entries).
Proof.
  intros Houter. unfold ensure_nested, backfilled. simpl. rewrite Houter. simpl.
  destruct (dict_lookup k inner) as [v|] eqn:Hk.
  - rewrite bool_decide_eq_true_2 by eauto. exists entries, inner.
    repeat split; auto. intros k'.
    destruct (dict_lookup k' inner) eqn:Hk'; [reflexivity|].
    destruct (String.eqb_spec k' k); [congruence|reflexivity].
  - rewrite bool_decide_eq_false_2 by (intros [? ?]; discriminate).
    eexists _, _. split; [reflexivity|]. split; [|split].
    + rewrite dict_lookup_store. now rewrite String.eqb_refl.
    + intros k'. rewrite dict_lookup_store.
      destruct (String.eqb_spec k' k) as [->|Hne].
      * now rewrite Hk.
      * destruct (dict_lookup k' inner); reflexivity.
    + intros k' Hne. rewrite dict_lookup_store.
      destruct (String.eqb_spec k' outer); [contradiction|reflexivity].
Qed.

(** X5.  The back-fill of the admin process's [load_data] on a file that
    holds a dict (with a dict under "settings", if it has the key): it
    succeeds; every key the file had keeps its value, at the top level and
    under "settings"; a missing wallet table, bonus percentage (5), banner
    or catalog table is filled with its default, a missing "promocodes",
    "comments", "vip_profiles" or "orders" with the empty list; and no
    other key appears, so a file without "profiles", "chats" or "messages"
    is loaded without them. *)
Theorem admin_backfill_keeps_what_the_file_has
    (json_load : string -> result json) (content : string)
    (entries had_settings : list (string * json)) :
  json_load content = Ok (JDict entries) ->
  dict_lookup "settings" entries = Some (JDict had_settings)
  \/ (dict_lookup "settings" entries = None /\ had_settings = []) ->
  exists entries' settings',
    Admin.read_document json_load content = Ok (JDict entries')
    /\ dict_lookup "settings" entries' = Some (JDict settings')
    /\ (forall k, dict_lookup k settings'
                  = backfilled [("crypto_wallets", eleven_wallets);
                                ("bonus_percentage", JInt 5);
                                ("banner", default_banner);
                                ("vip_catalogs", default_vip_catalogs)] had_settings k)
    /\ (forall k, k <> "settings" ->
                  dict_lookup k entries'
                  = backfilled [("promocodes", JList []); ("comments", JList []);
                                ("vip_profiles", JList []); ("orders", JList [])]
                      entries k).
Proof.
  intros Hload Hsettings. unfold Admin.read_document. rewrite Hload. simpl.
  destruct (ensure_key_dict "settings" (JDict []) entries) as (e0 & -> & H0). simpl.
  assert (Hs0 : dict_lookup "settings" e0 = Some (JDict had_settings)).
  { rewrite H0. unfold backfilled.
    destruct Hsettings as [-> | [-> ->]]; reflexivity. }
  destruct (ensure_nested_dict "settings" "crypto_wallets" eleven_wallets e0 _ Hs0)
    as (e1 & s1 & -> & Hs1 & Hi1 & Ho1). simpl.
  destruct (ensure_nested_dict "settings" "bonus_percentage" (JInt 5) e1 _ Hs1)
    as (e2 & s2 & -> & Hs2 & Hi2 & Ho2). simpl.
  destruct (ensure_nested_dict "settings" "banner" default_banner e2 _ Hs2)
    as (e3 & s3 & -> & Hs3 & Hi3 & Ho3). simpl.
  destruct (ensure_nested_dict "settings" "vip_catalogs" default_vip_catalogs e3 _ Hs3)
    as (e4 & s4 & -> & Hs4 & Hi4 & Ho4). simpl.
  destruct (ensure_key_dict "promocodes" (JList []) e4) as (e5 & -> & H5). simpl.
  destruct (ensure_key_dict "comments" (JList []) e5) as (e6 & -> & H6). simpl.
  destruct (ensure_key_dict "vip_profiles" (JList []) e6) as (e7 & -> & H7). simpl.
  destruct (ensure_key_dict "orders" (JList []) e7) as (e8 & -> & H8).
  exists e8, s4. split; [reflexivity|]. split; [|split].
  - rewrite H8. unfold backfilled. rewrite H7. unfold backfilled. rewrite H6.
    unfold backfilled. rewrite H5. unfold backfilled. now rewrite Hs4.
  - intros k. rewrite Hi4. unfold backfilled. rewrite Hi3. unfold backfilled.
    rewrite Hi2. unfold backfilled. rewrite Hi1. unfold backfilled.
    destruct (dict_lookup k had_settings); [reflexivity|]. simpl.
    destruct (String.eqb k "crypto_wallets"); [reflexivity|].
    destruct (String.eqb k "bonus_percentage"); [reflexivity|].
    destruct (String.eqb k "banner"); reflexivity.
  - intros k Hk. rewrite H8. unfold backfilled. rewrite H7. unfold backfilled.
    rewrite H6. unfold backfilled. rewrite H5. unfold backfilled.
    rewrite (Ho4 k Hk), (Ho3 k Hk), (Ho2 k Hk), (Ho1 k Hk), H0. unfold backfilled.
    destruct (dict_lookup k entries); [reflexivity|]. simpl.
    destruct (String.eqb_spec k "settings"); [contradiction|].
    destruct (String.eqb k "promocodes"); [reflexivity|].
    destruct (String.eqb k "comments"); [reflexivity|].
    destruct (String.eqb k "vip_profiles"); reflexivity.
Qed.

Lemma admin_backfill_keeps_what_the_file_has_witness :
  exists entries' settings',
    Admin.read_document
      (always_reads (JDict [("profiles", JList []);
                            ("settings", JDict [("bonus_percentage", JInt 10)])]))
      "{}"
    = Ok (JDict entries')
    /\ dict_lookup "settings" entries' = Some (JDict settings')
    /\ dict_lookup "bonus_percentage" settings' = Some (JInt 10)
    /\ dict_lookup "banner" settings' = Some default_banner
    /\ dict_lookup "orders" entries' = Some (JList [])
    /\ dict_lookup "chats" entries' = None.
Proof.
  destruct (admin_backfill_keeps_what_the_file_has
              (always_reads (JDict [("profiles", JList []);
                                    ("settings", JDict [("bonus_percentage", JInt 10)])]))
              "{}"
              [("profiles", JList []); ("settings", JDict [("bonus_percentage", JInt 10)])]
              [("bonus_percentage", JInt 10)] eq_refl (or_introl eq_refl))
    as (entries' & settings' & Hread & Hset & Hin & Hout).
  exists entries', settings'. split; [exact Hread|]. split; [exact Hset|].
  split; [rewrite Hin; reflexivity|]. split; [rewrite Hin; reflexivity|].
  split; [rewrite Hout by discriminate; reflexivity|].
  rewrite Hout by discriminate. reflexivity.
Defined.

(** X6.  The back-fill of the public process's [load_data], on the same
    kind of file: every key the file had keeps its value, a missing wallet
    table under "settings" becomes the three built-in wallets, a missing
    "orders", "chats", "messages", "comments" or "vip_profiles" becomes
    the empty list, and no other key appears (a missing "profiles" or
    "promocodes" stays missing, and no bonus percentage is filled in). *)
Theorem main_backfill_keeps_what_the_file_has
    (json_load : string -> result json) (content : string)
    (entries had_settings : list (string * json)) :
  json_load content = Ok (JDict entries) ->
  dict_lookup "settings" entries = Some (JDict had_settings)
  \/ (dict_lookup "settings" entries = None /\ had_settings = []) ->
  exists entries' settings',
    Main.read_document json_load content = Ok (JDict entries')
    /\ dict_lookup "settings" entries' = Some (JDict settings')
    /\ (forall k, dict_lookup k settings'
                  = backfilled [("crypto_wallets", three_wallets)] had_settings k)
    /\ (forall k, k <> "settings" ->
                  dict_lookup k entries'
                  = backfilled [("orders", JList []); ("chats", JList []);
                                ("messages", JList []); ("comments", JList []);
                                ("vip_profiles", JList [])] entries k).
Proof.
  intros Hload Hsettings. unfold Main.read_document. rewrite Hload. simpl.
  destruct (ensure_key_dict "settings" (JDict []) entries) as (e0 & -> & H0). simpl.
  assert (Hs0 : dict_lookup "settings" e0 = Some (JDict had_settings)).
  { rewrite H0. unfold backfilled.
    destruct Hsettings as [-> | [-> ->]]; reflexivity. }
  rewrite Hs0. simpl.
  assert (Hstep : exists e1 s1,
             (if bool_decide (is_Some (dict_lookup "crypto_wallets" had_settings))
              then Ok (JDict e0)
              else Ok (JDict (dict_store "settings"
                                (JDict (dict_store "crypto_wallets" three_wallets
                                          had_settings)) e0))) = Ok (JDict e1)
             /\ dict_lookup "settings" e1 = Some (JDict s1)
             /\ (forall k, dict_lookup k s1
                           = backfilled [("crypto_wallets", three_wallets)] had_settings k)
             /\ (forall k, k <> "settings" -> dict_lookup k e1 = dict_lookup k e0)).
  { pose proof (ensure_nested_dict "settings" "crypto_wallets" three_wallets e0 _ Hs0)
      as (e1 & s1 & Hrun & Hrest).
    exists e1, s1. split; [|exact Hrest].
    revert Hrun. unfold ensure_nested. simpl. rewrite Hs0. simpl. auto. }
  destruct Hstep as (e1 & s1 & -> & Hs1 & Hi1 & Ho1). simpl.
  destruct (ensure_key_dict "orders" (JList []) e1) as (e2 & -> & H2). simpl.
  destruct (ensure_key_dict "chats" (JList []) e2) as (e3 & -> & H3). simpl.
  destruct (ensure_key_dict "messages" (JList []) e3) as (e4 & -> & H4). simpl.
  destruct (ensure_key_dict "comments" (JList []) e4) as (e5 & -> & H5). simpl.
  destruct (ensure_key_dict "vip_profiles" (JList []) e5) as (e6 & H6run & H6).
  exists e6, s1. split; [exact H6run|]. split; [|split].
  - rewrite H6. unfold backfilled. rewrite H5. unfold backfilled. rewrite H4.
    unfold backfilled. rewrite H3. unfold backfilled. rewrite H2. unfold backfilled.
    now rewrite Hs1.
  - exact Hi1.
  - intros k Hk. rewrite H6. unfold backfilled. rewrite H5. unfold backfilled.
    rewrite H4. unfold backfilled. rewrite H3. unfold backfilled. rewrite H2.
    unfold backfilled. rewrite (Ho1 k Hk), H0. unfold backfilled.
    destruct (dict_lookup k entries); [reflexivity|]. simpl.
    destruct (String.eqb_spec k "settings"); [contradiction|].
    destruct (String.eqb k "orders"); [reflexivity|].
    destruct (String.eqb k "chats"); [reflexivity|].
    destruct (String.eqb k "messages"); [reflexivity|].
    destruct (String.eqb k "comments"); reflexivity.
Qed.

Lemma main_backfill_keeps_what_the_file_has_witness :
  exists entries' settings',
    Main.read_document
      (always_reads (JDict [("orders", JList [JInt 1])])) "{}" = Ok (JDict entries')
    /\ dict_lookup "settings" entries' = Some (JDict settings')
    /\ dict_lookup "crypto_wallets" settings' = Some three_wallets
    /\ dict_lookup "orders" entries' = Some (JList [JInt 1])
    /\ dict_lookup "chats" entries' = Some (JList [])
    /\ dict_lookup "profiles" entries' = None.
Proof.
  destruct (main_backfill_keeps_what_the_file_has
              (always_reads (JDict [("orders", JList [JInt 1])])) "{}"
              [("orders", JList [JInt 1])] [] eq_refl (or_intror (conj eq_refl eq_refl)))
    as (entries' & settings' & Hread & Hset & Hin & Hout).
  exists entries', settings'. split; [exact Hread|]. split; [exact Hset|].
  split; [rewrite Hin; reflexivity|]. split; [rewrite Hout by discriminate; reflexivity|].
  split; rewrite Hout by discriminate; reflexivity.
Defined.

(** ** Payment requests: what is accepted *)

Lemma payment_accepted d profile_id amount currency wallet uid now code :
  truthy profile_id = true -> PrimFloat.leb amount 0%float = false ->
  exists d' r,
    Main.process_crypto_payment d (payment_request profile_id amount currency wallet)
      uid now code = Ok (d', r).
Proof.
  intros Ht Hle. unfold Main.process_crypto_payment, Main.get_profile_id,
    Main.get_amount, payment_request. simpl.
  rewrite Ht, Hle. simpl. destruct (List.find _ _); eauto.
Qed.




(** ** Quoting and sweeping together *)

Lemma expiries_parse_after_quote d pd uid now code d' r :
  Main.process_crypto_payment d pd uid now code = Ok (d', r) ->
  expiries_parse (orders d) -> expiries_parse (orders d').
Proof.
  intros Hrun Hp. apply process_crypto_payment_ok in Hrun.
  destruct Hrun as (pid & amount & _ & _ & _ & _ & H). cbn zeta in H.
  destruct (List.find (Main.is_open_order pid uid) (orders d)) as [ex|] eqn:Hfind.
  - destruct H as [-> _]. simpl. intros o Ho Hu.
    destruct (update_first_insert (Main.is_open_order pid uid)
                (Main.requote amount (Main.bonus_of amount (Main.bonus_percentage_of d))
                   (PrimFloat.add amount (Main.bonus_of amount (Main.bonus_percentage_of d)))
                   (default PNone (Main.pd_wallet pd))
                   (default (PStr "USD") (Main.pd_currency pd)) now)
                (orders d) ex Hfind) as (i & Hi & _ & _ & Hupd).
    rewrite Hupd in Ho. apply list_elem_of_In in Ho.
    apply list_elem_of_lookup in Ho as [j Hj].
    destruct (decide (i = j)) as [<-|Hne].
    + rewrite list_lookup_insert_eq in Hj by (eapply lookup_lt_Some; eassumption).
      inversion Hj. right. eexists. reflexivity.
    + rewrite list_lookup_insert_ne in Hj by assumption.
      apply (Hp o); [|assumption].
      apply list_elem_of_In. eapply list_elem_of_lookup_2. eassumption.
  - destruct H as [-> _]. simpl. intros o Ho Hu.
    apply in_app_or in Ho as [Ho|[<-|[]]]; [now apply (Hp o)|].
    right. eexists. reflexivity.
Qed.

(** X9.  The payment window.  The order an accepted payment request
    creates or re-quotes at [now] expires at [now] + 1 hour and survives
    every sweep round run before that, also when it had already lapsed
    before the request.  In a document whose unpaid orders all carry an
    absent or naive expiry (which the request preserves) it is removed by
    a round run at [now] + 1 hour or later; in any other document every
    round raises and removes nothing, this order included. *)
Theorem quoted_order_has_an_hour d pd uid now code d' r :
  Main.process_crypto_payment d pd uid now code = Ok (d', r) ->
  exists pid o,
    Main.pd_profile_id pd = Some pid
    /\ List.find (Main.is_open_order pid uid) (orders d') = Some o
    /\ o_id o = Main.r_order_id r
    /\ o_expires_at o = Stamp (now + hour)
    /\ (forall t, t < now + hour -> In o (orders (fst (Main.cleanup_round d' t))))
    /\ (expiries_parse (orders d) -> expiries_parse (orders d'))
    /\ (expiries_parse (orders d') ->
        forall t, now + hour <= t -> ~ In o (orders (fst (Main.cleanup_round d' t))))
    /\ (~ expiries_parse (orders d') ->
        exists e, forall t, Main.cleanup_round d' t = (d', Raise e)).
Proof.
  intros Hrun.
  pose proof (process_crypto_payment_ok _ _ _ _ _ _ _ Hrun)
    as (pid & amount & Hpid & _ & _ & _ & H). cbn zeta in H.
  assert (Hkey : exists o,
             List.find (Main.is_open_order pid uid) (orders d') = Some o
             /\ o_id o = Main.r_order_id r /\ o_expires_at o = Stamp (now + hour)).
  { destruct (List.find (Main.is_open_order pid uid) (orders d)) as [ex|] eqn:Hfind.
    - destruct H as [-> Hid]. eexists. split.
      + simpl. apply find_update_first; [|exact Hfind].
        intros y Hy. rewrite requote_stays_open. exact Hy.
      + simpl. auto.
    - destruct H as [-> Hid]. eexists. split.
      + simpl. apply find_app_new; [exact Hfind|apply new_order_is_open].
      + simpl. auto. }
  destruct Hkey as (o & Hfind' & Hid & Hexp).
  exists pid, o.
  split; [exact Hpid|]. split; [exact Hfind'|]. split; [exact Hid|].
  split; [exact Hexp|]. split; [|split; [|split]].
  - intros t Ht. destruct (expiries_parse_or_not (orders d')) as [Hp'|Hbad].
    + rewrite (cleanup_round_filter t d' Hp'). simpl.
      apply filter_In. split; [eapply find_some; eassumption|].
      unfold keeps_bool. rewrite Hexp.
      assert ((t <? now + hour) = true) as -> by (apply Z.ltb_lt; lia).
      apply orb_true_r.
    + destruct (cleanup_round_unreadable d' Hbad) as (e & _ & Hraise).
      rewrite (Hraise t). simpl. eapply find_some. eassumption.
  - intros Hp. exact (expiries_parse_after_quote _ _ _ _ _ _ _ Hrun Hp).
  - intros Hp' t Ht. rewrite (cleanup_round_filter t d' Hp'). simpl.
    intros Hin. apply filter_In in Hin as [_ Hk]. unfold keeps_bool in Hk.
    rewrite Hexp in Hk.
    apply find_some in Hfind' as [_ Hopen].
    unfold Main.is_open_order in Hopen.
    apply andb_prop in Hopen as [Hopen _]. apply andb_prop in Hopen as [_ Hst].
    rewrite Hst in Hk. simpl in Hk. apply Z.ltb_lt in Hk. lia.
  - intros Hbad. destruct (cleanup_round_unreadable d' Hbad) as (e & _ & Hraise).
    exists e. exact Hraise.
Qed.

Lemma quoted_order_has_an_hour_witness :
  let d := set_orders empty_document [unpaid_order 1 3 "u1" 0] in
  let s := run_payment d (request 3 100) (PStr "u1") (2 * hour) "Ab3dE6gH9jK2mN5pQ8" in
  exists o, orders (fst (Main.cleanup_round (fst s) (3 * hour - 1))) = [o]
            /\ o_id o = 1 /\ o_expires_at o = Stamp (3 * hour).
Proof.
  intros d s.
  destruct (quoted_order_has_an_hour d (request 3 100) (PStr "u1") (2 * hour)
              "Ab3dE6gH9jK2mN5pQ8" (fst s) (snd s) eq_refl)
    as (pid & o & Hpid & Hfind & _ & _ & _ & _).
  injection Hpid as <-.
  exists o. revert Hfind. vm_compute. intros [= <-]. repeat split.
Defined.

Lemma filter_keeps_later t1 t os :
  t1 <= t ->
  List.filter (keeps_bool t) (List.filter (keeps_bool t1) os)
  = List.filter (keeps_bool t) os.
Proof.
  intros Ht. induction os as [|o os IH]; [reflexivity|].
  cbn [List.filter]. destruct (keeps_bool t1 o) eqn:H1.
  - cbn [List.filter]. now rewrite IH.
  - rewrite IH. assert (keeps_bool t o = false) as ->; [|reflexivity].
    unfold keeps_bool in *. destruct (negb _); [discriminate|]. simpl in *.
    destruct (o_expires_at o); auto.
    apply Z.ltb_ge in H1. apply Z.ltb_ge. lia.
Qed.

(** X10.  Sweep rounds compose, on every document: a round at [t1]
    followed by a round at a later [t2] leaves the document a single round
    at [t2] leaves, and a second round at the same instant changes
    nothing.  When every unpaid order's expiry is absent or naive that
    second round reports zero; and a round that raises leaves the document
    as it was and raises the same exception at every other time. *)
Theorem sweeps_compose d t1 t2 :
  t1 <= t2 ->
  fst (Main.cleanup_round (fst (Main.cleanup_round d t1)) t2)
  = fst (Main.cleanup_round d t2)
  /\ fst (Main.cleanup_round (fst (Main.cleanup_round d t1)) t1)
     = fst (Main.cleanup_round d t1)
  /\ (expiries_parse (orders d) ->
      snd (Main.cleanup_round (fst (Main.cleanup_round d t1)) t1) = Ok 0%nat)
  /\ (forall e, snd (Main.cleanup_round d t1) = Raise e ->
                fst (Main.cleanup_round d t1) = d
                /\ Main.cleanup_round d t2 = (d, Raise e)).
Proof.
  intros Hle. destruct (expiries_parse_or_not (orders d)) as [Hp|Hbad].
  - assert (Hp1 : expiries_parse (List.filter (keeps_bool t1) (orders d))).
    { intros o Ho. apply filter_In in Ho as [Ho _]. now apply Hp. }
    rewrite (cleanup_round_filter t1 d Hp). simpl.
    rewrite (cleanup_round_filter t2 d Hp). simpl.
    rewrite (cleanup_round_filter t2 (set_orders d _) Hp1).
    rewrite (cleanup_round_filter t1 (set_orders d _) Hp1). simpl.
    pose proof (fun t => filter_keeps_later t1 t (orders d)) as Hff.
    split; [|split; [|split]].
    + unfold set_orders. simpl. now rewrite (Hff t2 Hle).
    + unfold set_orders. simpl. now rewrite (Hff t1 (Z.le_refl _)).
    + intros _. rewrite (Hff t1 (Z.le_refl _)). now rewrite Nat.sub_diag.
    + intros e He. discriminate.
  - destruct (cleanup_round_unreadable d Hbad) as (e0 & _ & Hraise).
    repeat (rewrite ?Hraise; cbn [fst snd]).
    split; [reflexivity|]. split; [reflexivity|]. split; [intros; contradiction|].
    intros e [= <-]. split; reflexivity.
Qed.

Lemma sweeps_compose_witness :
  let d := set_orders empty_document
             [unpaid_order 1 3 "u1" hour; unpaid_order 2 3 "u2" (2 * hour)] in
  orders (fst (Main.cleanup_round (fst (Main.cleanup_round d hour)) (2 * hour))) = []
  /\ orders (fst (Main.cleanup_round d (2 * hour))) = [].
Proof.
  intros d.
  destruct (sweeps_compose d hour (2 * hour)) as [Heq _]; [unfold hour; lia|].
  split; [rewrite Heq|]; reflexivity.
Defined.

(** ** Deleting an order *)

(** X11.  [delete_order] refuses with 404, and leaves the store as it
    was, exactly when no order carries both the given id and the caller's
    user id; the second 404 in its text is never reached. *)
Theorem delete_order_needs_an_own_order persisted order_id uid :
  (forall o, In o (orders persisted) -> o_id o = order_id ->
             o_telegram_user_id o <> uid)
  <-> Main.delete_order_endpoint persisted order_id uid
      = (persisted, Raise (HTTPException 404 "Order not found or unauthorized")).
Proof.
  unfold Main.delete_order_endpoint, with_store, Main.delete_order. split.
  - intros Hnone.
    destruct (List.find (Main.is_own_order order_id uid) (orders persisted)) as [o|] eqn:Hf;
      [|reflexivity].
    apply find_some in Hf as [Ho Hown]. unfold Main.is_own_order, py_eq in Hown.
    apply andb_prop in Hown as [Hid Hu].
    apply Z.eqb_eq in Hid. apply bool_decide_eq_true_1 in Hu.
    exfalso. exact (Hnone o Ho Hid Hu).
  - intros Hout o Ho Hid Hu.
    destruct (List.find (Main.is_own_order order_id uid) (orders persisted)) as [x|] eqn:Hf.
    + destruct (Nat.ltb _ _); inversion Hout.
    + eapply find_none in Hf; [|exact Ho].
      unfold Main.is_own_order, py_eq in Hf.
      rewrite (proj2 (Z.eqb_eq _ _) Hid), bool_decide_eq_true_2 in Hf by assumption.
      discriminate.
Qed.

Lemma filter_shorter_when_dropping {A} (q : A -> bool) (l : list A) (x : A) :
  In x l -> q x = false -> (length (List.filter q l) < length l)%nat.
Proof.
  intros Hin Hq. induction l as [|y r IH]; [contradiction|].
  simpl. pose proof (filter_length_le q r) as Hle.
  destruct Hin as [->|Hin].
  - rewrite Hq. lia.
  - specialize (IH Hin). destruct (q y); simpl; lia.
Qed.

(** X12.  When the caller owns an order with the given id, [delete_order]
    succeeds and removes every order with that id, the caller's or not and
    unpaid or booked, keeps all other orders in their order and changes
    nothing else in the document. *)
Theorem delete_order_removes_by_id d order_id uid own :
  In own (orders d) -> o_id own = order_id -> o_telegram_user_id own = uid ->
  exists d',
    Main.delete_order d order_id uid = Ok (d', order_id)
    /\ (forall o, In o (orders d') <-> In o (orders d) /\ o_id o <> order_id)
    /\ sublist (orders d') (orders d)
    /\ d' = set_orders d (orders d').
Proof.
  intros Hin Hid Hu. unfold Main.delete_order.
  destruct (List.find (Main.is_own_order order_id uid) (orders d)) as [x|] eqn:Hf.
  - assert (Hlt : (length (List.filter (fun o => negb (o_id o =? order_id)%Z) (orders d))
                   < length (orders d))%nat).
    { apply (filter_shorter_when_dropping _ _ own Hin).
      rewrite (proj2 (Z.eqb_eq _ _) Hid). reflexivity. }
    apply Nat.ltb_lt in Hlt. rewrite Hlt. eexists. split; [reflexivity|].
    simpl. split; [|split; [apply filter_sublist|reflexivity]].
    intros o. rewrite filter_In, negb_true_iff, Z.eqb_neq. reflexivity.
  - exfalso. eapply find_none in Hf; [|exact Hin].
    unfold Main.is_own_order, py_eq in Hf.
    rewrite (proj2 (Z.eqb_eq _ _) Hid), bool_decide_eq_true_2 in Hf by assumption.
    discriminate.
Qed.

(** User "u1" deletes order 1; the order of "u2" that carries id 1 as well
    goes with it. *)
Lemma delete_order_removes_by_id_witness :
  exists d',
    Main.delete_order same_id_orders 1 (PStr "u1") = Ok (d', 1)
    /\ orders d' = [].
Proof.
  destruct (delete_order_removes_by_id same_id_orders 1 (PStr "u1")
              (unpaid_order 1 3 "u1" hour) (or_introl eq_refl) eq_refl eq_refl)
    as (d' & Hrun & _ & _ & _).
  exists d'. split; [exact Hrun|].
  revert Hrun. vm_compute. intros [= <-]. reflexivity.
Defined.

(** ** The admin process's payment endpoint *)


Lemma admin_crypto_payment_ok describe d body now d' a :
  Admin.crypto_payment describe d body now = Ok (d', a) ->
  exists b amount,
    body = Some b /\ Admin.body_amount b = Ok amount
    /\ truthy (Admin.b_profile_id b) = true /\ PrimFloat.leb amount 0%float = false
    /\ let pid := Admin.b_profile_id b in
       let uid := Admin.b_telegram_user_id b in
       let bonus := Main.bonus_of amount (Main.bonus_percentage_of d) in
       let total := PrimFloat.add amount bonus in
       let currency := default (PStr "USD") (Admin.b_currency b) in
       match List.find (Main.is_open_order pid uid) (orders d) with
       | Some existing =>
           d' = set_orders d (update_first (Main.is_open_order pid uid)
                                (Main.requote amount bonus total (Admin.b_wallet b)
                                   currency now) (orders d))
           /\ Admin.a_order_id a = o_id existing
       | None =>
           d' = set_orders d (orders d ++
                  [Admin.new_order (orders d) pid amount bonus total (Admin.b_wallet b)
                     currency now uid])
           /\ Admin.a_order_id a = next_len_id (orders d)
       end.
Proof.
  unfold Admin.crypto_payment, Admin.crypto_payment_body.
  destruct body as [b|]; [|discriminate].
  destruct (Admin.body_amount b) as [amount|e] eqn:Ha; simpl; [|discriminate].
  destruct (truthy (Admin.b_profile_id b)) eqn:Ht; simpl; [|discriminate].
  destruct (PrimFloat.leb amount 0) eqn:Hle; simpl; [discriminate|].
  intros H. exists b, amount. repeat split; auto. cbv zeta.
  destruct (List.find _ (orders d)) as [ex|];
    destruct (Admin.b_wallet b) as [v|text]; cbn in H; try discriminate;
    inversion H; subst; simpl; auto.
Qed.

(** X14.  The two payment endpoints share the unpaid order of a pair:
    after the admin process's endpoint has accepted a request for a
    (profile, user) pair, a request of the same pair accepted by the
    public endpoint appends nothing and answers with the same order id,
    re-quoting that order in place. *)
Theorem public_payment_requotes_admin_order (describe : exn -> string)
    d body now1 d1 a pd now2 code d2 r b :
  body = Some b ->
  Main.pd_profile_id pd = Some (Admin.b_profile_id b) ->
  Admin.crypto_payment describe d body now1 = Ok (d1, a) ->
  Main.process_crypto_payment d1 pd (Admin.b_telegram_user_id b) now2 code = Ok (d2, r) ->
  length (orders d2) = length (orders d1)
  /\ Main.r_order_id r = Admin.a_order_id a
  /\ exists o, List.find (Main.is_open_order (Admin.b_profile_id b)
                            (Admin.b_telegram_user_id b)) (orders d2) = Some o
               /\ o_id o = Admin.a_order_id a
               /\ o_expires_at o = Stamp (now2 + hour).
Proof.
  intros -> Hpid H1 H2.
  apply admin_crypto_payment_ok in H1.
  destruct H1 as (b' & amount & [= <-] & _ & _ & _ & H1). cbn zeta in H1.
  set (pid := Admin.b_profile_id b) in *. set (uid := Admin.b_telegram_user_id b) in *.
  assert (Hfirst : exists o1, List.find (Main.is_open_order pid uid) (orders d1) = Some o1
                              /\ o_id o1 = Admin.a_order_id a).
  { destruct (List.find (Main.is_open_order pid uid) (orders d)) as [ex|] eqn:Hfind.
    - destruct H1 as [-> Hid]. eexists. split.
      + simpl. apply find_update_first; [|exact Hfind].
        intros y Hy. rewrite requote_stays_open. exact Hy.
      + simpl. auto.
    - destruct H1 as [-> Hid]. eexists. split.
      + simpl. apply find_app_new; [exact Hfind|].
        unfold Main.is_open_order, Admin.new_order, py_eq. simpl.
        rewrite !bool_decide_eq_true_2; auto.
      + simpl. auto. }
  destruct Hfirst as (o1 & Hf1 & Hid1).
  apply process_crypto_payment_ok in H2.
  destruct H2 as (pid' & amount2 & Hp & _ & _ & _ & H2). cbn zeta in H2.
  rewrite Hpid in Hp. injection Hp as <-. fold pid in H2. rewrite Hf1 in H2.
  destruct H2 as [-> Hr]. simpl. split; [apply update_first_length|].
  split; [congruence|]. eexists. split.
  - apply find_update_first; [|exact Hf1].
    intros y Hy. rewrite requote_stays_open. exact Hy.
  - simpl. auto.
Qed.

Lemma public_payment_requotes_admin_order_witness :
  let first := Admin.crypto_payment (fun _ => EmptyString) empty_document
                 (Some (admin_body (PInt 3) 50 (PStr "u1"))) 0 in
  let d1 := match first with Ok (d, _) => d | Raise _ => empty_document end in
  let s2 := run_payment d1 (request 3 100) (PStr "u1") hour "Ab3dE6gH9jK2mN5pQ8" in
  length (orders (fst s2)) = 1%nat /\ Main.r_order_id (snd s2) = 1.
Proof.
  intros first d1 s2.
  destruct (public_payment_requotes_admin_order (fun _ => EmptyString) empty_document
              (Some (admin_body (PInt 3) 50 (PStr "u1"))) 0 d1
              {| Admin.a_order_id := 1; Admin.a_amount := 50; Admin.a_bonus_amount := 2.5;
                 Admin.a_total_amount := 52.5; Admin.a_wallet_address := "";
                 Admin.a_expires_in := 3600 |}
              (request 3 100) hour "Ab3dE6gH9jK2mN5pQ8" (fst s2) (snd s2)
              (admin_body (PInt 3) 50 (PStr "u1")) eq_refl eq_refl eq_refl eq_refl)
    as (Hlen & Hid & _).
  split; [rewrite Hlen; reflexivity|exact Hid].
Defined.

(** ** Reading and writing a chat *)

Lemma fold_max_bounds (ids : list Z) (start : Z) :
  start <= fold_left Z.max ids start
  /\ forall n, In n ids -> n <= fold_left Z.max ids start.
Proof.
  revert start. induction ids as [|i r IH]; intros start; simpl.
  - split; [lia|contradiction].
  - destruct (IH (Z.max start i)) as [Hs Hin]. split; [lia|].
    intros n [<-|Hn]; [lia|auto].
Qed.

Lemma max_message_id_bounds (ms : list message) (m : message) :
  In m ms -> m_id m <= Main.max_message_id ms.
Proof.
  destruct ms as [|m0 r]; [contradiction|]. simpl.
  destruct (fold_max_bounds (map m_id r) (m_id m0)) as [Hs Hin].
  intros [<-|Hm]; [exact Hs|]. apply Hin. now apply in_map.
Qed.

(** X15.  Polling a chat: [get_chat_updates] always answers; with cursor
    [last] it returns, in their order, exactly the messages
    [get_chat_messages] would return whose id is above [last]; and polling
    the same document again with the cursor it handed back returns no
    message, so nothing is delivered twice. *)
Theorem chat_updates_follow_the_cursor d profile_id last uid :
  exists all news cursor,
    Main.get_chat_messages d profile_id uid = Ok all
    /\ Main.get_chat_updates d profile_id last uid = Ok (news, cursor)
    /\ news = List.filter (fun m => last <? m_id m) all
    /\ (forall m, In m news -> last < m_id m)
    /\ Main.get_chat_updates d profile_id cursor uid = Ok ([], cursor).
Proof.
  unfold Main.get_chat_messages, Main.get_chat_updates, try_except.
  destruct (List.find (Main.chat_of_user profile_id uid) (chats d)) as [c|].
  - eexists _, _, _. split; [reflexivity|]. split; [reflexivity|].
    assert (Hsplit : forall bound,
               List.filter (fun m => (m_chat_id m =? c_id c) && (bound <? m_id m))
                 (messages d)
               = List.filter (fun m => bound <? m_id m)
                   (List.filter (fun m => m_chat_id m =? c_id c) (messages d))).
    { intros bound. induction (messages d) as [|m r IH]; [reflexivity|]. simpl.
      destruct (m_chat_id m =? c_id c); simpl; rewrite IH; reflexivity. }
    split; [apply Hsplit|]. split.
    + intros m Hm. apply filter_In in Hm as [_ Hm].
      apply andb_prop in Hm as [_ Hm]. now apply Z.ltb_lt.
    + f_equal. f_equal.
      assert (Hnone : forall ms, (forall m, In m ms -> m_id m <= Main.max_message_id (messages d)) ->
                List.filter (fun m => (m_chat_id m =? c_id c)
                                      && (Main.max_message_id (messages d) <? m_id m)) ms
                = []).
      { induction ms as [|m r IH]; intros Hb; [reflexivity|]. simpl.
        assert ((Main.max_message_id (messages d) <? m_id m) = false) as ->.
        { apply Z.ltb_ge. apply Hb. now left. }
        rewrite andb_false_r. apply IH. intros x Hx. apply Hb. now right. }
      apply Hnone. intros m Hm. now apply max_message_id_bounds.
  - exists [], [], 0. repeat split; auto. intros m [].
Qed.

Lemma send_message_ok d profile_id uid text file now d' mid :
  Main.send_message d profile_id uid text file now = Ok (d', mid) ->
  exists d1 chat_id m,
    d' = set_messages d1 (messages d1 ++ [m])
    /\ m_id m = mid /\ m_chat_id m = chat_id
    /\ m_is_from_user m = true /\ m_created_at m = now
    /\ messages d1 = messages d
    /\ match List.find (Main.chat_of_user profile_id uid) (chats d) with
       | Some c => d1 = d /\ chat_id = c_id c
       | None =>
           exists c, chats d1 = chats d ++ [c] /\ chat_id = c_id c
                     /\ Main.chat_of_user profile_id uid c = true
       end.
Proof.
  unfold Main.send_message, try_except, Main.send_message_body.
  destruct (List.find (Main.has_id profile_id) (profiles d)) as [profile|]; [|discriminate].
  match goal with |- context [if ?b then Raise _ else _] => destruct b end;
    [discriminate|].
  destruct (List.find (Main.chat_of_user profile_id uid) (chats d)) as [c|] eqn:Hchat;
    cbn [fst snd].
  - destruct (match file with Some f => _ | None => None end);
      intros [= <- <-]; eexists d, (c_id c), _;
      (split; [reflexivity|]); do 5 (split; [reflexivity|]); split; reflexivity.
  - destruct (match file with Some f => _ | None => None end);
      intros [= <- <-]; eexists (set_chats d (chats d ++ [_])), _, _;
      (split; [reflexivity|]); do 5 (split; [reflexivity|]);
      eexists; (split; [reflexivity|]); (split; [reflexivity|]);
      unfold Main.chat_of_user, py_eq; simpl;
      rewrite Z.eqb_refl, bool_decide_eq_true_2; auto.
Qed.

(** X16.  A message that was sent can be read back: after an accepted
    [send_message] of a user to a profile, [get_chat_messages] of the same
    user and profile ends with the new message (from the user, stamped
    with the time of sending, under the id the answer gave), and when the
    user already had a chat with the profile the messages before it are
    the ones the chat showed before. *)
Theorem sent_message_is_read_back d profile_id uid text file now d' mid :
  Main.send_message d profile_id uid text file now = Ok (d', mid) ->
  exists earlier m,
    Main.get_chat_messages d' profile_id uid = Ok (earlier ++ [m])
    /\ m_id m = mid /\ m_is_from_user m = true /\ m_created_at m = now
    /\ (is_Some (List.find (Main.chat_of_user profile_id uid) (chats d)) ->
        Main.get_chat_messages d profile_id uid = Ok earlier).
Proof.
  intros Hsend. apply send_message_ok in Hsend.
  destruct Hsend as (d1 & chat_id & m & -> & Hid & Hchat & Hfrom & Hat & Hmsgs & Hcase).
  unfold Main.get_chat_messages, try_except. simpl.
  destruct (List.find (Main.chat_of_user profile_id uid) (chats d)) as [c|] eqn:Hfind.
  - destruct Hcase as [-> ->]. rewrite Hfind.
    exists (List.filter (fun x => m_chat_id x =? c_id c) (messages d)), m.
    rewrite List.filter_app. simpl. rewrite Hchat, Z.eqb_refl. repeat split; auto.
  - destruct Hcase as (c & Hchats & -> & Hmine). rewrite Hchats.
    rewrite (find_app_new _ _ _ Hfind Hmine).
    exists (List.filter (fun x => m_chat_id x =? c_id c) (messages d)), m.
    rewrite Hmsgs, List.filter_app. simpl. rewrite Hchat, Z.eqb_refl.
    repeat split; auto. intros [? ?]. discriminate.
Qed.

Lemma sent_message_is_read_back_witness :
  exists d' m,
    Main.send_message one_chat 3 (PStr "u1") (Some "  hi there ") None 60 = Ok (d', 2)
    /\ Main.get_chat_messages d' 3 (PStr "u1")
       = Ok (messages one_chat ++ [m])
    /\ m_text m = Some "hi there".
Proof.
  remember (Main.send_message one_chat 3 (PStr "u1") (Some "  hi there ") None 60)
    as sent eqn:Hsent.
  vm_compute in Hsent.
  match type of Hsent with _ = Ok (?d, _) => exists d end.
  symmetry in Hsent. subst sent.
  destruct (sent_message_is_read_back one_chat 3 (PStr "u1") (Some "  hi there ") None 60
              _ 2 eq_refl) as (earlier & m & Hread & _ & _ & _ & Hbefore).
  exists m. split; [vm_compute; reflexivity|].
  assert (Hearlier : Ok earlier = Ok (messages one_chat)).
  { rewrite <- Hbefore; [reflexivity|]. vm_compute. eauto. }
  injection Hearlier as ->. split; [exact Hread|].
  revert Hread. vm_compute. intros [= <-]. reflexivity.
Defined.

(** ** Deleting a comment *)

Lemma pop_first_spec {A} (p : A -> bool) (l : list A) :
  match Admin.pop_first p l with
  | Some (x, rest) =>
      exists before after,
        l = before ++ x :: after /\ rest = before ++ after /\ p x = true
        /\ forall y, In y before -> p y = false
  | None => forall y, In y l -> p y = false
  end.
Proof.
  induction l as [|z r IH]; simpl; [intros y []|].
  destruct (p z) eqn:Hz.
  - exists [], r. repeat split; auto. intros y [].
  - destruct (Admin.pop_first p r) as [[x rest]|].
    + destruct IH as (before & after & -> & -> & Hx & Hb).
      exists (z :: before), after. repeat split; auto.
      intros y [<-|Hy]; auto.
    + intros y [<-|Hy]; auto.
Qed.

(** X17.  [delete_comment] removes one comment, the first in the list
    that carries both the given id and the given profile id, answers with
    it, keeps every other comment (also later ones with the same id) in
    place and changes nothing else; it answers 404 exactly when no comment
    matches. *)
Theorem delete_comment_removes_the_first_match d profile_id comment_id :
  match Admin.delete_comment d profile_id comment_id with
  | Ok (d', deleted) =>
      is_comment profile_id comment_id deleted
      /\ d' = set_comments d (comments d')
      /\ exists before after,
           comments d = before ++ deleted :: after
           /\ comments d' = before ++ after
           /\ forall c, In c before -> ~ is_comment profile_id comment_id c
  | Raise e =>
      e = HTTPException 404 "Comment not found"
      /\ forall c, In c (comments d) -> ~ is_comment profile_id comment_id c
  end.
Proof.
  unfold Admin.delete_comment.
  pose proof (pop_first_spec
                (fun c => (cm_id c =? comment_id) && (cm_profile_id c =? profile_id))
                (comments d)) as Hspec.
  assert (Hno : forall c, (cm_id c =? comment_id) && (cm_profile_id c =? profile_id) = false
                          -> ~ is_comment profile_id comment_id c).
  { intros c Hc [Hi Hp]. rewrite (proj2 (Z.eqb_eq _ _) Hi), (proj2 (Z.eqb_eq _ _) Hp) in Hc.
    discriminate. }
  destruct (Admin.pop_first _ (comments d)) as [[x rest]|].
  - destruct Hspec as (before & after & Hl & -> & Hx & Hb).
    apply andb_prop in Hx as [Hi Hp]. apply Z.eqb_eq in Hi, Hp.
    split; [split; assumption|]. split; [reflexivity|].
    exists before, after. simpl. repeat split; auto.
  - split; [reflexivity|]. intros c Hc. apply Hno. now apply Hspec.
Qed.

(** ** Payment confirmations typed in Telegram *)

(** X18.  When the profile exists and the text confirms a payment, a
    reply through the Telegram bridge books, with the time of the reply,
    the last order of the list that is unpaid, is for the profile and,
    when a user is known, is that user's; every other order stays as it
    is, and without such an order no order changes. *)
Theorem telegram_confirmation_books_the_latest d profile_id text uid now profile :
  List.find (Admin.has_id profile_id) (profiles d) = Some profile ->
  Admin.confirms_payment text = true ->
  let d' := Admin.send_admin_reply_from_telegram d profile_id text uid now in
  let wanted := Admin.telegram_order_filter profile_id uid in
  (existsb wanted (orders d) = false -> orders d' = orders d)
  /\ (existsb wanted (orders d) = true ->
      exists (i : nat) o,
        orders d !! i = Some o /\ wanted o = true
        /\ (forall (j : nat) later, (i < j)%nat -> orders d !! j = Some later ->
                                    wanted later = false)
        /\ orders d' = <[i := Admin.book now o]> (orders d)
        /\ o_status (Admin.book now o) = PStr "booked"
        /\ o_booked_at (Admin.book now o) = Some now
        /\ o_id (Admin.book now o) = o_id o).
Proof.
  intros Hprofile Hconf d' wanted.
  destruct (telegram_reply_books_last_match d profile_id text uid now profile
              Hprofile Hconf) as [Horders _].
  fold d' in Horders. split.
  - intros Hnone. rewrite Horders. now apply update_last_no_match.
  - intros Hsome.
    destruct (update_last_insert wanted (Admin.book now) (orders d) Hsome)
      as (i & o & Hi & Hw & Hafter & Hupd).
    exists i, o. repeat split; auto. now rewrite Horders.
Qed.

Lemma telegram_confirmation_books_the_latest_witness :
  orders (Admin.send_admin_reply_from_telegram two_open_orders 3 "Payment successful!"
            PNone 60)
  = [unpaid_order 1 3 "u1" hour; Admin.book 60 (unpaid_order 2 3 "u2" hour)].
Proof.
  destruct (telegram_confirmation_books_the_latest two_open_orders 3 "Payment successful!"
              PNone 60 profile3 eq_refl eq_refl) as [_ Hsome].
  destruct (Hsome eq_refl) as (i & o & _ & _ & _ & Hupd & _).
  vm_compute. reflexivity.
Defined.

(** ** Text: splitting, decimal numbers, file names *)

Lemma append_cons (c : ascii) (a b : string) :
  (String c a ++ b)%string = String c (a ++ b)%string.
Proof. reflexivity. Qed.

Lemma append_empty (b : string) : (EmptyString ++ b)%string = b.
Proof. reflexivity. Qed.

Lemma all_chars_app (p : ascii -> bool) (a b : string) :
  all_chars p (a ++ b)%string = all_chars p a && all_chars p b.
Proof.
  induction a as [|c a IH]; [reflexivity|].
  rewrite append_cons. simpl. rewrite IH. apply andb_assoc.
Qed.

Lemma all_chars_impl (p q : ascii -> bool) (s : string) :
  (forall c, p c = true -> q c = true) ->
  all_chars p s = true -> all_chars q s = true.
Proof.
  intros Hpq. induction s as [|c s IH]; [reflexivity|]. simpl.
  intros H. apply andb_prop in H as [Hc Hs]. rewrite (Hpq c Hc). now apply IH.
Qed.

Lemma split_not_empty (sep : ascii) (s : string) : split sep s <> [].
Proof.
  destruct s as [|c r]; simpl; [discriminate|].
  destruct (Ascii.eqb c sep); [discriminate|].
  destruct (split sep r); discriminate.
Qed.

(** [(a + sep + b).split(sep) == a.split(sep) + b.split(sep)]. *)
Lemma split_app_sep (sep : ascii) (a b : string) :
  split sep (a ++ String sep b)%string = split sep a ++ split sep b.
Proof.
  induction a as [|c a IH].
  - rewrite append_empty. simpl. now rewrite Ascii.eqb_refl.
  - rewrite append_cons. simpl. rewrite IH.
    destruct (Ascii.eqb c sep); [reflexivity|].
    pose proof (split_not_empty sep a) as Hne.
    destruct (split sep a); [contradiction|reflexivity].
Qed.

Lemma split_no_sep (sep : ascii) (a : string) :
  all_chars (fun c => negb (Ascii.eqb c sep)) a = true -> split sep a = [a].
Proof.
  induction a as [|c a IH]; [reflexivity|]. simpl.
  intros H. apply andb_prop in H as [Hc Ha].
  apply negb_true_iff in Hc. rewrite Hc, (IH Ha). reflexivity.
Qed.

Lemma split_pieces_keep (sep : ascii) (p : ascii -> bool) (s : string) :
  all_chars p s = true -> Forall (fun x => all_chars p x = true) (split sep s).
Proof.
  induction s as [|c s IH]; simpl.
  - intros _. repeat constructor.
  - intros H. apply andb_prop in H as [Hc Hs]. specialize (IH Hs).
    destruct (Ascii.eqb c sep); [constructor; [reflexivity|exact IH]|].
    destruct (split sep s) as [|x r].
    + repeat constructor. simpl. now rewrite Hc.
    + inversion IH; subst. constructor; [|assumption]. simpl. now rewrite Hc.
Qed.

Lemma digits_value_app (a b : string) (acc : N) :
  digits_value (a ++ b)%string acc
  = match digits_value a acc with
    | Some v => digits_value b v
    | None => None
    end.
Proof.
  revert acc. induction a as [|c a IH]; intros acc; [reflexivity|].
  rewrite append_cons. simpl. destruct (is_digit c); [apply IH|reflexivity].
Qed.

Lemma pretty_N_char_digit (d : N) :
  (d < 10)%N ->
  is_digit (pretty_N_char d) = true
  /\ N.of_nat (nat_of_ascii (pretty_N_char d) - 48) = d.
Proof.
  intros Hd.
  assert (d = 0 \/ d = 1 \/ d = 2 \/ d = 3 \/ d = 4 \/ d = 5 \/ d = 6 \/ d = 7
          \/ d = 8 \/ d = 9)%N as Hcases by lia.
  repeat (destruct Hcases as [->|Hcases]; [split; reflexivity|]).
  subst d. split; reflexivity.
Qed.

(** The digits [pretty] writes in front of [s]. *)
Lemma pretty_N_go_decimal (x : N) :
  forall s, exists t,
    pretty_N_go x s = (t ++ s)%string
    /\ all_chars is_digit t = true
    /\ digits_value t 0%N = Some x
    /\ ((0 < x)%N -> t <> EmptyString).
Proof.
  induction (N.lt_wf_0 x) as [x _ IH]. intros s.
  destruct (N.eq_dec x 0%N) as [->|Hx].
  - exists EmptyString. rewrite pretty_N_go_0. repeat split; auto; lia.
  - assert (0 < x)%N as Hpos by lia.
    rewrite (pretty_N_go_step x s Hpos).
    destruct (IH (x `div` 10)%N (N.div_lt x 10 Hpos eq_refl)
                (String (pretty_N_char (x `mod` 10)) s)) as (t & Ht & Hd & Hv & _).
    destruct (pretty_N_char_digit (x `mod` 10)%N) as [Hc Hn];
      [apply N.mod_lt; lia|].
    exists (t ++ String (pretty_N_char (x `mod` 10)) EmptyString)%string.
    split; [|split; [|split]].
    + rewrite Ht. clear. induction t as [|c t IHt]; [reflexivity|].
      rewrite !append_cons. now rewrite IHt.
    + rewrite all_chars_app, Hd. simpl. now rewrite Hc.
    + rewrite digits_value_app, Hv. simpl. rewrite Hc, Hn. f_equal.
      pose proof (N.div_mod x 10). lia.
    + intros _. destruct t; discriminate.
Qed.

Lemma pretty_N_decimal (x : N) :
  exists t, pretty x = t /\ t <> EmptyString
            /\ all_chars is_digit t = true /\ digits_value t 0%N = Some x.
Proof.
  unfold pretty, pretty_N. destruct (decide (x = 0%N)) as [->|Hx].
  - exists "0"%string. split; [reflexivity|]. split; [discriminate|]. split; reflexivity.
  - destruct (pretty_N_go_decimal x EmptyString) as (t & Ht & Hd & Hv & Hne).
    exists t. rewrite Ht. split.
    + clear. induction t as [|c t IHt]; [reflexivity|].
      rewrite append_cons. now rewrite IHt.
    + split; [apply Hne; lia|]. split; assumption.
Qed.

Lemma rstrip_without_blanks (s : string) :
  all_chars (fun c => negb (is_space c)) s = true -> rstrip s = s.
Proof.
  induction s as [|c s IH]; [reflexivity|]. simpl.
  intros H. apply andb_prop in H as [Hc Hs]. apply negb_true_iff in Hc.
  rewrite (IH Hs), Hc. destruct s; reflexivity.
Qed.

Lemma strip_without_blanks (s : string) :
  all_chars (fun c => negb (is_space c)) s = true -> strip s = s.
Proof.
  intros H. unfold strip.
  assert (lstrip s = s) as ->.
  { destruct s as [|c s]; [reflexivity|]. simpl in *.
    apply andb_prop in H as [Hc _]. apply negb_true_iff in Hc. now rewrite Hc. }
  now apply rstrip_without_blanks.
Qed.

Lemma digit_is_plain (c : ascii) :
  is_digit c = true ->
  is_space c = false /\ Ascii.eqb c "_" = false /\ Ascii.eqb c "-" = false
  /\ Ascii.eqb c "+" = false.
Proof.
  intros Hc. split; [|split; [|split]].
  - unfold is_digit, is_space in *. cbv zeta in *.
    apply andb_prop in Hc as [H1 H2]. apply Nat.leb_le in H1, H2.
    assert (Nat.eqb (nat_of_ascii c) 32 = false) as -> by (apply Nat.eqb_neq; lia).
    assert (Nat.leb (nat_of_ascii c) 13 = false) as -> by (apply Nat.leb_gt; lia).
    assert (Nat.leb (nat_of_ascii c) 31 = false) as -> by (apply Nat.leb_gt; lia).
    now rewrite !andb_false_r.
  - destruct (Ascii.eqb_spec c "_"); [subst; discriminate|reflexivity].
  - destruct (Ascii.eqb_spec c "-"); [subst; discriminate|reflexivity].
  - destruct (Ascii.eqb_spec c "+"); [subst; discriminate|reflexivity].
Qed.

(** [int(str(n)) == n]. *)
Lemma py_int_pretty (z : Z) : py_int (pretty z) = Ok z.
Proof.
  unfold py_int.
  assert (Hdigits : forall x t, pretty x = t -> t <> EmptyString ->
            all_chars is_digit t = true -> digits_value t 0%N = Some x ->
            strip t = t
            /\ match t with
               | String "-"%char _ | String "+"%char _ => False
               | _ => True
               end).
  { intros x t _ Hne Hd _. split.
    - apply strip_without_blanks. revert Hd. apply all_chars_impl.
      intros c Hc. apply digit_is_plain in Hc as (-> & _). reflexivity.
    - destruct t as [|c t]; [contradiction|]. simpl in Hd.
      apply andb_prop in Hd as [Hc _].
      apply digit_is_plain in Hc as (_ & _ & Hm & Hp).
      destruct (Ascii.eqb_spec c "-"); [discriminate|].
      destruct (Ascii.eqb_spec c "+"); [discriminate|].
      destruct c as [[] [] [] [] [] [] [] []]; try exact I; contradiction. }
  destruct z as [|p|p].
  - reflexivity.
  - change (pretty (Z.pos p)) with (pretty (N.pos p)).
    destruct (pretty_N_decimal (N.pos p)) as (t & Ht & Hne & Hd & Hv).
    destruct (Hdigits _ _ Ht Hne Hd Hv) as [Hs Hsign].
    rewrite Ht, Hs.
    destruct t as [|c t]; [contradiction|].
    destruct c as [[] [] [] [] [] [] [] []]; try contradiction;
      rewrite Hv; reflexivity.
  - change (pretty (Z.neg p)) with (String "-"%char (pretty (N.pos p))).
    destruct (pretty_N_decimal (N.pos p)) as (t & Ht & Hne & Hd & Hv).
    rewrite Ht.
    assert (strip (String "-"%char t) = String "-"%char t) as ->.
    { apply strip_without_blanks. simpl. revert Hd. apply all_chars_impl.
      intros c Hc. apply digit_is_plain in Hc as (-> & _). reflexivity. }
    destruct t as [|c t]; [contradiction|]. rewrite Hv. reflexivity.
Qed.

Lemma pretty_no_underscore (z : Z) : no_underscore (pretty z).
Proof.
  unfold no_underscore.
  assert (Hn : forall x : N, all_chars (fun c => negb (Ascii.eqb c "_")) (pretty x) = true).
  { intros x. destruct (pretty_N_decimal x) as (t & -> & _ & Hd & _).
    revert Hd. apply all_chars_impl.
    intros c Hc. apply digit_is_plain in Hc as (_ & -> & _). reflexivity. }
  destruct z as [|p|p].
  - reflexivity.
  - apply (Hn (N.pos p)).
  - change (pretty (Z.neg p)) with (String "-"%char (pretty (N.pos p))).
    simpl. apply (Hn (N.pos p)).
Qed.

(** ** The buttons under a Telegram notification *)

Lemma prefix_of_append (a b : string) : String.prefix a (a ++ b)%string = true.
Proof.
  induction a as [|c a IH].
  - rewrite append_empty. destruct b; reflexivity.
  - rewrite append_cons. simpl. destruct (ascii_dec c c); [exact IH|contradiction].
Qed.

Lemma decoded_user_plain (s : string) :
  no_underscore s -> s <> EmptyString -> decoded_user (PStr s) = PStr s.
Proof.
  intros Hs Hne. unfold decoded_user. simpl.
  destruct (String.eqb_spec s ""); [contradiction|]. simpl.
  now rewrite (split_no_sep _ _ Hs).
Qed.

Lemma callback_target_decodes (tag : string) (profile_id : Z) (uid : pyval) :
  no_underscore tag ->
  Admin.callback_target
    (if truthy uid
     then (tag ++ "_" ++ pretty profile_id ++ "_" ++ py_str uid)%string
     else (tag ++ "_" ++ pretty profile_id)%string)
  = Ok (profile_id, decoded_user uid).
Proof.
  intros Htag. unfold Admin.callback_target, decoded_user.
  pose proof (pretty_no_underscore profile_id) as Hpid.
  destruct (truthy uid).
  - change (tag ++ "_" ++ pretty profile_id ++ "_" ++ py_str uid)%string
      with (tag ++ String "_" (pretty profile_id ++ String "_" (py_str uid)))%string.
    rewrite !split_app_sep, (split_no_sep _ _ Htag), (split_no_sep _ _ Hpid).
    pose proof (split_not_empty "_" (py_str uid)) as Hne.
    destruct (split "_" (py_str uid)) as [|u rest]; [contradiction|].
    simpl. unfold piece. simpl. rewrite py_int_pretty. reflexivity.
  - change (tag ++ "_" ++ pretty profile_id)%string
      with (tag ++ String "_" (pretty profile_id))%string.
    rewrite split_app_sep, (split_no_sep _ _ Htag), (split_no_sep _ _ Hpid).
    simpl. unfold piece. simpl. rewrite py_int_pretty. reflexivity.
Qed.

Lemma reply_data_decodes (profile_id : Z) (uid : pyval) :
  Admin.callback_target (Admin.reply_data profile_id uid)
  = Ok (profile_id, decoded_user uid).
Proof. apply (callback_target_decodes "reply"). reflexivity. Qed.

Lemma payment_data_decodes (profile_id : Z) (uid : pyval) :
  Admin.callback_target (Admin.payment_data profile_id uid)
  = Ok (profile_id, decoded_user uid).
Proof. apply (callback_target_decodes "payment"). reflexivity. Qed.

(** X19.  The payloads of the two buttons that [send_telegram_notification]
    puts under a message are read back by [handle_callback_query]'s
    parsing: the profile id is the one the notification was for, whatever
    its sign; a user id that is non-empty text without an underscore comes
    back unchanged, an absent one as [None]; a user id that is an integer
    comes back as text, which equals no integer. *)
Theorem callback_payload_round_trip profile_id uid reply payment :
  Admin.keyboard profile_id uid = Some (reply, payment) ->
  Admin.callback_target reply = Ok (profile_id, decoded_user uid)
  /\ Admin.callback_target payment = Ok (profile_id, decoded_user uid)
  /\ (forall s, uid = PStr s -> no_underscore s -> s <> EmptyString ->
                decoded_user uid = uid)
  /\ (truthy uid = false -> decoded_user uid = PNone)
  /\ (forall n, uid = PInt n -> py_eq (decoded_user uid) uid = false).
Proof.
  unfold Admin.keyboard. destruct (profile_id =? 0); [discriminate|].
  intros [= <- <-].
  split; [apply reply_data_decodes|]. split; [apply payment_data_decodes|].
  split; [|split].
  - intros s -> Hs Hne. now apply decoded_user_plain.
  - intros Hfalse. unfold decoded_user. now rewrite Hfalse.
  - intros n ->. unfold decoded_user. destruct (truthy (PInt n)); reflexivity.
Qed.

Lemma callback_payload_round_trip_witness :
  Admin.callback_target "reply_3_7001" = Ok (3, PStr "7001")
  /\ Admin.callback_target "payment_3_7001" = Ok (3, PStr "7001").
Proof.
  destruct (callback_payload_round_trip 3 (PStr "7001") "reply_3_7001" "payment_3_7001"
              eq_refl) as (Hreply & Hpayment & Hsame & _).
  rewrite Hreply, Hpayment.
  rewrite (Hsame "7001" eq_refl eq_refl); [split; reflexivity|discriminate].
Defined.

(** X20.  Pressing the buttons of a notification sent for a user whose id
    is non-empty text without an underscore: "reply" opens the reply mode
    of the pressing admin for that profile and that user and leaves the
    document alone; "payment", when the profile exists, books the last
    unpaid order of that user for that profile with the time of the press,
    leaves the reply modes alone and reports no error. *)
Theorem buttons_act_for_the_notified_user b profile_id s reply payment admin_id now profile :
  Admin.keyboard profile_id (PStr s) = Some (reply, payment) ->
  no_underscore s -> s <> EmptyString ->
  List.find (Admin.has_id profile_id) (profiles (Admin.br_document b)) = Some profile ->
  Admin.handle_callback_query b reply admin_id now
  = ({| Admin.br_document := Admin.br_document b;
        Admin.active_reply_sessions :=
          <[admin_id := {| Admin.rs_profile_id := profile_id;
                           Admin.rs_telegram_user_id := PStr s |}]>
            (Admin.active_reply_sessions b) |}, None)
  /\ exists b',
       Admin.handle_callback_query b payment admin_id now = (b', None)
       /\ Admin.active_reply_sessions b' = Admin.active_reply_sessions b
       /\ orders (Admin.br_document b')
          = update_last (Admin.telegram_order_filter profile_id (PStr s))
              (Admin.book now) (orders (Admin.br_document b)).
Proof.
  unfold Admin.keyboard. destruct (profile_id =? 0); [discriminate|].
  intros [= <- <-] Hs Hne Hprofile.
  assert (Htruthy : truthy (PStr s) = true).
  { simpl. destruct (String.eqb_spec s ""); [contradiction|reflexivity]. }
  unfold Admin.handle_callback_query.
  rewrite reply_data_decodes, payment_data_decodes, (decoded_user_plain s Hs Hne).
  unfold Admin.reply_data, Admin.payment_data. rewrite Htruthy.
  rewrite !prefix_of_append.
  split; [reflexivity|].
  change (String.prefix "reply_"
            ("payment_" ++ pretty profile_id ++ "_" ++ py_str (PStr s))) with false.
  cbv iota. eexists. split; [reflexivity|]. split; [reflexivity|].
  cbn [Admin.br_document].
  apply (telegram_reply_books_last_match _ _ _ _ _ profile Hprofile). reflexivity.
Qed.

Lemma buttons_act_for_the_notified_user_witness :
  exists b',
    Admin.handle_callback_query
      {| Admin.br_document := two_open_orders; Admin.active_reply_sessions := ∅ |}
      "payment_3_u2" 9 60 = (b', None)
    /\ orders (Admin.br_document b')
       = [unpaid_order 1 3 "u1" hour; Admin.book 60 (unpaid_order 2 3 "u2" hour)].
Proof.
  destruct (buttons_act_for_the_notified_user
              {| Admin.br_document := two_open_orders; Admin.active_reply_sessions := ∅ |}
              3 "u2" "reply_3_u2" "payment_3_u2" 9 60 profile3
              eq_refl eq_refl ltac:(discriminate) eq_refl)
    as (_ & b' & Hpress & _ & Horders).
  exists b'. split; [exact Hpress|]. rewrite Horders. vm_compute. reflexivity.
Defined.

(** ** Uploaded files and order codes *)

Lemma lower_app (a b : string) : lower (a ++ b)%string = (lower a ++ lower b)%string.
Proof.
  induction a as [|c a IH]; [reflexivity|].
  rewrite append_cons. simpl. rewrite IH. reflexivity.
Qed.

Lemma lower_upper (s : string) : lower (upper s) = lower s.
Proof.
  induction s as [|c s IH]; [reflexivity|]. simpl. rewrite IH. f_equal.
  destruct c as [[] [] [] [] [] [] [] []]; vm_compute; reflexivity.
Qed.

Lemma last_app_not_empty {A} (l1 l2 : list A) (d : A) :
  l2 <> [] -> List.last (l1 ++ l2) d = List.last l2 d.
Proof.
  intros Hne. induction l1 as [|x l1 IH]; [reflexivity|].
  simpl. rewrite IH. destruct (l1 ++ l2) eqn:Happ; [|reflexivity].
  apply app_eq_nil in Happ as [_ ->]. contradiction.
Qed.

Lemma last_piece_after_sep (sep : ascii) (a b : string) :
  last_piece sep (a ++ String sep b)%string = last_piece sep b.
Proof.
  unfold last_piece. rewrite split_app_sep.
  apply last_app_not_empty, split_not_empty.
Qed.

(** X21.  [get_file_type] looks at nothing but the text after the last
    dot, whatever its case: a name judges like its part after any of its
    dots, so a name that is only "png" is an image too, and upper-casing a
    name does not change its kind. *)
Theorem file_type_reads_the_last_extension stem rest :
  ascii_text stem -> ascii_text rest ->
  get_file_type (stem ++ "." ++ rest)%string = get_file_type rest
  /\ get_file_type (upper rest) = get_file_type rest.
Proof.
  intros _ _. unfold get_file_type. split.
  - change (stem ++ "." ++ rest)%string with (stem ++ String "." rest)%string.
    rewrite lower_app.
    change (lower (String "." rest)) with (String "."%char (lower rest)).
    now rewrite last_piece_after_sep.
  - now rewrite lower_upper.
Qed.

Lemma file_type_reads_the_last_extension_witness :
  get_file_type "holiday.tar.PNG" = "image" /\ get_file_type "PNG" = "image".
Proof.
  destruct (file_type_reads_the_last_extension "holiday.tar" "PNG" eq_refl eq_refl)
    as [Hlast Hupper].
  change ("holiday.tar" ++ "." ++ "PNG")%string with "holiday.tar.PNG" in Hlast.
  rewrite Hlast. split; reflexivity.
Defined.

Lemma keep_chars_all (p : ascii -> bool) (s : string) :
  all_chars p (keep_chars p s) = true.
Proof.
  induction s as [|c s IH]; [reflexivity|]. simpl.
  destruct (p c) eqn:Hc; [simpl; now rewrite Hc|exact IH].
Qed.

Lemma keep_chars_fixed (p : ascii -> bool) (s : string) :
  all_chars p s = true -> keep_chars p s = s.
Proof.
  induction s as [|c s IH]; [reflexivity|]. simpl.
  intros H. apply andb_prop in H as [Hc Hs]. now rewrite Hc, (IH Hs).
Qed.

Lemma prefix_of_keeps (p : ascii -> bool) (n : nat) (s : string) :
  all_chars p s = true -> all_chars p (prefix_of n s) = true.
Proof.
  revert s. induction n as [|n IH]; intros [|c s]; try reflexivity. simpl.
  intros H. apply andb_prop in H as [Hc Hs]. now rewrite Hc, (IH s Hs).
Qed.

Lemma join_keeps (p : ascii -> bool) (sep : string) (parts : list string) :
  all_chars p sep = true ->
  Forall (fun x => all_chars p x = true) parts ->
  all_chars p (join sep parts) = true.
Proof.
  intros Hsep. induction 1 as [|x r Hx Hr IH]; [reflexivity|].
  destruct r as [|y r]; [exact Hx|].
  change (join sep (x :: y :: r)) with (x ++ sep ++ join sep (y :: r))%string.
  now rewrite !all_chars_app, Hx, Hsep, IH.
Qed.

Lemma removelast_keeps {A} (P : A -> Prop) (l : list A) :
  Forall P l -> Forall P (removelast l).
Proof.
  induction 1 as [|x r Hx Hr IH]; [constructor|].
  simpl. destruct r; [constructor|]. constructor; assumption.
Qed.

Lemma last_keeps {A} (P : A -> Prop) (l : list A) (d : A) :
  P d -> Forall P l -> P (List.last l d).
Proof.
  intros Hd. induction 1 as [|x r Hx Hr IH]; [exact Hd|].
  simpl. destruct r; assumption.
Qed.

Lemma splitext_keeps (p : ascii -> bool) (s : string) :
  p "."%char = true -> all_chars p s = true ->
  all_chars p (fst (splitext s)) = true /\ all_chars p (snd (splitext s)) = true.
Proof.
  intros Hdot Hs. unfold splitext.
  pose proof (split_pieces_keep "." p s Hs) as Hparts.
  destruct (split "." s) as [|x [|y r]] eqn:Hsplit; try (split; [exact Hs|reflexivity]).
  destruct (all_dots _); [split; [exact Hs|reflexivity]|].
  cbn [fst snd]. split.
  - apply join_keeps; [simpl; now rewrite Hdot|]. now apply removelast_keeps.
  - change (p "."%char && all_chars p (List.last (x :: y :: r) EmptyString) = true).
    rewrite Hdot. cbn [andb].
    apply (last_keeps (fun x => all_chars p x = true)); [reflexivity|exact Hparts].
Qed.

(** X22.  [sanitize_filename] returns only letters, digits, dots,
    underscores and hyphens, so no path separator survives; and a name of
    at most 100 such characters is returned as it is. *)
Theorem sanitize_filename_keeps_safe_characters filename :
  ascii_text filename ->
  all_chars Admin.allowed_in_filename (Admin.sanitize_filename filename) = true
  /\ all_chars (fun c => negb (Ascii.eqb c "/")) (Admin.sanitize_filename filename) = true
  /\ (all_chars Admin.allowed_in_filename filename = true ->
      (String.length filename <= 100)%nat ->
      Admin.sanitize_filename filename = filename).
Proof.
  intros _.
  assert (Hsafe : all_chars Admin.allowed_in_filename (Admin.sanitize_filename filename)
                  = true).
  { unfold Admin.sanitize_filename.
    pose proof (keep_chars_all Admin.allowed_in_filename (basename filename)) as Hkept.
    destruct (Nat.ltb 100 _); [|exact Hkept].
    destruct (splitext_keeps Admin.allowed_in_filename _ eq_refl Hkept) as [Hname Hext].
    rewrite all_chars_app, Hext, (prefix_of_keeps _ _ _ Hname). reflexivity. }
  assert (Hslash : forall c, Admin.allowed_in_filename c = true ->
                             negb (Ascii.eqb c "/") = true).
  { intros c Hc. destruct (Ascii.eqb_spec c "/"); [subst; discriminate|reflexivity]. }
  split; [exact Hsafe|]. split; [revert Hsafe; now apply all_chars_impl|].
  intros Hallowed Hlen. unfold Admin.sanitize_filename, basename, last_piece.
  rewrite (split_no_sep "/" filename (all_chars_impl _ _ _ Hslash Hallowed)).
  simpl List.last. rewrite (keep_chars_fixed _ _ Hallowed).
  destruct (Nat.ltb_spec 100 (String.length filename)); [lia|reflexivity].
Qed.

Lemma sanitize_filename_keeps_safe_characters_witness :
  Admin.sanitize_filename "../../etc/pass wd.txt" = "passwd.txt"
  /\ Admin.sanitize_filename "passwd.txt" = "passwd.txt".
Proof.
  destruct (sanitize_filename_keeps_safe_characters "passwd.txt" eq_refl)
    as (_ & _ & Hsame).
  split; [vm_compute; reflexivity|]. apply Hsame; [reflexivity|simpl; lia].
Defined.

Lemma get_all_chars (p : ascii -> bool) (s : string) (n : nat) (c : ascii) :
  all_chars p s = true -> String.get n s = Some c -> p c = true.
Proof.
  revert n. induction s as [|x s IH]; intros n; simpl; [discriminate|].
  intros H. apply andb_prop in H as [Hx Hs].
  destruct n as [|n]; [intros [= <-]; exact Hx|]. now apply IH.
Qed.

Lemma choice_is_alphanumeric (r : nat) :
  isalnum (choice order_code_characters r) = true.
Proof.
  unfold choice.
  destruct (String.get _ order_code_characters) as [c|] eqn:Hget; [|reflexivity].
  assert (Hall : all_chars isalnum order_code_characters = true)
    by (vm_compute; reflexivity).
  exact (get_all_chars isalnum _ _ _ Hall Hget).
Qed.

(** X23.  Whatever the random generator draws, [generate_order_code]
    returns eighteen characters, each a letter or a digit. *)
Theorem order_code_is_eighteen_alphanumerics (draw : nat -> nat) :
  String.length (generate_order_code draw) = 18%nat
  /\ all_chars isalnum (generate_order_code draw) = true.
Proof.
  unfold generate_order_code. cbn [seq fold_right]. split; [reflexivity|].
  cbn [all_chars]. rewrite !choice_is_alphanumeric. reflexivity.
Qed.

(** ** Promo codes *)

Lemma create_admin_promocode_ok promocodes code discount now promocodes' created :
  Admin.create_admin_promocode promocodes code discount now = Ok (promocodes', created) ->
  exists text value,
    code = Some (PStr text) /\ discount = Some value
    /\ List.find (fun p => String.eqb (pr_code p) (upper text)) promocodes = None
    /\ promocodes' = promocodes ++ [created]
    /\ created = {| pr_id := next_len_id promocodes; pr_code := upper text;
                    pr_discount := value; pr_is_active := true;
                    pr_used_by := []; pr_created_at := now |}.
Proof.
  unfold Admin.create_admin_promocode, Admin.code_upper.
  destruct code as [[| |text]|]; try discriminate. simpl.
  destruct (List.find _ promocodes) eqn:Hfind; [discriminate|].
  destruct discount as [value|]; [|discriminate].
  intros [= <- <-]. exists text, value. repeat split; auto.
Qed.

(** X24.  A promo code the admin created is accepted by the public
    validation however the customer cases it: the answer is valid and
    carries the discount the admin gave. *)
Theorem created_promocode_validates promocodes code discount now promocodes' created typed :
  Admin.create_admin_promocode promocodes (Some (PStr code)) (Some discount) now
  = Ok (promocodes', created) ->
  upper typed = upper code ->
  Main.validate_promocode promocodes' (Some (PStr typed))
  = Ok {| Main.v_valid := true; Main.v_discount := Some discount;
          Main.v_message := ("Promocode activated! " ++ py_str discount
                             ++ "% discount applied")%string |}.
Proof.
  intros Hcreate Htyped.
  apply create_admin_promocode_ok in Hcreate
    as (text & value & [= <-] & [= <-] & Hfind & -> & ->).
  unfold Main.validate_promocode. rewrite Htyped.
  rewrite (find_app_new _ _ _ Hfind); [reflexivity|].
  cbn [pr_code]. apply String.eqb_refl.
Qed.

Lemma created_promocode_validates_witness :
  Main.validate_promocode
    [summer_code;
     {| pr_id := 2; pr_code := "WINTER"; pr_discount := PInt 25; pr_is_active := true;
        pr_used_by := []; pr_created_at := 60 |}]
    (Some (PStr "Winter"))
  = Ok {| Main.v_valid := true; Main.v_discount := Some (PInt 25);
          Main.v_message := "Promocode activated! 25% discount applied" |}.
Proof.
  eapply (created_promocode_validates [summer_code] "winter" (PInt 25) 60);
    reflexivity.
Defined.

Lemma map_update_first {A B} (g : A -> B) (q : A -> bool) (f : A -> A) (l : list A) :
  (forall x, g (f x) = g x) -> map g (update_first q f l) = map g l.
Proof.
  intros Hg. induction l as [|x r IH]; [reflexivity|]. simpl.
  destruct (q x); simpl; [now rewrite Hg|now rewrite IH].
Qed.

Lemma NoDup_map_filter {A B} (g : A -> B) (q : A -> bool) (l : list A) :
  NoDup (map g l) -> NoDup (map g (List.filter q l)).
Proof.
  induction l as [|x r IH]; simpl; [auto|].
  intros H. apply NoDup_cons in H as [Hx Hr].
  destruct (q x); simpl; [|auto].
  apply NoDup_cons. split; [|auto].
  intros Hin. apply Hx. apply list_elem_of_In. apply list_elem_of_In in Hin.
  apply in_map_iff in Hin as (y & Hy & Hin).
  apply in_map_iff. exists y. split; [exact Hy|].
  apply filter_In in Hin. tauto.
Qed.

(** X25.  No two promo codes share their text: when that holds of the
    stored list it still holds after the admin creates a code (a text that
    is taken, in any case, is refused with 400 instead), switches one on
    or off, or deletes one. *)
Theorem promocode_texts_stay_unique promocodes :
  NoDup (map pr_code promocodes) ->
  (forall code discount now promocodes' created,
      Admin.create_admin_promocode promocodes code discount now
      = Ok (promocodes', created) ->
      NoDup (map pr_code promocodes'))
  /\ (forall text discount now existing,
         In existing promocodes -> pr_code existing = upper text ->
         Admin.create_admin_promocode promocodes (Some (PStr text)) discount now
         = Raise (HTTPException 400 "Promocode already exists"))
  /\ (forall promocode_id,
         NoDup (map pr_code (Admin.toggle_admin_promocode promocodes promocode_id)))
  /\ (forall promocode_id,
         NoDup (map pr_code (Admin.delete_admin_promocode promocodes promocode_id))).
Proof.
  intros Hunique. split; [|split; [|split]].
  - intros code discount now promocodes' created Hcreate.
    apply create_admin_promocode_ok in Hcreate
      as (text & value & -> & -> & Hfind & -> & ->).
    rewrite map_app. simpl.
    apply NoDup_app. split; [exact Hunique|]. split; [|apply NoDup_singleton].
    intros code Hin Hnew. apply list_elem_of_singleton in Hnew as ->.
    apply list_elem_of_In, in_map_iff in Hin as (p & Hcode & Hp).
    pose proof (find_none _ _ Hfind p Hp) as Hno. simpl in Hno.
    rewrite Hcode, String.eqb_refl in Hno. discriminate.
  - intros text discount now existing Hin Hcode.
    unfold Admin.create_admin_promocode. simpl.
    destruct (List.find _ promocodes) eqn:Hfind; [reflexivity|].
    pose proof (find_none _ _ Hfind existing Hin) as Hno. simpl in Hno.
    rewrite Hcode, String.eqb_refl in Hno. discriminate.
  - intros promocode_id. unfold Admin.toggle_admin_promocode.
    rewrite map_update_first; [exact Hunique|reflexivity].
  - intros promocode_id. now apply NoDup_map_filter.
Qed.

Lemma promocode_texts_stay_unique_witness :
  Admin.create_admin_promocode [summer_code] (Some (PStr "Summer")) (Some (PInt 5)) 60
  = Raise (HTTPException 400 "Promocode already exists").
Proof.
  assert (Hunique : NoDup (map pr_code [summer_code])).
  { apply NoDup_singleton. }
  destruct (promocode_texts_stay_unique [summer_code] Hunique) as (_ & Htaken & _).
  apply (Htaken "Summer" (Some (PInt 5)) 60 summer_code); [now left|reflexivity].
Defined.

(** X26.  Switching a promo code twice gives back the stored list: the
    second press finds the same code and restores its flag. *)
Theorem toggle_twice_restores promocodes promocode_id :
  Admin.toggle_admin_promocode
    (Admin.toggle_admin_promocode promocodes promocode_id) promocode_id
  = promocodes.
Proof.
  unfold Admin.toggle_admin_promocode.
  induction promocodes as [|p r IH]; [reflexivity|]. simpl.
  destruct (pr_id p =? promocode_id) eqn:Hp; simpl; rewrite Hp.
  - destruct p. unfold Admin.flip_active. simpl. now rewrite negb_involutive.
  - now rewrite IH.
Qed.

(** ** Admin login *)

Lemma check_login_rate_limit_spec cfg now ip attempts :
  Admin.check_login_rate_limit cfg now ip attempts
  = match attempts !! ip with
    | Some times =>
        let kept := List.filter (Admin.recent cfg now) times in
        (negb (Admin.MAX_LOGIN_ATTEMPTS cfg <=? Z.of_nat (length kept)),
         <[ip := kept]> attempts)
    | None => (true, attempts)
    end.
Proof.
  unfold Admin.check_login_rate_limit.
  destruct (attempts !! ip) as [times|] eqn:Hip.
  - rewrite lookup_insert_eq. cbv zeta.
    destruct (Admin.MAX_LOGIN_ATTEMPTS cfg <=? _); reflexivity.
  - rewrite Hip. reflexivity.
Qed.

Lemma check_allows_iff cfg st ip now :
  fst (Admin.check_login_rate_limit cfg now ip (Admin.login_attempts st)) = true
  <-> ~ rate_limited cfg st ip now.
Proof.
  rewrite check_login_rate_limit_spec. unfold rate_limited.
  destruct (Admin.login_attempts st !! ip) as [times|]; cbn [fst].
  - rewrite negb_true_iff, Z.leb_gt. split.
    + intros Hlt (times' & [= <-] & Hle). lia.
    + intros Hnot. destruct (Z.lt_ge_cases
        (Z.of_nat (length (List.filter (Admin.recent cfg now) times)))
        (Admin.MAX_LOGIN_ATTEMPTS cfg)) as [Hlt|Hge]; [exact Hlt|].
      exfalso. apply Hnot. eauto.
  - split; [|reflexivity]. intros _ (times & Hsome & _). discriminate.
Qed.

Lemma truthy_text (s : string) : truthy (PStr s) = true <-> s <> EmptyString.
Proof.
  simpl. rewrite negb_true_iff. destruct (String.eqb_spec s ""); split; congruence.
Qed.

Lemma login_body_admits cfg st ip body session_id now later :
  let outcome := Admin.login_body cfg st ip body session_id now later in
  (snd outcome = Ok tt <->
     ~ rate_limited cfg st ip now
     /\ body = Some (PStr (Admin.admin_username cfg), PStr (Admin.admin_password cfg))
     /\ Admin.admin_username cfg <> EmptyString
     /\ Admin.admin_password cfg <> EmptyString)
  /\ (snd outcome = Ok tt ->
      Admin.active_sessions (fst outcome) !! session_id
      = Some {| Admin.s_username := PStr (Admin.admin_username cfg);
                Admin.s_created_at := later |}
      /\ (session_id <> EmptyString ->
          Admin.verify_session (fst outcome) session_id = true)
      /\ (is_Some (Admin.login_attempts st !! ip) ->
          Admin.login_attempts (fst outcome) !! ip = Some []))
  /\ (snd outcome <> Ok tt ->
      Admin.active_sessions (fst outcome) = Admin.active_sessions st).
Proof.
  cbv zeta. unfold Admin.login_body.
  pose proof (check_allows_iff cfg st ip now) as Hcheck.
  pose proof (check_login_rate_limit_spec cfg now ip (Admin.login_attempts st)) as Hspec.
  destruct (Admin.check_login_rate_limit cfg now ip (Admin.login_attempts st))
    as [allowed attempts1]. cbn [fst snd] in *.
  destruct allowed; cbn [negb].
  2:{ split; [|split]; [|discriminate|reflexivity].
      split; [discriminate|]. intros (Hfree & _). apply Hcheck in Hfree. discriminate. }
  destruct body as [[username password]|].
  2:{ split; [|split]; [|discriminate|reflexivity].
      split; [discriminate|]. intros (_ & Hbody & _). discriminate. }
  destruct (truthy username) eqn:Hu; cbn [negb orb].
  2:{ split; [|split]; [|discriminate|reflexivity].
      split; [discriminate|]. intros (_ & [= -> _] & Hname & _).
      apply truthy_text in Hname. congruence. }
  destruct (truthy password) eqn:Hp; cbn [negb].
  2:{ split; [|split]; [|discriminate|reflexivity].
      split; [discriminate|]. intros (_ & [= _ ->] & _ & Hpass).
      apply truthy_text in Hpass. congruence. }
  unfold py_eq.
  destruct (decide (username = PStr (Admin.admin_username cfg))) as [->|Hname].
  2:{ rewrite bool_decide_eq_false_2 by exact Hname. cbn [andb].
      split; [|split]; [|discriminate|reflexivity].
      split; [discriminate|]. intros (_ & [= -> _] & _). contradiction. }
  destruct (decide (password = PStr (Admin.admin_password cfg))) as [->|Hpass].
  2:{ rewrite bool_decide_eq_true_2 by reflexivity.
      rewrite bool_decide_eq_false_2 by exact Hpass. cbn [andb].
      split; [|split]; [|discriminate|reflexivity].
      split; [discriminate|]. intros (_ & [= ->] & _). contradiction. }
  rewrite !bool_decide_eq_true_2 by reflexivity. cbn [andb fst snd].
  split; [|split]; [| |intros Hno; now contradiction Hno].
  - split; [|reflexivity]. intros _.
    split; [now apply Hcheck|]. split; [reflexivity|].
    split; now apply truthy_text.
  - intros _. cbn [Admin.active_sessions Admin.login_attempts].
    unfold Admin.create_session. rewrite lookup_insert_eq.
    split; [reflexivity|]. split.
    + intros Hid. unfold Admin.verify_session. cbn [Admin.active_sessions].
      rewrite lookup_insert_eq.
      destruct (String.eqb_spec session_id ""); [contradiction|].
      cbn [negb andb]. apply bool_decide_eq_true_2. eauto.
    + intros [times Htimes]. rewrite Htimes in Hspec. cbv zeta in Hspec.
      injection Hspec as _ ->. rewrite lookup_insert_eq, lookup_insert_eq. reflexivity.
Qed.


(** X27.  POST /api/login succeeds exactly when slowapi lets the request
    through, the address is not rate limited by the handler at that moment
    and the body carries the configured user name and password, both
    non-empty (an empty configured password admits nobody).  A success
    stores a session for the admin under the new id, which
    [verify_session] then accepts, and empties the address's record of
    failures; any other outcome leaves the sessions as they were; and a
    request slowapi refuses is answered 429 without reaching the handler,
    the state untouched. *)
Theorem login_admits_only_the_admin cfg st ip within_limit body session_id now later :
  let outcome := Admin.login cfg st ip within_limit body session_id now later in
  (snd outcome = Ok tt <->
     within_limit = true
     /\ ~ rate_limited cfg st ip now
     /\ body = Some (PStr (Admin.admin_username cfg), PStr (Admin.admin_password cfg))
     /\ Admin.admin_username cfg <> EmptyString
     /\ Admin.admin_password cfg <> EmptyString)
  /\ (snd outcome = Ok tt ->
      Admin.active_sessions (fst outcome) !! session_id
      = Some {| Admin.s_username := PStr (Admin.admin_username cfg);
                Admin.s_created_at := later |}
      /\ (session_id <> EmptyString ->
          Admin.verify_session (fst outcome) session_id = true)
      /\ (is_Some (Admin.login_attempts st !! ip) ->
          Admin.login_attempts (fst outcome) !! ip = Some []))
  /\ (snd outcome <> Ok tt ->
      Admin.active_sessions (fst outcome) = Admin.active_sessions st)
  /\ (within_limit = false ->
      outcome = (st, Raise RateLimitExceeded)
      /\ http_status (snd outcome) = 429).
Proof.
  cbv zeta. unfold Admin.login. destruct within_limit.
  - destruct (login_body_admits cfg st ip body session_id now later)
      as (Hiff & Hsession & Hother).
    split; [|split; [exact Hsession|split; [exact Hother|discriminate]]].
    rewrite Hiff. tauto.
  - cbn [fst snd]. split; [|split; [discriminate|split; [reflexivity|]]].
    + split; [discriminate|]. intros [H _]. discriminate.
    + intros _. split; reflexivity.
Qed.

Lemma filter_all_true {A} (p : A -> bool) (l : list A) :
  Forall (fun x => p x = true) l -> List.filter p l = l.
Proof.
  induction 1 as [|x r Hx Hr IH]; [reflexivity|]. simpl. now rewrite Hx, IH.
Qed.

Lemma window_entries_are_recent cfg now t (l : list Z) :
  t <= now -> Forall (in_window cfg now) l ->
  List.filter (Admin.recent cfg t) l = l.
Proof.
  intros Ht Hl. apply filter_all_true.
  eapply Forall_impl; [exact Hl|]. intros t0 [Hlow Hhigh]. cbv beta.
  unfold Admin.recent. apply Z.ltb_lt. lia.
Qed.

Lemma wrong_login_is_recorded cfg st ip body session_id now t t' (l : list Z) :
  default [] (Admin.login_attempts st !! ip) = l ->
  Forall (in_window cfg now) l -> t <= now ->
  Z.of_nat (length l) < Admin.MAX_LOGIN_ATTEMPTS cfg ->
  wrong_credentials cfg body ->
  let st1 := fst (Admin.login_body cfg st ip body session_id t t') in
  Admin.login_attempts st1 !! ip = Some (l ++ [t'])
  /\ Admin.active_sessions st1 = Admin.active_sessions st.
Proof.
  intros Hl Hwin Ht Hfew (username & password & -> & Hu & Hp & Hwrong). cbv zeta.
  unfold Admin.login_body. rewrite check_login_rate_limit_spec.
  destruct (Admin.login_attempts st !! ip) as [times|] eqn:Hip; simpl in Hl; subst l.
  - cbv zeta. rewrite (window_entries_are_recent cfg now t times Ht Hwin).
    assert ((Admin.MAX_LOGIN_ATTEMPTS cfg <=? Z.of_nat (length times)) = false) as ->
      by (apply Z.leb_gt; lia).
    cbn [fst snd negb]. rewrite Hu, Hp, Hwrong. cbn [negb orb fst snd].
    cbn [Admin.login_attempts Admin.active_sessions].
    unfold Admin.record_login_attempt.
    rewrite lookup_insert_eq, lookup_insert_eq. split; reflexivity.
  - cbn [fst snd negb]. rewrite Hu, Hp, Hwrong. cbn [negb orb fst snd].
    cbn [Admin.login_attempts Admin.active_sessions].
    unfold Admin.record_login_attempt.
    rewrite Hip, lookup_insert_eq. split; reflexivity.
Qed.

Lemma failed_logins_are_counted cfg ip session_id now requests :
  forall st (l : list Z),
    default [] (Admin.login_attempts st !! ip) = l ->
    Forall (in_window cfg now) l ->
    Z.of_nat (length l + length (List.filter lr_within_limit requests))
    <= Admin.MAX_LOGIN_ATTEMPTS cfg ->
    Forall (fun r => lr_clock r <= now /\ in_window cfg now (lr_later r)
                     /\ (lr_within_limit r = true ->
                         wrong_credentials cfg (lr_body r)))
      requests ->
    let st' := logins cfg st ip session_id requests in
    Admin.active_sessions st' = Admin.active_sessions st
    /\ exists l',
         default [] (Admin.login_attempts st' !! ip) = l'
         /\ (List.filter lr_within_limit requests <> [] ->
             Admin.login_attempts st' !! ip = Some l')
         /\ length l'
            = (length l + length (List.filter lr_within_limit requests))%nat
         /\ Forall (in_window cfg now) l'.
Proof.
  induction requests as [|[admitted body t t'] rest IH];
    intros st l Hl Hwin Hroom Hreq; cbv zeta.
  - simpl. split; [reflexivity|]. exists l. rewrite Nat.add_0_r. repeat split; auto.
    intros Hne. now contradiction Hne.
  - apply Forall_cons in Hreq as [(Ht & Ht' & Hwrong) Hrest].
    cbn [lr_clock lr_later lr_within_limit lr_body] in *.
    cbn [logins lr_clock lr_later lr_within_limit lr_body]. unfold Admin.login.
    destruct admitted; cbn [List.filter lr_within_limit] in *.
    + simpl length in Hroom.
      destruct (wrong_login_is_recorded cfg st ip body session_id now t t' l Hl Hwin
                  Ht ltac:(lia) (Hwrong eq_refl)) as [Hrec Hsess].
      destruct (IH (fst (Admin.login_body cfg st ip body session_id t t')) (l ++ [t']))
        as (Hsess' & l' & Hdef & Hsome & Hlen & Hwin').
      * now rewrite Hrec.
      * apply Forall_app. split; [exact Hwin|]. now constructor.
      * rewrite length_app. simpl. lia.
      * exact Hrest.
      * split; [now rewrite Hsess', Hsess|].
        exists l'. split; [exact Hdef|]. split.
        -- intros _. destruct (List.filter lr_within_limit rest) as [|r rest'] eqn:Hf.
           ++ simpl in Hlen. rewrite length_app in Hlen. simpl in Hlen.
              destruct (Admin.login_attempts
                          (logins cfg
                             (fst (Admin.login_body cfg st ip body session_id t t'))
                             ip session_id rest) !! ip) as [times|] eqn:Hlook.
              ** simpl in Hdef. now subst.
              ** simpl in Hdef. subst l'. simpl in Hlen. lia.
           ++ apply Hsome. discriminate.
        -- split; [|exact Hwin']. rewrite Hlen, length_app. simpl. lia.
    + cbn [fst]. apply (IH st l Hl Hwin Hroom Hrest).
Qed.

(** X28.  Brute force is stopped: when an address without a record sends
    requests inside one rate-limit window of which slowapi lets through
    [MAX_LOGIN_ATTEMPTS], each of those with wrong credentials, no session
    is opened on the way, and a further request at the end of that window
    is answered 429 whatever it carries, the right password included, and
    whether slowapi or the handler's own limit refuses it, again without a
    session. *)
Theorem wrong_passwords_lock_the_address_out cfg st ip session_id requests now :
  Admin.login_attempts st !! ip = None ->
  0 < Admin.MAX_LOGIN_ATTEMPTS cfg ->
  Z.of_nat (length (List.filter lr_within_limit requests))
  = Admin.MAX_LOGIN_ATTEMPTS cfg ->
  Forall (fun r => lr_clock r <= now /\ in_window cfg now (lr_later r)
                   /\ (lr_within_limit r = true -> wrong_credentials cfg (lr_body r)))
    requests ->
  let st' := logins cfg st ip session_id requests in
  Admin.active_sessions st' = Admin.active_sessions st
  /\ forall within_limit body session_id' later,
       let outcome := Admin.login cfg st' ip within_limit body session_id' now later in
       http_status (snd outcome) = 429
       /\ Admin.active_sessions (fst outcome) = Admin.active_sessions st.
Proof.
  intros Hfresh Hmax Hlen Hreq. cbv zeta.
  destruct (failed_logins_are_counted cfg ip session_id now requests st []) as
    (Hsess & l' & _ & Hsome & Hcount & Hwin); auto.
  { now rewrite Hfresh. }
  { simpl. lia. }
  split; [exact Hsess|]. intros within_limit body session_id' later.
  unfold Admin.login. destruct within_limit; [|split; [reflexivity|exact Hsess]].
  assert (Hne : List.filter lr_within_limit requests <> [])
    by (intros Hnil; rewrite Hnil in Hlen; simpl in Hlen; lia).
  specialize (Hsome Hne).
  unfold Admin.login_body. rewrite check_login_rate_limit_spec, Hsome. cbv zeta.
  rewrite (window_entries_are_recent cfg now now l' (Z.le_refl _) Hwin).
  assert ((Admin.MAX_LOGIN_ATTEMPTS cfg <=? Z.of_nat (length l')) = true) as ->
    by (apply Z.leb_le; simpl in Hcount; lia).
  cbn [fst snd negb]. split; [reflexivity|exact Hsess].
Qed.

Lemma wrong_passwords_lock_the_address_out_witness :
  http_status
    (snd (Admin.login strict_config
            (logins strict_config no_sessions "10.0.0.7" "sid"
               [{| lr_within_limit := true;
                   lr_body := Some (PStr "admin", PStr "guess1");
                   lr_clock := 10 * second; lr_later := 10 * second + 1 |};
                {| lr_within_limit := false;
                   lr_body := Some (PStr "admin", PStr "s3cret");
                   lr_clock := 15 * second; lr_later := 15 * second |};
                {| lr_within_limit := true;
                   lr_body := Some (PStr "admin", PStr "guess2");
                   lr_clock := 20 * second; lr_later := 20 * second + 1 |}])
            "10.0.0.7" true (Some (PStr "admin", PStr "s3cret")) "sid2"
            (30 * second) (30 * second)))
  = 429.
Proof.
  apply (wrong_passwords_lock_the_address_out strict_config no_sessions "10.0.0.7" "sid"
           [{| lr_within_limit := true;
               lr_body := Some (PStr "admin", PStr "guess1");
               lr_clock := 10 * second; lr_later := 10 * second + 1 |};
            {| lr_within_limit := false;
               lr_body := Some (PStr "admin", PStr "s3cret");
               lr_clock := 15 * second; lr_later := 15 * second |};
            {| lr_within_limit := true;
               lr_body := Some (PStr "admin", PStr "guess2");
               lr_clock := 20 * second; lr_later := 20 * second + 1 |}] (30 * second)).
  - reflexivity.
  - reflexivity.
  - reflexivity.
  - repeat constructor; cbn [lr_clock lr_later lr_within_limit lr_body];
      try discriminate;
      try (intros _; eexists _, _; repeat split; reflexivity);
      unfold second; simpl; lia.
Defined.
